(** * WeekendTutor backend: the analysis, tutoring and image controllers

    A shallow embedding of [controllers/analyzeController.js]
    ([analyzeStudentResponse], [processLearningResponse]) and of
    [controllers/imageController.js] ([analyzeImage]).

    - JavaScript strings are sequences of UTF-16 code units ([list N]).
    - JSON values are a small inductive type; numbers are doubles, and
      objects keep the order in which their properties were created.
    - Regular expressions are data; matching is a backtracking matcher
      with the priorities of ECMAScript (greedy quantifiers, ordered
      alternatives, leftmost start).
    - A handler is a tree of external calls ([Prog]); exceptions are
      explicit, [try]/[catch] is a combinator. *)

From Stdlib Require Import List ZArith NArith Bool Ascii String Lia DecimalString.
From Stdlib Require Import Permutation.
From Stdlib Require DecimalPos DecimalZ.
Import ListNotations.

Set Warnings "-register-all".

Open Scope string_scope.
Open Scope list_scope.

(* ================================================================= *)
(** ** Strings *)

Module Js.

(** A string is its sequence of UTF-16 code units. *)
Definition jsstring := list N.

(** An ASCII literal as a JavaScript string. *)
Definition str (s : string) : jsstring :=
  map N_of_ascii (list_ascii_of_string s).

Definition LF : N := 10%N.
Definition DQUOTE : jsstring := [34%N].

Fixpoint jsstring_eqb (a b : jsstring) : bool :=
  match a, b with
  | [], [] => true
  | x :: a', y :: b' => N.eqb x y && jsstring_eqb a' b'
  | _, _ => false
  end.

(** [WhiteSpace] and [LineTerminator] of ECMAScript: the code units that
    [\s] matches and that [String.prototype.trim] strips. *)
Definition is_space (c : N) : bool :=
  (existsb (N.eqb c)
     [9; 10; 11; 12; 13; 32; 160; 5760; 8232; 8233; 8239; 8287; 12288; 65279]
   || ((8192 <=? c) && (c <=? 8202)))%N.

Definition is_digit (c : N) : bool := ((48 <=? c) && (c <=? 57))%N.

Fixpoint drop_while (p : N -> bool) (s : jsstring) : jsstring :=
  match s with
  | [] => []
  | c :: t => if p c then drop_while p t else s
  end.

Fixpoint take_while (p : N -> bool) (s : jsstring) : jsstring :=
  match s with
  | [] => []
  | c :: t => if p c then c :: take_while p t else []
  end.

(** [String.prototype.trim]. *)
Definition trim (s : jsstring) : jsstring :=
  rev (drop_while is_space (rev (drop_while is_space s))).

(** [s.split(sep)] for a separator of one code unit. *)
Fixpoint split (sep : N) (s : jsstring) : list jsstring :=
  match s with
  | [] => [[]]
  | c :: t =>
      if N.eqb c sep then [] :: split sep t
      else match split sep t with
           | l :: ls => (c :: l) :: ls
           | [] => [[c]]
           end
  end.

(** [Array.prototype.slice(0, n)]. *)
Definition slice0 {A} (n : nat) (l : list A) : list A := firstn n l.

(** [toLowerCase] and [toUpperCase] on the ASCII letters; the handlers
    apply them to text that a pattern has already restricted to ASCII. *)
Definition lower_unit (c : N) : N :=
  if ((65 <=? c) && (c <=? 90))%N then (c + 32)%N else c.

Definition upper_unit (c : N) : N :=
  if ((97 <=? c) && (c <=? 122))%N then (c - 32)%N else c.

Definition toLowerCase (s : jsstring) : jsstring := map lower_unit s.

(** Number to string, for integers. *)
Definition string_of_Z (z : Z) : jsstring :=
  str (NilZero.string_of_int (Z.to_int z)).

Definition string_of_nat (n : nat) : jsstring :=
  string_of_Z (Z.of_nat n).

(** *** Values *)

(** The values that travel through the handlers: request fields, parsed
    JSON and response bodies.  A Number is an IEEE 754 double:
    - [JNum z] is the double whose value is the integer [z] (the two
      zeros are one value here: no operation of the handlers tells them
      apart, and JSON writes both as [0]);
    - [JFrac num scale] is a double that is not an integer, of value
      [num / 2^scale] with [num] odd;
    - [JInfinity] and [JNaN] are the infinities and [NaN]. *)
Inductive jsval : Type :=
| JUndefined
| JNull
| JBool (b : bool)
| JNum (z : Z)
| JFrac (num : Z) (scale : positive)
| JInfinity (negative : bool)
| JNaN
| JStr (s : jsstring)
| JArr (elems : list jsval)
| JObj (props : list (jsstring * jsval)).

(** [ToBoolean]. *)
Definition truthy (v : jsval) : bool :=
  match v with
  | JUndefined | JNull | JNaN => false
  | JBool b => b
  | JNum z => negb (Z.eqb z 0)
  | JFrac _ _ | JInfinity _ => true
  | JStr s => match s with [] => false | _ => true end
  | JArr _ | JObj _ => true
  end.

(** *** Numbers *)

(** The position of the leading bit of [p / q], for positive [p], [q]. *)
Definition floor_log2 (p q : Z) : Z :=
  let l := (Z.log2 p - Z.log2 q)%Z in
  if (if 0 <=? l then q * 2 ^ l <=? p else q <=? p * 2 ^ (- l))%Z
  then l else (l - 1)%Z.

(** [n / d] rounded to the nearest integer, and to the even one of the
    two nearest. *)
Definition round_half_even (n d : Z) : Z :=
  let q := (n / d)%Z in
  match (2 * (n mod d) ?= d)%Z with
  | Lt => q
  | Gt => (q + 1)%Z
  | Eq => if Z.even q then q else (q + 1)%Z
  end.

Fixpoint low_zeros (p : positive) : Z :=
  match p with
  | xO p' => (1 + low_zeros p')%Z
  | _ => 0%Z
  end.

(** The Number of value [m * 2^e]: an integer, or a fraction in lowest
    terms. *)
Definition dyadic (m e : Z) : jsval :=
  if (0 <=? e)%Z then JNum (m * 2 ^ e)
  else if (m mod 2 ^ (- e) =? 0)%Z then JNum (m / 2 ^ (- e))
  else
    match m with
    | Z0 => JNum 0
    | Zpos p | Zneg p =>
        let t := low_zeros p in
        JFrac (m / 2 ^ t) (Z.to_pos (- e - t))
    end.

(** The Number value for the real [p / q], [q] positive: the nearest
    double, the one with an even significand of the two nearest.  A
    double has a significand of 53 bits over a unit of [2^-1074] at
    least; a value that rounds to [2^1024] or more is an infinity. *)
Definition round_double (p q : Z) : jsval :=
  match p with
  | Z0 => JNum 0
  | _ =>
      let a := Z.abs p in
      let e := floor_log2 a q in
      let u := Z.max (e - 52) (-1074) in
      let m := if (0 <=? u)%Z then round_half_even a (q * 2 ^ u)
               else round_half_even (a * 2 ^ (- u)) q in
      if (1024 <=? Z.log2 m + u)%Z then JInfinity (p <? 0)%Z
      else dyadic (Z.sgn p * m) u
  end.

(** The value of a finite Number, as a fraction. *)
Definition ratio_of (v : jsval) : option (Z * Z) :=
  match v with
  | JNum z => Some (z, 1%Z)
  | JFrac n s => Some (n, (2 ^ Zpos s)%Z)
  | _ => None
  end.

Definition negate (v : jsval) : jsval :=
  match v with
  | JNum z => JNum (- z)
  | JFrac n s => JFrac (- n) s
  | JInfinity b => JInfinity (negb b)
  | _ => v
  end.

(** *** Number::toString *)

Definition below_pow10 (p q n : Z) : bool :=
  (if 0 <=? n then p <? q * 10 ^ n else p * 10 ^ (- n) <? q)%Z.

Fixpoint first_pow10 (fuel : nat) (p q n : Z) : Z :=
  match fuel with
  | O => n
  | S f => if below_pow10 p q n then n else first_pow10 f p q (n + 1)%Z
  end.

(** The [n] with [10^(n-1) <= p / q < 10^n]; the search starts below it. *)
Definition decimal_exponent (p q : Z) : Z :=
  first_pow10 4 p q (floor_log2 p q * 30103 / 100000 - 1)%Z.

(** [s * 10^e] is read back as the double [p / q]. *)
Definition reads_back (p q s e : Z) : bool :=
  match ratio_of (if (0 <=? e)%Z then round_double (s * 10 ^ e) 1
                  else round_double s (10 ^ (- e))) with
  | Some (a, b) => (a * q =? p * b)%Z
  | None => false
  end.

(** The digits [s], their number [k] and the exponent [n] of
    Number::toString: [k] as small as possible with [s * 10^(n-k)] read
    back as the number, and [s] the nearest to the number for that [k]. *)
Fixpoint shortest (fuel : nat) (p q n k : Z) : Z * Z * Z :=
  let e := (n - k)%Z in
  let '(num, den) := if (0 <=? e)%Z then (p, (q * 10 ^ e)%Z)
                     else ((p * 10 ^ (- e))%Z, q) in
  let lo := (num / den)%Z in
  let hi := (lo + 1)%Z in
  let pick :=
    match reads_back p q lo e, reads_back p q hi e with
    | true, true =>
        match (2 * (num mod den) ?= den)%Z with
        | Lt => Some lo
        | Gt => Some hi
        | Eq => Some (if Z.even lo then lo else hi)
        end
    | true, false => Some lo
    | false, true => Some hi
    | false, false => None
    end in
  match pick, fuel with
  | Some s, _ => if (s =? 10 ^ k)%Z then (1, 1, n + 1)%Z else (s, k, n)
  | None, S f => shortest f p q n (k + 1)%Z
  | None, O => (lo, k, n)
  end.

Definition zeros (n : Z) : jsstring := repeat 48%N (Z.to_nat n).

Definition format_number (s k n : Z) : jsstring :=
  let digits := string_of_Z s in
  if ((k <=? n) && (n <=? 21))%Z then digits ++ zeros (n - k)
  else if ((0 <? n) && (n <=? 21))%Z then
    firstn (Z.to_nat n) digits ++ str "." ++ skipn (Z.to_nat n) digits
  else if ((-6 <? n) && (n <=? 0))%Z then str "0." ++ zeros (- n) ++ digits
  else
    let exponent :=
      (if (n - 1 <? 0)%Z then str "e-" else str "e+")
      ++ string_of_Z (Z.abs (n - 1)) in
    match digits with
    | d :: (_ :: _) as more => d :: str "." ++ more ++ exponent
    | _ => digits ++ exponent
    end.

Definition positive_to_string (p q : Z) : jsstring :=
  let '(s, k, n) := shortest 16 p q (decimal_exponent p q) 1 in
  format_number s k n.

(** Number::toString in radix 10.  An integer of at most [2^53] is
    written with all its digits. *)
Definition Number_toString (v : jsval) : jsstring :=
  match v with
  | JNaN => str "NaN"
  | JInfinity false => str "Infinity"
  | JInfinity true => str "-Infinity"
  | JNum z =>
      if (Z.abs z <=? 2 ^ 53)%Z then string_of_Z z
      else if (z <? 0)%Z then str "-" ++ positive_to_string (- z) 1
      else positive_to_string z 1
  | JFrac n s =>
      if (n <? 0)%Z then str "-" ++ positive_to_string (- n) (2 ^ Zpos s)
      else positive_to_string n (2 ^ Zpos s)
  | _ => []
  end.

(** *** Conversion to a string *)

(** [ToString], as applied by template literals, where it returns.  An
    array joins its elements with a comma, [null] and [undefined]
    elements being empty.  An object goes through [ToPrimitive]: see
    [has_primitive] for the objects on which that throws. *)
Fixpoint ToString (v : jsval) : jsstring :=
  match v with
  | JUndefined => str "undefined"
  | JNull => str "null"
  | JBool true => str "true"
  | JBool false => str "false"
  | JNum z => Number_toString (JNum z)
  | JFrac n s => Number_toString (JFrac n s)
  | JInfinity b => Number_toString (JInfinity b)
  | JNaN => str "NaN"
  | JStr s => s
  | JArr elems =>
      (fix join (l : list jsval) : jsstring :=
         match l with
         | [] => []
         | x :: rest =>
             let e := match x with
                      | JUndefined | JNull => []
                      | _ => ToString x
                      end in
             match rest with
             | [] => e
             | _ => e ++ str "," ++ join rest
             end
         end) elems
  | JObj _ => str "[object Object]"
  end.

(** [ToPrimitive] on a value of parsed JSON calls the methods
    [toString] and [valueOf] of the value.  An object inherits
    [Object.prototype.toString], which answers [[object Object]], unless
    it has a property [toString] of its own: a property of parsed JSON
    is never a function, so the method is skipped, [valueOf] (inherited,
    it returns the object; of its own, it is no function either) gives
    no primitive, and [ToPrimitive] throws a [TypeError].  An array
    joins its elements, converting each of them. *)
Fixpoint has_primitive (v : jsval) : bool :=
  match v with
  | JObj props =>
      negb (existsb (fun kv => jsstring_eqb (fst kv) (str "toString")) props)
  | JArr elems => forallb has_primitive elems
  | _ => true
  end.

(** The message of that [TypeError]. *)
Definition no_primitive : jsstring :=
  str "Cannot convert object to primitive value".

(** [ToPrimitive], where it returns. *)
Definition ToPrimitive (v : jsval) : jsval :=
  match v with
  | JArr _ | JObj _ => JStr (ToString v)
  | _ => v
  end.

(** *** Conversion to a number *)

Definition digit_value (c : N) : option Z :=
  if is_digit c then Some (Z.of_N c - 48)%Z
  else if ((97 <=? c) && (c <=? 102))%N then Some (Z.of_N c - 87)%Z
  else if ((65 <=? c) && (c <=? 70))%N then Some (Z.of_N c - 55)%Z
  else None.

Definition in_radix (radix : Z) (c : N) : bool :=
  match digit_value c with
  | Some d => (d <? radix)%Z
  | None => false
  end.

Definition digits_value (radix : Z) (ds : jsstring) : Z :=
  fold_left
    (fun acc c => match digit_value c with
                  | Some d => (acc * radix + d)%Z
                  | None => acc
                  end) ds 0%Z.

(** The Number for [m * 10^e], [m] written with [len] digits.  Beyond
    [10^400] and below [10^-400] the result does not depend on [m]. *)
Definition scientific (m e : Z) (len : nat) : jsval :=
  if (m =? 0)%Z then JNum 0
  else if (0 <=? e)%Z then
    if (400 <? e)%Z then JInfinity false else round_double (m * 10 ^ e) 1
  else
    if (Z.of_nat len + e <? -400)%Z then JNum 0
    else round_double m (10 ^ (- e)).

(** [ExponentPart], or nothing, up to the end of the text. *)
Definition exponent_part (s : jsstring) : option Z :=
  match s with
  | [] => Some 0%Z
  | c :: t =>
      if N.eqb c 101 || N.eqb c 69 then
        let '(negative, ds) :=
          match t with
          | x :: r => if N.eqb x 45 then (true, r)
                      else if N.eqb x 43 then (false, r) else (false, t)
          | [] => (false, t)
          end in
        match ds with
        | [] => None
        | _ => if forallb is_digit ds
               then Some (if negative then - digits_value 10 ds
                          else digits_value 10 ds)%Z
               else None
        end
      else None
  end.

(** [StrUnsignedDecimalLiteral]: [Infinity], or digits with an optional
    fraction and an optional exponent. *)
Definition unsigned_decimal (s : jsstring) : jsval :=
  if jsstring_eqb s (str "Infinity") then JInfinity false
  else
    let whole := take_while is_digit s in
    let after := drop_while is_digit s in
    let '(fraction, rest) :=
      match after with
      | 46%N :: t => (take_while is_digit t, drop_while is_digit t)
      | _ => ([], after)
      end in
    match whole ++ fraction with
    | [] => JNaN
    | ds =>
        match exponent_part rest with
        | Some e => scientific (digits_value 10 ds)
                               (e - Z.of_nat (List.length fraction))
                               (List.length ds)
        | None => JNaN
        end
    end.

(** [NonDecimalIntegerLiteral], after its prefix. *)
Definition integer_literal (radix : Z) (ds : jsstring) : jsval :=
  match ds with
  | [] => JNaN
  | _ => if forallb (in_radix radix) ds
         then round_double (digits_value radix ds) 1
         else JNaN
  end.

(** [StringToNumber]: the text without the white space around it is
    empty (zero), a signed decimal literal, or a binary, octal or
    hexadecimal integer; anything else is [NaN]. *)
Definition StringToNumber (s : jsstring) : jsval :=
  match trim s with
  | [] => JNum 0
  | (c :: t) as text =>
      if N.eqb c 43 then unsigned_decimal t
      else if N.eqb c 45 then negate (unsigned_decimal t)
      else
        match text with
        | 48%N :: x :: ds =>
            if N.eqb x 120 || N.eqb x 88 then integer_literal 16 ds
            else if N.eqb x 111 || N.eqb x 79 then integer_literal 8 ds
            else if N.eqb x 98 || N.eqb x 66 then integer_literal 2 ds
            else unsigned_decimal text
        | _ => unsigned_decimal text
        end
  end.

(** [ToNumber] of a primitive. *)
Definition ToNumber (v : jsval) : jsval :=
  match v with
  | JUndefined => JNaN
  | JNull => JNum 0
  | JBool true => JNum 1
  | JBool false => JNum 0
  | JStr s => StringToNumber s
  | JArr _ | JObj _ => JNaN
  | number => number
  end.

(** *** Comparison *)

(** [x < y] on Numbers; [None] is the [undefined] that a [NaN] gives. *)
Definition number_lt (x y : jsval) : option bool :=
  match x, y with
  | JNaN, _ | _, JNaN => None
  | JInfinity a, JInfinity b => Some (a && negb b)
  | JInfinity a, _ => Some a
  | _, JInfinity b => Some (negb b)
  | _, _ =>
      match ratio_of x, ratio_of y with
      | Some (a, b), Some (c, d) => Some (a * d <? c * b)%Z
      | _, _ => None
      end
  end.

(** [x < y] on strings: by code units, a proper prefix being smaller. *)
Fixpoint string_lt (x y : jsstring) : bool :=
  match x, y with
  | _, [] => false
  | [], _ :: _ => true
  | a :: x', b :: y' =>
      if N.ltb a b then true
      else if N.ltb b a then false
      else string_lt x' y'
  end.

(** [IsLessThan] on primitives: two strings compare as strings, any
    other pair as numbers. *)
Definition less_than (px py : jsval) : option bool :=
  match px, py with
  | JStr x, JStr y => Some (string_lt x y)
  | _, _ => number_lt (ToNumber px) (ToNumber py)
  end.

(** *** Objects *)

(** The properties of an object, in the order of their creation. *)
Definition object := list (jsstring * jsval).

Fixpoint get (o : object) (key : jsstring) : option jsval :=
  match o with
  | [] => None
  | (k, v) :: rest => if jsstring_eqb k key then Some v else get rest key
  end.

(** Defining a property keeps the position of an existing key and
    appends a new one. *)
Fixpoint set (o : object) (key : jsstring) (v : jsval) : object :=
  match o with
  | [] => [(key, v)]
  | (k, w) :: rest =>
      if jsstring_eqb k key then (k, v) :: rest else (k, w) :: set rest key v
  end.

Fixpoint indexed {A} (f : A -> jsval) (i : nat) (l : list A) : object :=
  match l with
  | [] => []
  | x :: rest => (string_of_nat i, f x) :: indexed f (S i) rest
  end.

(** An array index: the canonical decimal form of an integer below
    [2^32 - 1]. *)
Definition array_index (key : jsstring) : option Z :=
  match key with
  | [] => None
  | c :: rest =>
      if forallb is_digit key
         && (negb (N.eqb c 48) || match rest with [] => true | _ => false end)
         && (digits_value 10 key <? 4294967295)%Z
      then Some (digits_value 10 key)
      else None
  end.

(** [insert_index i kv l]: [kv] behind the entries of [l] whose index
    is smaller than [i]. *)
Fixpoint insert_index (i : Z) (kv : jsstring * jsval)
         (l : list (Z * (jsstring * jsval))) : list (Z * (jsstring * jsval)) :=
  match l with
  | [] => [(i, kv)]
  | (j, x) :: rest =>
      if (j <? i)%Z then (j, x) :: insert_index i kv rest
      else (i, kv) :: l
  end.

Fixpoint index_keys (props : object) : list (Z * (jsstring * jsval)) :=
  match props with
  | [] => []
  | kv :: rest =>
      match array_index (fst kv) with
      | Some i => insert_index i kv (index_keys rest)
      | None => index_keys rest
      end
  end.

(** [OrdinaryOwnPropertyKeys]: the array indices in ascending order,
    then the other keys in the order of their creation. *)
Definition own_keys_order (props : object) : object :=
  map snd (index_keys props)
  ++ filter (fun kv => match array_index (fst kv) with
                       | Some _ => false
                       | None => true
                       end) props.

(** The own enumerable properties that an object spread [...v] copies,
    in the order in which it copies them. *)
Definition own_properties (v : jsval) : object :=
  match v with
  | JObj props => own_keys_order props
  | JArr elems => indexed (fun x => x) 0 elems
  | JStr s => indexed (fun c => JStr [c]) 0 s
  | _ => []
  end.

(** [{ ...base, ...v }]. *)
Definition spread (base : object) (v : jsval) : object :=
  fold_left (fun o kv => set o (fst kv) (snd kv)) (own_properties v) base.

(** *** parseInt *)

(** [parseInt(s)] without a radix: leading white space, an optional
    sign, an optional [0x] prefix, then the longest run of digits; the
    result is the Number for the integer that they write. *)
Definition parse_digits (radix : Z) (s : jsstring) : option Z :=
  match take_while (in_radix radix) s with
  | [] => None
  | ds => Some (digits_value radix ds)
  end.

Definition parseInt (s : jsstring) : jsval :=
  let s1 := drop_while is_space s in
  let '(sign, s2) :=
    match s1 with
    | c :: t =>
        if N.eqb c 45 then ((-1)%Z, t)
        else if N.eqb c 43 then (1%Z, t)
        else (1%Z, s1)
    | [] => (1%Z, s1)
    end in
  let '(radix, s3) :=
    match s2 with
    | c0 :: cx :: t =>
        if N.eqb c0 48 && (N.eqb cx 120 || N.eqb cx 88) then (16%Z, t)
        else (10%Z, s2)
    | _ => (10%Z, s2)
    end in
  match parse_digits radix s3 with
  | Some n => round_double (sign * n) 1
  | None => JNaN
  end.

End Js.

(* ================================================================= *)
(** ** Regular expressions *)

Module Regex.
Import Js.

(** The character classes the patterns use: [\d], [\s] and [[^\n]]. *)
Inductive charclass : Type :=
| Digit
| Space
| NotLF.

Definition in_class (c : charclass) (x : N) : bool :=
  match c with
  | Digit => is_digit x
  | Space => is_space x
  | NotLF => negb (N.eqb x LF)
  end.

(** Pattern syntax.  Quantifiers are greedy and, as in every pattern of
    the controllers, quantify a class; a group carries the number of its
    opening parenthesis. *)
Inductive regex : Type :=
| Lit (l : jsstring)
| Seq (r1 r2 : regex)
| Alt (r1 r2 : regex)
| Opt (r : regex)
| Star (c : charclass)
| Plus (c : charclass)
| Group (n : nat) (r : regex).

Record RegExp : Type := mkRegExp {
  source : regex;
  ignoreCase : bool;
  global : bool
}.

(** [Canonicalize] for a pattern without the [u] flag.  Pattern
    characters are ASCII; a code unit above 127 is never identified with
    an ASCII one, so only the ASCII letters change. *)
Definition canonicalize (i : bool) (c : N) : N :=
  if i then upper_unit c else c.

Definition unit_eqb (i : bool) (p c : N) : bool :=
  N.eqb (canonicalize i p) (canonicalize i c).

(** The input after the literal [l], when the input starts with it. *)
Fixpoint strip_prefix (i : bool) (l s : jsstring) : option jsstring :=
  match l with
  | [] => Some s
  | p :: l' =>
      match s with
      | c :: s' => if unit_eqb i p c then strip_prefix i l' s' else None
      | [] => None
      end
  end.

Definition captures := list (nat * jsstring).

Fixpoint capture (caps : captures) (n : nat) : option jsstring :=
  match caps with
  | [] => None
  | (m, s) :: rest => if Nat.eqb m n then Some s else capture rest n
  end.

(** The part of [s] consumed when [rest] is what remains of it. *)
Definition consumed (s rest : jsstring) : jsstring :=
  firstn (List.length s - List.length rest) s.

Section Matcher.
Context {R : Type}.

(** Greedy repetition of a class: the longest run first, then
    shorter ones while the continuation fails. *)
Fixpoint star_greedy (p : N -> bool) (s : jsstring)
         (k : jsstring -> option R) : option R :=
  match s with
  | c :: t =>
      if p c then
        match star_greedy p t k with
        | Some x => Some x
        | None => k s
        end
      else k s
  | [] => k s
  end.

(** The backtracking matcher, in continuation-passing style: [k]
    receives the rest of the input and the captures so far, and a
    failure of [k] makes the matcher try its next alternative. *)
Fixpoint rmatch (i : bool) (r : regex) (s : jsstring) (caps : captures)
         (k : jsstring -> captures -> option R) : option R :=
  match r with
  | Lit l =>
      match strip_prefix i l s with
      | Some s' => k s' caps
      | None => None
      end
  | Seq r1 r2 =>
      rmatch i r1 s caps (fun s' caps' => rmatch i r2 s' caps' k)
  | Alt r1 r2 =>
      match rmatch i r1 s caps k with
      | Some x => Some x
      | None => rmatch i r2 s caps k
      end
  | Opt r1 =>
      match rmatch i r1 s caps k with
      | Some x => Some x
      | None => k s caps
      end
  | Star c => star_greedy (in_class c) s (fun s' => k s' caps)
  | Plus c =>
      match s with
      | x :: t =>
          if in_class c x
          then star_greedy (in_class c) t (fun s' => k s' caps)
          else None
      | [] => None
      end
  | Group n r1 =>
      rmatch i r1 s caps
             (fun s' caps' => k s' ((n, consumed s s') :: caps'))
  end.
End Matcher.

(** A match: the matched text and the captures. *)
Record MatchResult : Type := mkMatch {
  matched : jsstring;
  groups : captures
}.

(** A match that starts at the first code unit of [s]. *)
Definition match_here (re : RegExp) (s : jsstring) : option MatchResult :=
  rmatch (ignoreCase re) (source re) s []
         (fun rest caps => Some (mkMatch (consumed s rest) caps)).

(** [RegExpBuiltinExec] from index 0: the leftmost start that matches. *)
Fixpoint exec (re : RegExp) (s : jsstring) : option MatchResult :=
  match match_here re s with
  | Some m => Some m
  | None =>
      match s with
      | [] => None
      | _ :: t => exec re t
      end
  end.

(** [re.test(s)] for a pattern without the [g] flag. *)
Definition test (re : RegExp) (s : jsstring) : bool :=
  match exec re s with
  | Some _ => true
  | None => false
  end.

(** All successive matches of a [g] pattern.  [skip] code units are
    still covered by the previous match; after an empty match the
    search resumes one code unit further. *)
Fixpoint scan (re : RegExp) (skip : nat) (s : jsstring) : list jsstring :=
  match skip with
  | S n =>
      match s with
      | [] => []
      | _ :: t => scan re n t
      end
  | O =>
      match match_here re s with
      | Some m =>
          matched m ::
          match s with
          | [] => []
          | _ :: t => scan re (List.length (matched m) - 1) t
          end
      | None =>
          match s with
          | [] => []
          | _ :: t => scan re 0 t
          end
      end
  end.

(** [s.match(re)]: for a [g] pattern the array of all matched texts,
    otherwise the first match with its groups; [null] without a match. *)
Definition match_all (re : RegExp) (s : jsstring) : option (list jsstring) :=
  match scan re 0 s with
  | [] => None
  | ms => Some ms
  end.

Definition match_first (re : RegExp) (s : jsstring) : option MatchResult :=
  exec re s.

(** What a pattern can match, as a relation on texts. *)
Fixpoint unit_eq_str (i : bool) (l m : jsstring) : Prop :=
  match l, m with
  | [], [] => True
  | p :: l', c :: m' => unit_eqb i p c = true /\ unit_eq_str i l' m'
  | _, _ => False
  end.

Fixpoint lang (i : bool) (r : regex) (m : jsstring) : Prop :=
  match r with
  | Lit l => unit_eq_str i l m
  | Seq r1 r2 => exists m1 m2, m = m1 ++ m2 /\ lang i r1 m1 /\ lang i r2 m2
  | Alt r1 r2 => lang i r1 m \/ lang i r2 m
  | Opt r1 => m = [] \/ lang i r1 m
  | Star c => Forall (fun x => in_class c x = true) m
  | Plus c => m <> [] /\ Forall (fun x => in_class c x = true) m
  | Group _ r1 => lang i r1 m
  end.

(** [m] occurs in [s] with [pre] before it. *)
Definition occurs_at (re : RegExp) (s pre m : jsstring) : Prop :=
  exists post, s = pre ++ m ++ post /\ lang (ignoreCase re) (source re) m.

End Regex.

(* ================================================================= *)
(** ** External calls, exceptions and HTTP responses *)

Module Effects.
Import Js.

(** How an external call or a throwing operation ends; [Rejected]
    carries the [message] of the error. *)
Inductive Outcome (A : Type) : Type :=
| Resolved (a : A)
| Rejected (message : jsstring).
Arguments Resolved {A} a.
Arguments Rejected {A} message.

(** *** The completion provider *)

Inductive ContentPart : Type :=
| TextPart (text : jsstring)
| ImageUrlPart (url : jsval).

Inductive MessageContent : Type :=
| Text (s : jsstring)
| Parts (l : list ContentPart).

Record Message : Type := mkMessage {
  role : jsstring;
  msg_content : MessageContent
}.

(** The arguments of [createChatCompletion].  [temperature] holds the
    literal as written; [functions] the names of the declared functions. *)
Record ChatRequest : Type := mkChatRequest {
  model : jsstring;
  messages : list Message;
  temperature : option jsstring;
  max_tokens : Z;
  forced_function : option jsstring;
  functions : list jsstring
}.

Record FunctionCall : Type := mkFunctionCall {
  fc_name : jsstring;
  arguments : jsstring
}.

(** [choices[i].message] of a completion: [function_call] may be absent,
    [content] is a string or [null]. *)
Record ChatMessage : Type := mkChatMessage {
  function_call : option FunctionCall;
  content : option jsstring
}.

Record ChatCompletion : Type := mkChatCompletion {
  choices : list ChatMessage
}.

Record AudioRequest : Type := mkAudioRequest {
  audio_model : jsstring;
  voice : jsstring;
  input : jsval
}.

(** *** Handlers as trees of calls *)

Inductive Prog (A : Type) : Type :=
| Ret (a : A)
| CreateChatCompletion (req : ChatRequest)
                       (k : Outcome ChatCompletion -> Prog A)
| CreateAudio (req : AudioRequest) (k : Outcome jsstring -> Prog A)
| DateNow (k : Z -> Prog A)
| ExistsSync (path : jsstring) (k : bool -> Prog A)
| MkdirSync (path : jsstring) (k : Outcome unit -> Prog A)
| WriteFileSync (path data : jsstring) (k : Outcome unit -> Prog A)
| ConsoleError (label message : jsstring) (k : Prog A).
Arguments Ret {A} a.
Arguments CreateChatCompletion {A} req k.
Arguments CreateAudio {A} req k.
Arguments DateNow {A} k.
Arguments ExistsSync {A} path k.
Arguments MkdirSync {A} path k.
Arguments WriteFileSync {A} path data k.
Arguments ConsoleError {A} label message k.

Fixpoint bind {A B} (m : Prog A) (f : A -> Prog B) : Prog B :=
  match m with
  | Ret a => f a
  | CreateChatCompletion req k => CreateChatCompletion req (fun o => bind (k o) f)
  | CreateAudio req k => CreateAudio req (fun o => bind (k o) f)
  | DateNow k => DateNow (fun t => bind (k t) f)
  | ExistsSync p k => ExistsSync p (fun b => bind (k b) f)
  | MkdirSync p k => MkdirSync p (fun o => bind (k o) f)
  | WriteFileSync p d k => WriteFileSync p d (fun o => bind (k o) f)
  | ConsoleError l e k => ConsoleError l e (bind k f)
  end.

(** A computation that may throw. *)
Definition Task (A : Type) : Type := Prog (Outcome A).

Definition ret {A} (a : A) : Task A := Ret (Resolved a).
Definition throw {A} (message : jsstring) : Task A := Ret (Rejected message).

Definition and_then {A B} (m : Task A) (f : A -> Task B) : Task B :=
  bind m (fun o =>
            match o with
            | Resolved a => f a
            | Rejected e => Ret (Rejected e)
            end).

(** [try { body } catch (error) { handler }]. *)
Definition try_catch {A} (body : Task A) (handler : jsstring -> Prog A)
  : Prog A :=
  bind body (fun o =>
               match o with
               | Resolved a => Ret a
               | Rejected e => handler e
               end).

(** The conversion of the values [vs] to primitives, one after the
    other: what a template literal does with its substitutions, and a
    comparison with its operands, before the result is computed.  It
    throws at the first value that has no primitive. *)
Definition to_primitives (vs : list jsval) : Task unit :=
  if forallb has_primitive vs then ret tt else throw no_primitive.

Definition createChatCompletion (req : ChatRequest) : Task ChatCompletion :=
  CreateChatCompletion req (fun o => Ret o).
Definition createAudio (req : AudioRequest) : Task jsstring :=
  CreateAudio req (fun o => Ret o).
Definition now : Task Z := DateNow (fun t => ret t).
Definition existsSync (path : jsstring) : Task bool :=
  ExistsSync path (fun b => ret b).
Definition mkdirSync (path : jsstring) : Task unit :=
  MkdirSync path (fun o => Ret o).
Definition writeFileSync (path data : jsstring) : Task unit :=
  WriteFileSync path data (fun o => Ret o).

(** *** Runs *)

(** What the outside world answered, call by call. *)
Inductive Event : Type :=
| EvChat (req : ChatRequest) (o : Outcome ChatCompletion)
| EvAudio (req : AudioRequest) (o : Outcome jsstring)
| EvNow (t : Z)
| EvExists (path : jsstring) (b : bool)
| EvMkdir (path : jsstring) (o : Outcome unit)
| EvWrite (path data : jsstring) (o : Outcome unit)
| EvConsoleError (label message : jsstring).

(** [Runs p tr a]: [p] ends with [a] after the interactions [tr]. *)
Inductive Runs {A : Type} : Prog A -> list Event -> A -> Prop :=
| RunsRet a :
    Runs (Ret a) [] a
| RunsChat req k o tr a :
    Runs (k o) tr a -> Runs (CreateChatCompletion req k) (EvChat req o :: tr) a
| RunsAudio req k o tr a :
    Runs (k o) tr a -> Runs (CreateAudio req k) (EvAudio req o :: tr) a
| RunsNow k t tr a :
    Runs (k t) tr a -> Runs (DateNow k) (EvNow t :: tr) a
| RunsExists p k b tr a :
    Runs (k b) tr a -> Runs (ExistsSync p k) (EvExists p b :: tr) a
| RunsMkdir p k o tr a :
    Runs (k o) tr a -> Runs (MkdirSync p k) (EvMkdir p o :: tr) a
| RunsWrite p d k o tr a :
    Runs (k o) tr a -> Runs (WriteFileSync p d k) (EvWrite p d o :: tr) a
| RunsConsoleError l e k tr a :
    Runs k tr a -> Runs (ConsoleError l e k) (EvConsoleError l e :: tr) a.

(** *** Responses *)

(** [res.status(status).json(json)]: the status, and the object handed
    to [json] with its properties in the order of their creation.  (The
    JSON text that is sent writes an infinity and [NaN] as [null] and
    leaves out a property whose value is [undefined].) *)
Record Response : Type := mkResponse {
  status : Z;
  json : object
}.

(** [choices[0].message]; reading [message] of a missing choice throws. *)
Definition first_message (response : ChatCompletion) : Task ChatMessage :=
  match choices response with
  | m :: _ => ret m
  | [] => throw (str "Cannot read properties of undefined (reading 'message')")
  end.

(** [message.content] as a value. *)
Definition content_value (m : ChatMessage) : jsval :=
  match content m with
  | Some s => JStr s
  | None => JNull
  end.

End Effects.

Declare Scope task_scope.
Delimit Scope task_scope with task.
Notation "x <- m ;; k" := (Effects.and_then m (fun x => k))
  (at level 61, m at next level, right associativity) : task_scope.

(* ================================================================= *)
(** ** controllers/analyzeController.js *)

Module AnalyzeRequest.
Import Js.
(** [req.body] of [POST /analyze], as the JSON body parser delivers it;
    a missing field is [JUndefined]. *)
Record body : Type := mkBody {
  studentResponse : jsval;
  context : jsval;
  subject : jsval;
  currentStep : jsval;
  totalSteps : jsval
}.
End AnalyzeRequest.

Module ProcessRequest.
Import Js.
(** [req.body] of [POST /process], as the JSON body parser delivers it;
    a missing field is [JUndefined]. *)
Record body : Type := mkBody {
  message : jsval;
  user_query : jsval;
  subject : jsval;
  current_step : jsval;
  total_steps : jsval;
  context : jsval;
  response_type : jsval
}.
End ProcessRequest.

Module AnalyzeController.
Import Js Regex Effects.
Local Open Scope task_scope.

(** [a >= b], once both operands have been converted to primitives:
    true when [a < b] is false, and false when [a < b] is true or
    undefined. *)
Definition ge (a b : jsval) : bool :=
  match less_than (ToPrimitive a) (ToPrimitive b) with
  | Some false => true
  | _ => false
  end.

(** [v === s] for a string literal [s]. *)
Definition strict_equals (v : jsval) (s : jsstring) : bool :=
  match v with
  | JStr x => jsstring_eqb x s
  | _ => false
  end.

(** *** analyzeStudentResponse *)

Definition analysis_prompt (subject currentStep totalSteps context : jsval) : jsstring :=
  str "
      You are an AI educational assistant analyzing a student's response.
      
      IMPORTANT: Never provide direct answers to educational problems. Instead, provide hints and guidance.
      
      The student is working on step " ++
  ToString currentStep ++
  str " of " ++
  ToString totalSteps ++
  str " in a " ++
  ToString subject ++
  str " problem.
      
      The context of this step is: " ++
  DQUOTE ++
  ToString context ++
  DQUOTE ++
  str "
      
      Analyze their response based on:
      1. Correctness (is the student on the right track?)
      2. Confusion level (how confused do they seem, on a scale of 0-10?)
      3. Any specific misconceptions
      
      Return your analysis as structured feedback that:
      - Encourages what they did right
      - Offers a HINT (not the answer) for areas of confusion
      - Asks a guiding question to help them reach the next step themselves
      
      Remember: Your goal is to help them learn and think for themselves, not to solve the problem for them.
    ".

Definition analysis_request (b : AnalyzeRequest.body) : ChatRequest :=
  let systemPrompt :=
    analysis_prompt (AnalyzeRequest.subject b) (AnalyzeRequest.currentStep b)
                    (AnalyzeRequest.totalSteps b) (AnalyzeRequest.context b) in
  {| model := str "gpt-4";
     messages :=
       [ mkMessage (str "system") (Text systemPrompt);
         mkMessage (str "user")
           (Text (str "Student's response: " ++ DQUOTE ++
                  ToString (AnalyzeRequest.studentResponse b) ++ DQUOTE)) ];
     temperature := Some (str "0.7");
     max_tokens := 500;
     forced_function := Some (str "analyze_student_response");
     functions := [str "analyze_student_response"] |}.

(** [/correct:\s*(true|false)/i] *)
Definition re_correct : RegExp :=
  mkRegExp
    (Seq (Lit (str "correct:"))
         (Seq (Star Space)
              (Group 1 (Alt (Lit (str "true")) (Lit (str "false"))))))
    true false.

(** [/confusion:\s*(\d+)/i] *)
Definition re_confusion : RegExp :=
  mkRegExp
    (Seq (Lit (str "confusion:"))
         (Seq (Star Space) (Group 1 (Plus Digit))))
    true false.

(** [m[n]] of a match array: the whole match at 0, then the groups. *)
Definition at_index (m : MatchResult) (n : nat) : jsval :=
  match n with
  | O => JStr (matched m)
  | _ => match capture (groups m) n with
         | Some s => JStr s
         | None => JUndefined
         end
  end.

(** [v.toLowerCase()]. *)
Definition call_toLowerCase (v : jsval) : Task jsstring :=
  match v with
  | JStr s => ret (toLowerCase s)
  | _ => throw (str "Cannot read properties of undefined (reading 'toLowerCase')")
  end.

(** The fallback of [analyzeStudentResponse], from [analysisText] on. *)
Definition fallback_analysis (content : option jsstring) : Task jsval :=
  match content with
  | None => throw (str "Cannot read properties of null (reading 'match')")
  | Some analysisText =>
      let isCorrectMatch := match_first re_correct analysisText in
      let confusionMatch := match_first re_confusion analysisText in
      is_correct <-
        match isCorrectMatch with
        | Some m =>
            lowered <- call_toLowerCase (at_index m 1) ;;
            ret (jsstring_eqb lowered (str "true"))
        | None => ret false
        end ;;
      ret (JObj
             [ (str "is_correct", JBool is_correct);
               (str "confusion_level",
                match confusionMatch with
                | Some m => parseInt (ToString (at_index m 1))
                | None => JNum 5
                end);
               (str "feedback", JStr analysisText) ])
  end.

Section WithJSON.
(** [JSON.parse], which throws on malformed text. *)
Variable JSON_parse : jsstring -> Outcome jsval.

Definition analyzeStudentResponse (b : AnalyzeRequest.body) : Prog Response :=
  try_catch
    (let studentResponse := AnalyzeRequest.studentResponse b in
     let context := AnalyzeRequest.context b in
     if negb (truthy studentResponse) || negb (truthy context) then
       ret (mkResponse 400
              [ (str "success", JBool false);
                (str "message",
                 JStr (str "Student response and context are required")) ])
     else
       _ <- to_primitives [ AnalyzeRequest.currentStep b;
                            AnalyzeRequest.totalSteps b;
                            AnalyzeRequest.subject b;
                            context;
                            studentResponse ] ;;
       response <- createChatCompletion (analysis_request b) ;;
       message <- first_message response ;;
       analysisResult <-
         match function_call message with
         | Some fc => Ret (JSON_parse (arguments fc))
         | None => fallback_analysis (content message)
         end ;;
       ret (mkResponse 200
              (spread [ (str "success", JBool true) ] analysisResult)))
    (fun error =>
       ConsoleError (str "Error analyzing student response:") error
         (Ret (mkResponse 500
                 [ (str "success", JBool false);
                   (str "message", JStr (str "Error analyzing student response"));
                   (str "error", JStr error) ]))).
End WithJSON.

(** *** processLearningResponse *)

Definition hint_template (subject current_step total_steps context : jsval) : jsstring :=
  str "
          You are an AI tutor helping a student with a " ++
  ToString subject ++
  str " problem.
          
          The student is on step " ++
  ToString current_step ++
  str " of " ++
  ToString total_steps ++
  str ".
          
          Current context: " ++
  DQUOTE ++
  ToString context ++
  DQUOTE ++
  str "
          
          The student has responded and needs a HINT to move forward. Do NOT give them the answer!
          
          Your response should:
          1. Acknowledge their answer with specific encouragement
          2. Provide a gentle hint that guides them in the right direction
          3. Ask a thought-provoking question that helps them discover the next step themselves
          4. Use age-appropriate language and examples
          
          Important guidelines:
          - NEVER solve the problem for them
          - Focus on process and thinking skills
          - Build confidence through guided discovery
          - Keep your response friendly, encouraging, and concise
        ".

Definition clarification_template (subject current_step total_steps context : jsval) : jsstring :=
  str "
          You are an AI tutor helping a confused student with a " ++
  ToString subject ++
  str " problem.
          
          The student is on step " ++
  ToString current_step ++
  str " of " ++
  ToString total_steps ++
  str " and seems confused.
          
          Current context: " ++
  DQUOTE ++
  ToString context ++
  DQUOTE ++
  str "
          
          Your response should:
          1. Reassure them that confusion is part of learning
          2. Clarify the concept they're struggling with using simple examples
          3. Break down the step into smaller, more manageable parts
          4. Provide a structured approach to help them get unstuck
          
          Important guidelines:
          - Use very clear, simple language
          - Explain concepts in multiple ways
          - Use metaphors or visual examples when possible
          - Keep your response patient, kind, and supportive
        ".

Definition encouragement_template (subject current_step total_steps context : jsval) : jsstring :=
  str "
          You are an AI tutor celebrating a student's progress with a " ++
  ToString subject ++
  str " problem.
          
          The student is on step " ++
  ToString current_step ++
  str " of " ++
  ToString total_steps ++
  str " and has provided a good answer.
          
          Current context: " ++
  DQUOTE ++
  ToString context ++
  DQUOTE ++
  str "
          
          Your response should:
          1. Provide specific praise for what they did well
          2. Reinforce the concept they just demonstrated
          3. Connect this knowledge to the bigger picture
          4. Present the next challenge with enthusiasm
          
          Important guidelines:
          - Be genuinely excited about their progress
          - Highlight specific aspects of their thinking that were effective
          - Build momentum and curiosity for the next step
          - Keep your response upbeat and motivating
        ".

Definition default_template (subject current_step total_steps context : jsval) : jsstring :=
  str "
          You are an AI tutor helping a student with a " ++
  ToString subject ++
  str " problem.
          
          The student is on step " ++
  ToString current_step ++
  str " of " ++
  ToString total_steps ++
  str ".
          
          Current context: " ++
  DQUOTE ++
  ToString context ++
  DQUOTE ++
  str "
          
          Provide guidance that helps them learn, but never give direct answers.
        ".

Definition final_step_addendum : jsstring :=
  str "
        This is the FINAL STEP in the learning process.
        
        In addition to your regular guidance:
        1. Summarize what they've learned through this process
        2. Celebrate their accomplishment
        3. Suggest how they might apply this knowledge
        4. End with a positive, encouraging note
      ".

(** The [switch] on [response_type]. *)
Definition select_template (response_type subject current_step total_steps
                            context : jsval) : jsstring :=
  if strict_equals response_type (str "hint") then
    hint_template subject current_step total_steps context
  else if strict_equals response_type (str "clarification") then
    clarification_template subject current_step total_steps context
  else if strict_equals response_type (str "encouragement") then
    encouragement_template subject current_step total_steps context
  else
    default_template subject current_step total_steps context.

(** The destructuring default [response_type = 'hint']. *)
Definition response_type_of (b : ProcessRequest.body) : jsval :=
  match ProcessRequest.response_type b with
  | JUndefined => JStr (str "hint")
  | v => v
  end.

Definition isFinalStep (b : ProcessRequest.body) : bool :=
  ge (ProcessRequest.current_step b) (ProcessRequest.total_steps b).

(** [systemPrompt] as it stands when the completion is requested. *)
Definition systemPrompt (b : ProcessRequest.body) : jsstring :=
  let base :=
    select_template (response_type_of b) (ProcessRequest.subject b)
                    (ProcessRequest.current_step b)
                    (ProcessRequest.total_steps b)
                    (ProcessRequest.context b) in
  if isFinalStep b then base ++ final_step_addendum else base.

Definition process_request (b : ProcessRequest.body) : ChatRequest :=
  {| model := str "gpt-4";
     messages :=
       [ mkMessage (str "system") (Text (systemPrompt b));
         mkMessage (str "user")
           (Text (str "Original question: " ++ DQUOTE ++
                  ToString (ProcessRequest.user_query b) ++ DQUOTE ++
                  [LF; LF] ++ str "Student's message: " ++ DQUOTE ++
                  ToString (ProcessRequest.message b) ++ DQUOTE)) ];
     temperature := Some (str "0.7");
     max_tokens := 500;
     forced_function := None;
     functions := [] |}.

Definition processLearningResponse (b : ProcessRequest.body) : Prog Response :=
  try_catch
    (if negb (truthy (ProcessRequest.message b))
        || negb (truthy (ProcessRequest.subject b)) then
       ret (mkResponse 400
              [ (str "success", JBool false);
                (str "message",
                 JStr (str "Student message and subject are required")) ])
     else
       _ <- to_primitives [ ProcessRequest.current_step b;
                            ProcessRequest.total_steps b ] ;;
       _ <- to_primitives [ ProcessRequest.subject b;
                            ProcessRequest.current_step b;
                            ProcessRequest.total_steps b;
                            ProcessRequest.context b;
                            ProcessRequest.user_query b;
                            ProcessRequest.message b ] ;;
       response <- createChatCompletion (process_request b) ;;
       message <- first_message response ;;
       let responseText := content_value message in
       let updatedContext :=
         ToString (ProcessRequest.context b) ++ [LF; LF] ++
         str "Student: " ++ ToString (ProcessRequest.message b) ++ [LF; LF] ++
         str "Tutor: " ++ ToString responseText in
       ret (mkResponse 200
              [ (str "success", JBool true);
                (str "next_step", responseText);
                (str "is_final_step", JBool (isFinalStep b));
                (str "context", JStr updatedContext) ]))
    (fun error =>
       ConsoleError (str "Error processing learning response:") error
         (Ret (mkResponse 500
                 [ (str "success", JBool false);
                   (str "message", JStr (str "Error processing learning response"));
                   (str "error", JStr error) ]))).

End AnalyzeController.

(* ================================================================= *)
(** ** controllers/imageController.js *)

Module ImageController.
Import Js Regex Effects.
Local Open Scope task_scope.

(** The request of [analyzeImage]: two body fields, and what
    [getBaseUrl] reads: [req.protocol], a string, and
    [req.get('host')], a string or [undefined]. *)
Record request : Type := mkRequest {
  image_url : jsval;
  conversation_id : jsval;
  protocol : jsval;
  host : jsval
}.

Definition getBaseUrl (req : request) : jsstring :=
  ToString (protocol req) ++ str "://" ++ ToString (host req).

Definition contextPrompt : jsstring :=
  str "
      You are an educational AI tutor for children. A student has uploaded an image.
      
      Identify what's in the image and determine if it's educational content like:
      1. A math problem
      2. A science question
      3. A reading/writing task
      4. Other educational content
      
      If it's educational content:
      - DON'T solve the problem directly
      - Provide educational guidance and hints that help the student learn
      - Break down the process into steps they can follow
      - Use age-appropriate language
      - Ask questions to prompt their thinking
      
      If it's not clearly educational content:
      - Just describe what you see and ask if they need help with anything specific
      
      Format your response to be engaging and encouraging.
    ".

Definition vision_request (req : request) : ChatRequest :=
  {| model := str "gpt-4-vision-preview";
     messages :=
       [ mkMessage (str "system") (Text contextPrompt);
         mkMessage (str "user")
           (Parts [ TextPart (str "What's in this image?");
                    ImageUrlPart (image_url req) ]) ];
     temperature := None;
     max_tokens := 500;
     forced_function := None;
     functions := [] |}.

Definition ci (r : regex) : RegExp := mkRegExp r true false.

Definition educationalContentPatterns : list RegExp :=
  [ ci (Lit (str "math problem"));
    ci (Lit (str "equation"));
    ci (Lit (str "science question"));
    ci (Lit (str "experiment"));
    ci (Seq (Lit (str "read")) (Opt (Group 1 (Lit (str "ing")))));
    ci (Seq (Lit (str "writ")) (Group 1 (Alt (Lit (str "ing")) (Lit (str "e")))));
    ci (Lit (str "homework"));
    ci (Lit (str "problem to solve"));
    ci (Lit (str "steps to follow")) ].

(** [educationalContentPatterns.some(pattern => pattern.test(analysis))];
    [test] converts its argument to a string. *)
Definition shouldEnterTutorialMode (analysis : jsval) : bool :=
  existsb (fun pattern => test pattern (ToString analysis))
          educationalContentPatterns.

Definition steps_request (analysis : jsval) : ChatRequest :=
  {| model := str "gpt-4";
     messages :=
       [ mkMessage (str "system")
           (Text (str "You are an educational assistant creating step-by-step guidance for a child. Never provide direct answers, only hints and educational guidance."));
         mkMessage (str "user")
           (Text (str "Based on this analysis of an educational image, create 3-5 interactive learning steps that guide the child to solve it themselves: " ++
                  DQUOTE ++ ToString analysis ++ DQUOTE)) ];
     temperature := None;
     max_tokens := 500;
     forced_function := None;
     functions := [] |}.

(** [/\d+\.\s+[^\n]+/g] *)
Definition re_step : RegExp :=
  mkRegExp
    (Seq (Plus Digit) (Seq (Lit (str ".")) (Seq (Plus Space) (Plus NotLF))))
    false true.

(** [line.trim().length > 0] *)
Definition non_blank (line : jsstring) : bool :=
  Nat.ltb 0 (List.length (trim line)).

(** The steps extracted from [stepsText]. *)
Definition extract_steps (stepsText : jsstring) : list jsstring :=
  match match_all re_step stepsText with
  | Some stepMatches => map trim stepMatches
  | None => slice0 5 (filter non_blank (split LF stepsText))
  end.

(** [stepsText.match] throws when the content is [null]. *)
Definition steps_of_content (content : option jsstring) : Task (list jsstring) :=
  match content with
  | Some stepsText => ret (extract_steps stepsText)
  | None => throw (str "Cannot read properties of null (reading 'match')")
  end.

Section WithPath.
(** [__dirname] and [path.join]. *)
Variable dirname : jsstring.
Variable path_join : jsstring -> jsstring -> jsstring.

Definition analyzeImage (req : request) : Prog Response :=
  try_catch
    (if negb (truthy (image_url req)) then
       ret (mkResponse 400
              [ (str "success", JBool false);
                (str "message", JStr (str "Image URL is required")) ])
     else
       response <- createChatCompletion (vision_request req) ;;
       message <- first_message response ;;
       let analysis := content_value message in
       let tutorial := shouldEnterTutorialMode analysis in
       learningSteps <-
         (if tutorial then
            stepsResponse <- createChatCompletion (steps_request analysis) ;;
            stepsMessage <- first_message stepsResponse ;;
            steps_of_content (content stepsMessage)
          else ret []) ;;
       audioData <-
         createAudio (mkAudioRequest (str "tts-1") (str "alloy") analysis) ;;
       t <- now ;;
       let audioFileName := str "response-" ++ string_of_Z t ++ str ".mp3" in
       let audioDir := path_join dirname (str "../uploads/audio") in
       present <- existsSync audioDir ;;
       _ <- (if negb present then mkdirSync audioDir else ret tt) ;;
       let audioPath := path_join audioDir audioFileName in
       _ <- writeFileSync audioPath audioData ;;
       let audioUrl :=
         getBaseUrl req ++ str "/uploads/audio/" ++ audioFileName in
       ret (mkResponse 200
              [ (str "success", JBool true);
                (str "response", analysis);
                (str "audio_url", JStr audioUrl);
                (str "should_enter_tutorial_mode", JBool tutorial);
                (str "learning_context", analysis);
                (str "learning_steps", JArr (map JStr learningSteps)) ]))
    (fun error =>
       ConsoleError (str "Error analyzing image:") error
         (Ret (mkResponse 500
                 [ (str "success", JBool false);
                   (str "message", JStr (str "Error analyzing image"));
                   (str "error", JStr error) ]))).
End WithPath.

End ImageController.

(* ================================================================= *)
(** ** What the claims say, as predicates on texts *)

Module Marker.
Import Js Regex.

(** [s] ends with [suffix]. *)
Definition endsWith (s suffix : jsstring) : Prop :=
  exists pre, s = pre ++ suffix.

Definition all_space (ws : jsstring) : Prop :=
  Forall (fun c => is_space c = true) ws.

Definition all_digits (ds : jsstring) : Prop :=
  Forall (fun c => is_digit c = true) ds.

(** [w] is [label] up to the case of ASCII letters. *)
Definition same_word (label w : jsstring) : Prop := unit_eq_str true label w.

(** [text] reads [pre ++ label ++ ws ++ value ++ post]: the label in any
    case, then white space, then the value. *)
Definition marker_at (label text pre value post : jsstring) : Prop :=
  exists lit ws,
    text = pre ++ lit ++ ws ++ value ++ post /\
    same_word label lit /\ all_space ws.

(** An occurrence of [correct:\s*(true|false)] after [pre]. *)
Definition correct_match (text pre value : jsstring) : Prop :=
  exists post,
    marker_at (str "correct:") text pre value post /\
    (same_word (str "true") value \/ same_word (str "false") value).

(** An occurrence of [confusion:\s*(\d+)] after [pre], with all the
    digits that follow. *)
Definition confusion_match (text pre digits : jsstring) : Prop :=
  exists post,
    marker_at (str "confusion:") text pre digits post /\
    digits <> [] /\ all_digits digits /\
    match post with
    | [] => True
    | c :: _ => is_digit c = false
    end.

(** The occurrence with the shortest text before it. *)
Definition leftmost (P : jsstring -> jsstring -> Prop) (pre v : jsstring) : Prop :=
  P pre v /\ forall pre' v', P pre' v' -> (List.length pre <= List.length pre')%nat.

(** The number a run of decimal digits denotes. *)
Definition decimal (ds : jsstring) : Z :=
  fold_left (fun acc c => (acc * 10 + (Z.of_N c - 48))%Z) ds 0%Z.

(** [v] is the Number for the integer [d], which is not negative: [d]
    itself up to [2^53]; beyond, the nearest multiple of the unit
    [2^u] of the doubles of the size of [d], the even multiple when two
    are as near, and [Infinity] when that multiple is not below
    [2^1024]. *)
Definition number_for (d : Z) (v : jsval) : Prop :=
  ((d <= 2 ^ 53)%Z -> v = JNum d) /\
  ((2 ^ 53 < d)%Z ->
   let u := (Z.log2 d - 52)%Z in
   exists m,
     (2 * Z.abs (m * 2 ^ u - d) <= 2 ^ u)%Z /\
     ((2 * Z.abs (m * 2 ^ u - d) = 2 ^ u)%Z -> Z.even m = true) /\
     v = if (m * 2 ^ u <? 2 ^ 1024)%Z then JNum (m * 2 ^ u)
         else JInfinity false).

(** A Number that is an integer and not negative, or [Infinity]. *)
Definition natural_or_infinite (v : jsval) : Prop :=
  (exists n, v = JNum n /\ (0 <= n)%Z) \/ v = JInfinity false.

(** [ms] occur in [s] one after the other, each matching [re]. *)
Fixpoint successive (re : RegExp) (ms : list jsstring) (s : jsstring) : Prop :=
  match ms with
  | [] => True
  | m :: rest =>
      exists pre post,
        s = pre ++ m ++ post /\
        lang (ignoreCase re) (source re) m /\
        successive re rest post
  end.

(** The ordinal pattern in the words of the specification: a line that
    starts with digits followed by a period. *)
Definition ordinal_line (line : jsstring) : bool :=
  match take_while is_digit line, drop_while is_digit line with
  | _ :: _, 46%N :: _ => true
  | _, _ => false
  end.

Definition trimmed (s : jsstring) : Prop := trim s = s.

End Marker.

(* ================================================================= *)
(** ** The fallback patterns in closed form *)

Module ClosedForm.
Import Js Regex.

(** [(true|false)] at the start of [s2], for a match that began at [s0]. *)
Definition truth_word (s0 s2 : jsstring) : option MatchResult :=
  match strip_prefix true (str "true") s2 with
  | Some s3 => Some (mkMatch (consumed s0 s3) [(1%nat, consumed s2 s3)])
  | None =>
      match strip_prefix true (str "false") s2 with
      | Some s3 => Some (mkMatch (consumed s0 s3) [(1%nat, consumed s2 s3)])
      | None => None
      end
  end.

(** [(\d+)] at the start of [s2], for a match that began at [s0]. *)
Definition digit_run (s0 s2 : jsstring) : option MatchResult :=
  match s2 with
  | d :: t =>
      if is_digit d then
        let s3 := drop_while is_digit t in
        Some (mkMatch (consumed s0 s3) [(1%nat, consumed s2 s3)])
      else None
  | [] => None
  end.

(** The last [n] code units. *)
Definition lastn (n : nat) (s : jsstring) : jsstring :=
  skipn (List.length s - n) s.

End ClosedForm.

(* ================================================================= *)
(** ** Requests, replies and the claims as stated *)

Module Claims.
Import Js Regex Marker Effects.

(** The required fields are present and truthy. *)
Definition valid_analyze (b : AnalyzeRequest.body) : Prop :=
  truthy (AnalyzeRequest.studentResponse b) = true /\
  truthy (AnalyzeRequest.context b) = true.

Definition valid_process (b : ProcessRequest.body) : Prop :=
  truthy (ProcessRequest.message b) = true /\
  truthy (ProcessRequest.subject b) = true.

(** Every value that the handler converts to a string, or compares, has
    a primitive. *)
Definition printable_analyze (b : AnalyzeRequest.body) : Prop :=
  forallb has_primitive
          [ AnalyzeRequest.currentStep b; AnalyzeRequest.totalSteps b;
            AnalyzeRequest.subject b; AnalyzeRequest.context b;
            AnalyzeRequest.studentResponse b ] = true.

Definition printable_process (b : ProcessRequest.body) : Prop :=
  forallb has_primitive
          [ ProcessRequest.subject b; ProcessRequest.current_step b;
            ProcessRequest.total_steps b; ProcessRequest.context b;
            ProcessRequest.user_query b; ProcessRequest.message b ] = true.

(** A completion whose first message is free text only. *)
Definition text_reply (text : jsstring) (more : list ChatMessage) : ChatCompletion :=
  mkChatCompletion (mkChatMessage None (Some text) :: more).

(** A completion whose first message carries a function call. *)
Definition call_reply (fc : FunctionCall) (content : option jsstring)
           (more : list ChatMessage) : ChatCompletion :=
  mkChatCompletion (mkChatMessage (Some fc) content :: more).

(** [w] occurs in [text], up to the case of ASCII letters. *)
Definition occurs_ci (w text : jsstring) : Prop :=
  exists pre m post, text = pre ++ m ++ post /\ same_word w m.

(** Claim C1 as stated: the confusion level is the integer that the
    captured digits write. *)
Definition level_as_captured (text : jsstring) (r : Response) : Prop :=
  forall pre digits,
    leftmost (confusion_match text) pre digits ->
    get (json r) (str "confusion_level") = Some (JNum (decimal digits)).

(** Claim C3 as stated: the prompt is built without an error, so that
    every run of a request with its required fields starts with the
    completion request that carries it. *)
Definition prompt_always_built (b : ProcessRequest.body) : Prop :=
  forall tr r,
    Runs (AnalyzeController.processLearningResponse b) tr r ->
    exists o rest, tr = EvChat (AnalyzeController.process_request b) o :: rest.

(** Claim C4 as stated: the confusion level is an integer from 0 to 10. *)
Definition confusion_in_range (r : Response) : Prop :=
  exists n, get (json r) (str "confusion_level") = Some (JNum n) /\
            (0 <= n <= 10)%Z.

(** Claim C5 as stated: a [misconceptions] field equal to the empty
    sequence. *)
Definition has_empty_misconceptions (r : Response) : Prop :=
  get (json r) (str "misconceptions") = Some (JArr []).

(** The words whose occurrence the nine patterns detect. *)
Definition detected_words : list jsstring :=
  map str [ "math problem"; "equation"; "science question"; "experiment";
            "read"; "writing"; "write"; "homework";
            "problem to solve"; "steps to follow" ].

(** Claim C7 as stated: the ordinal lines when there is one, otherwise
    the first five non-blank lines, and trimmed steps in both cases. *)
Definition steps_as_stated (extract : jsstring -> list jsstring)
           (non_blank : jsstring -> bool) (text : jsstring) : Prop :=
  let lines := split LF text in
  (existsb ordinal_line lines = true ->
   extract text = map trim (filter ordinal_line lines)) /\
  (existsb ordinal_line lines = false ->
   extract text = firstn 5 (filter non_blank lines)) /\
  Forall trimmed (extract text).

(** Claim C8 as stated: at most five learning steps. *)
Definition steps_within_bound (r : Response) : Prop :=
  exists steps, get (json r) (str "learning_steps") = Some (JArr steps) /\
                (List.length steps <= 5)%nat.

End Claims.

(* ================================================================= *)
(** ** Sample requests and replies *)

Module Sample.
Import Js Regex Effects.

Definition analyze_body : AnalyzeRequest.body :=
  AnalyzeRequest.mkBody (JStr (str "x = 4")) (JStr (str "Solve 2x = 8"))
                        (JStr (str "math")) (JNum 1) (JNum 3).

Definition analyze_body_no_context : AnalyzeRequest.body :=
  AnalyzeRequest.mkBody (JStr (str "x = 4")) JUndefined
                        (JStr (str "math")) (JNum 1) (JNum 3).

Definition process_body (current total : jsval) (response_type : jsval)
  : ProcessRequest.body :=
  ProcessRequest.mkBody (JStr (str "I think x = 4")) (JStr (str "Solve 2x = 8"))
                        (JStr (str "math")) current total
                        (JStr (str "Divide both sides")) response_type.

Definition process_body_no_subject : ProcessRequest.body :=
  ProcessRequest.mkBody (JStr (str "I think x = 4")) JUndefined JUndefined
                        (JNum 1) (JNum 3) JUndefined JUndefined.

(** A parser that rejects every text. *)
Definition no_json (s : jsstring) : Outcome jsval :=
  Rejected (str "Unexpected end of JSON input").

(** The structured payload of the specification's example, and a parser
    that yields it. *)
Definition example_payload : jsval :=
  JObj [ (str "is_correct", JBool true);
         (str "confusion_level", JNum 3);
         (str "feedback", JStr (str "ok")) ].

Definition high_payload : jsval :=
  JObj [ (str "is_correct", JBool false);
         (str "confusion_level", JNum 42);
         (str "feedback", JStr (str "ok")) ].

Definition parse_as (v : jsval) (s : jsstring) : Outcome jsval := Resolved v.

Definition some_call : FunctionCall :=
  mkFunctionCall (str "analyze_student_response") (str "{}").

Definition image_request : ImageController.request :=
  ImageController.mkRequest (JStr (str "http://localhost/uploads/images/1.png"))
                            JUndefined (JStr (str "http"))
                            (JStr (str "localhost")).

Definition join_with_slash (a b : jsstring) : jsstring := a ++ str "/" ++ b.

Definition final_body : ProcessRequest.body :=
  process_body (JNum 3) (JNum 3) (JStr (str "clarification")).

Definition summary_body : ProcessRequest.body :=
  process_body (JNum 1) (JNum 3) (JStr (str "summary")).

Definition untyped_body : ProcessRequest.body :=
  process_body (JNum 1) (JNum 3) JUndefined.

(** An analysis request whose [subject] is the JSON object
    [{"toString": 1}]. *)
Definition unprintable_analyze_body : AnalyzeRequest.body :=
  AnalyzeRequest.mkBody (JStr (str "x = 4")) (JStr (str "Solve 2x = 8"))
                        (JObj [ (str "toString", JNum 1) ]) (JNum 1) (JNum 3).

(** A request whose [subject] is the JSON object [{"toString": 1}], of
    an unknown type. *)
Definition unprintable_body : ProcessRequest.body :=
  ProcessRequest.mkBody (JStr (str "I think x = 4")) (JStr (str "Solve 2x = 8"))
                        (JObj [ (str "toString", JNum 1) ]) (JNum 1) (JNum 3)
                        (JStr (str "Divide both sides"))
                        (JStr (str "summary")).

(** A level that no double holds. *)
Definition long_level : jsstring := str "confusion: 9007199254740993".

(** The free-text example of the specification. *)
Definition tagged_text : jsstring :=
  str "correct: true
confusion: 7
keep going".

Definition numbered_text : jsstring :=
  str "1. Do X
2. Do Y
3. Do Z".

Definition six_lines : jsstring :=
  str "alpha
beta
gamma
delta
epsilon
zeta".

Definition six_steps : jsstring :=
  str "1. a
2. b
3. c
4. d
5. e
6. f".

End Sample.

(* ================================================================= *)
(** ** controllers/imageController.js: the upload *)

Module Upload.
Import Js Effects.
Local Open Scope task_scope.

(** [s.startsWith(prefix)]. *)
Fixpoint startsWith (s prefix : jsstring) : bool :=
  match prefix with
  | [] => true
  | p :: prefix' =>
      match s with
      | c :: s' => N.eqb c p && startsWith s' prefix'
      | [] => false
      end
  end.

(** What the handlers read of an uploaded [file]. *)
Record file : Type := mkFile {
  mimetype : jsstring;
  originalname : jsstring
}.

(** [fileFilter]: [cb(null, true)] is [Resolved true], and
    [cb(new Error(...), false)] is [Rejected] with the message. *)
Definition fileFilter (f : file) : Outcome bool :=
  if startsWith (mimetype f) (str "image/") then Resolved true
  else Rejected (str "Only image files are allowed!").

Section WithPath.
(** [__dirname], [path.join] and [path.extname]. *)
Variable dirname : jsstring.
Variable path_join : jsstring -> jsstring -> jsstring.
Variable extname : jsstring -> jsstring.

(** [storage.destination]: the upload directory, created when absent. *)
Definition destination : Task jsstring :=
  let uploadDir := path_join dirname (str "../uploads/images") in
  present <- existsSync uploadDir ;;
  _ <- (if negb present then mkdirSync uploadDir else ret tt) ;;
  ret uploadDir.

(** [uniqueSuffix]; [rounded] is the value of
    [Math.round(Math.random() * 1E9)]. *)
Definition uniqueSuffix (t rounded : Z) : jsstring :=
  string_of_Z t ++ str "-" ++ string_of_Z rounded.

(** [storage.filename]. *)
Definition filename (rounded : Z) (f : file) : Task jsstring :=
  t <- now ;;
  ret (uniqueSuffix t rounded ++ extname (originalname f)).
End WithPath.

(** What the upload middleware hands to the callback of [uploadImage]:
    the message of its error, if any, and the name of the stored file
    ([req.file.filename]), if any. *)
Record uploaded : Type := mkUploaded {
  err : option jsstring;
  req_file : option jsstring
}.

(** The callback of [uploadImage]. *)
Definition uploadImage (req : ImageController.request) (u : uploaded) : Response :=
  match err u with
  | Some message =>
      mkResponse 400
        [ (str "success", JBool false);
          (str "message", JStr message) ]
  | None =>
      match req_file u with
      | None =>
          mkResponse 400
            [ (str "success", JBool false);
              (str "message", JStr (str "Please upload an image file")) ]
      | Some name =>
          let relativePath := str "/uploads/images/" ++ name in
          let baseUrl := ImageController.getBaseUrl req in
          let imageUrl := baseUrl ++ relativePath in
          mkResponse 200
            [ (str "success", JBool true);
              (str "image_url", JStr imageUrl);
              (str "message", JStr (str "Image uploaded successfully")) ]
      end
  end.

End Upload.

(* ================================================================= *)
(** ** Shapes of texts and of runs *)

Module Shape.
Import Js Regex Marker Effects.

(** [lines.join(sep)]. *)
Fixpoint join (sep : N) (lines : list jsstring) : jsstring :=
  match lines with
  | [] => []
  | [l] => l
  | l :: rest => l ++ sep :: join sep rest
  end.

(** A line without any digit. *)
Definition digit_free (line : jsstring) : bool :=
  forallb (fun c => negb (is_digit c)) line.

(** A line that reads: digits, a period, white space, then text that
    starts with something else than white space. *)
Definition numbered_line (line : jsstring) : bool :=
  match take_while is_digit line, drop_while is_digit line with
  | _ :: _, 46%N :: after =>
      match take_while is_space after, drop_while is_space after with
      | _ :: _, _ :: _ => true
      | _, _ => false
      end
  | _, _ => false
  end.

(** The transcript entry that one tutoring turn appends. *)
Definition turn (message reply : jsval) : jsstring :=
  [LF; LF] ++ str "Student: " ++ ToString message ++ [LF; LF] ++
  str "Tutor: " ++ ToString reply.

(** The [catch] branch of a handler: one line on [console.error] and a
    500 response that carries the message. *)
Definition failure (label public message : jsstring) : list Event * Response :=
  ([EvConsoleError label message],
   mkResponse 500
     [ (str "success", JBool false);
       (str "message", JStr public);
       (str "error", JStr message) ]).

(** The name of a synthesized audio file. *)
Definition audio_name (t : Z) : jsstring :=
  str "response-" ++ string_of_Z t ++ str ".mp3".

(** A non-negative integer. *)
Definition natural (z : Z) : Prop := (0 <= z)%Z.

End Shape.

(* ================================================================= *)
(** ** Sample runs *)

Module Scenario.
Import Js Regex Shape Effects.

(** A payload that carries a [success] of its own. *)
Definition failing_payload : object :=
  [ (str "success", JBool false);
    (str "is_correct", JBool true);
    (str "confusion_level", JNum 2);
    (str "feedback", JStr (str "ok")) ].

(** A first turn, and the request that sends its context back. *)
Definition first_reply : ChatMessage :=
  mkChatMessage None (Some (str "What do you get when you halve 8?")).

Definition second_reply : ChatMessage :=
  mkChatMessage None None.

Definition second_body : ProcessRequest.body :=
  ProcessRequest.mkBody
    (JStr (str "4")) (JStr (str "Solve 2x = 8")) (JStr (str "math"))
    (JNum 2) (JNum 3)
    (JStr (ToString (ProcessRequest.context Sample.summary_body)
           ++ turn (ProcessRequest.message Sample.summary_body)
                   (content_value first_reply)))
    JUndefined.

(** A reply with an introduction, a blank line and two numbered lines. *)
Definition intro_and_list : jsstring :=
  str "Here are the steps:
1. Do X

2. Do Y  ".

(** An analysis that is detected as educational. *)
Definition math : jsstring := str "This is a math problem".

(** An analysis that is not detected as educational, and the successful
    run it gives when the audio directory is missing. *)
Definition cat : jsstring := str "Here is a cute drawing of a cat".

Definition controllers : jsstring := str "/app/controllers".

Definition audioDir : jsstring :=
  Sample.join_with_slash controllers (str "../uploads/audio").

Definition cat_trace : list Event :=
  [ EvChat (ImageController.vision_request Sample.image_request)
           (Resolved (mkChatCompletion [mkChatMessage None (Some cat)]));
    EvAudio (mkAudioRequest (str "tts-1") (str "alloy") (JStr cat))
            (Resolved (str "mp3"));
    EvNow 1700000000000;
    EvExists audioDir false;
    EvMkdir audioDir (Resolved tt);
    EvWrite (Sample.join_with_slash audioDir (audio_name 1700000000000))
            (str "mp3") (Resolved tt) ].

Definition cat_response : Response :=
  mkResponse 200
    [ (str "success", JBool true);
      (str "response", JStr cat);
      (str "audio_url",
       JStr (str "http://localhost/uploads/audio/response-1700000000000.mp3"));
      (str "should_enter_tutorial_mode", JBool false);
      (str "learning_context", JStr cat);
      (str "learning_steps", JArr []) ].

(** An extension function that knows one extension. *)
Definition png (name : jsstring) : jsstring := str ".png".

Definition photo : Upload.file := Upload.mkFile (str "image/png") (str "cat.png").

End Scenario.

(* ================================================================= *)
(** ** Facts about strings *)

Section StringFacts.
Import Js.

Lemma jsstring_eqb_eq (a b : jsstring) : jsstring_eqb a b = true <-> a = b.
Proof.
  revert b; induction a as [|x a IH]; intros [|y b]; simpl; split;
    try congruence; try reflexivity.
  - intros H. apply andb_true_iff in H as [Hx Hab].
    apply N.eqb_eq in Hx. apply IH in Hab. congruence.
  - intros H. injection H as -> ->.
    rewrite N.eqb_refl. simpl. now apply IH.
Qed.

Lemma jsstring_eqb_refl (a : jsstring) : jsstring_eqb a a = true.
Proof. now apply jsstring_eqb_eq. Qed.

Lemma jsstring_eqb_neq (a b : jsstring) : a <> b -> jsstring_eqb a b = false.
Proof.
  intros H. destruct (jsstring_eqb a b) eqn:E; [|reflexivity].
  apply jsstring_eqb_eq in E. contradiction.
Qed.

Lemma take_drop_while (p : N -> bool) (s : jsstring) :
  s = take_while p s ++ drop_while p s.
Proof.
  induction s as [|c t IH]; simpl; [reflexivity|].
  destruct (p c); simpl; congruence.
Qed.

Lemma take_while_all (p : N -> bool) (s : jsstring) :
  Forall (fun c => p c = true) (take_while p s).
Proof.
  induction s as [|c t IH]; simpl; [constructor|].
  destruct (p c) eqn:E; constructor; assumption.
Qed.

Lemma drop_while_head (p : N -> bool) (s : jsstring) :
  match drop_while p s with
  | [] => True
  | c :: _ => p c = false
  end.
Proof.
  induction s as [|c t IH]; simpl; [exact I|].
  destruct (p c) eqn:E; [exact IH|exact E].
Qed.

Lemma drop_while_stop (p : N -> bool) (s : jsstring) :
  match s with [] => True | c :: _ => p c = false end ->
  drop_while p s = s.
Proof. destruct s as [|c t]; simpl; [reflexivity|]. now intros ->. Qed.

Lemma drop_while_idem (p : N -> bool) (s : jsstring) :
  drop_while p (drop_while p s) = drop_while p s.
Proof. apply drop_while_stop, drop_while_head. Qed.

(** A run of [p] followed by a text that does not start with [p] is
    split by [drop_while] exactly there. *)
Lemma run_unique (p : N -> bool) (a b : jsstring) :
  Forall (fun c => p c = true) a ->
  match b with [] => True | c :: _ => p c = false end ->
  take_while p (a ++ b) = a /\ drop_while p (a ++ b) = b.
Proof.
  intros Ha Hb. induction Ha as [|c a Hc _ IH]; simpl.
  - destruct b as [|c t]; simpl; [now split|]. now rewrite Hb.
  - rewrite Hc. destruct IH as [-> ->]. now split.
Qed.

Lemma app_same_length_tail {A} (x y t u : list A) :
  x ++ t = y ++ u -> List.length t = List.length u -> t = u.
Proof.
  intros E L.
  assert (Lx : List.length x = List.length y).
  { apply (f_equal (@List.length A)) in E.
    rewrite !length_app in E. lia. }
  revert y E Lx. induction x as [|a x IH]; intros [|b y] E Lx;
    simpl in *; try discriminate; [assumption|].
  injection E as _ E. apply (IH y); [assumption|lia].
Qed.

Lemma app_same_length_head {A} (x y t u : list A) :
  x ++ t = y ++ u -> List.length x = List.length y -> x = y /\ t = u.
Proof.
  revert y. induction x as [|a x IH]; intros [|b y] E Lx;
    simpl in *; try discriminate; [now split|].
  injection E as -> E. destruct (IH y E) as [-> ->]; [lia|now split].
Qed.

(** *** trim *)

Lemma trim_no_lead (a : jsstring) :
  drop_while is_space a = a ->
  drop_while is_space (rev (drop_while is_space (rev a)))
  = rev (drop_while is_space (rev a)).
Proof.
  intros Ha.
  pose proof (take_drop_while is_space (rev a)) as E.
  set (b := drop_while is_space (rev a)) in *.
  apply (f_equal (@rev N)) in E. rewrite rev_involutive, rev_app_distr in E.
  destruct (rev b) as [|h t] eqn:Eb; [reflexivity|].
  apply drop_while_stop.
  rewrite E in Ha. simpl in Ha.
  destruct (is_space h) eqn:Eh; [|reflexivity].
  exfalso.
  pose proof (take_drop_while is_space (t ++ rev (take_while is_space (rev a)))) as E2.
  rewrite Ha in E2.
  apply (f_equal (@List.length N)) in E2.
  rewrite !length_app in E2. simpl in E2. rewrite !length_app in E2. lia.
Qed.

Lemma trim_idempotent (s : jsstring) : trim (trim s) = trim s.
Proof.
  unfold trim.
  rewrite (trim_no_lead (drop_while is_space s)) by apply drop_while_idem.
  rewrite rev_involutive. now rewrite drop_while_idem.
Qed.

(** *** Objects *)

Lemma get_set (o : object) (k key : jsstring) (v : jsval) :
  get (set o k v) key = if jsstring_eqb k key then Some v else get o key.
Proof.
  induction o as [|[k' w] rest IH]; simpl.
  - reflexivity.
  - destruct (jsstring_eqb k' k) eqn:E; simpl.
    + apply jsstring_eqb_eq in E. subst k'.
      destruct (jsstring_eqb k key); reflexivity.
    + destruct (jsstring_eqb k' key) eqn:E'; [|exact IH].
      destruct (jsstring_eqb k key) eqn:E''; [|reflexivity].
      apply jsstring_eqb_eq in E', E''. subst.
      now rewrite jsstring_eqb_refl in E.
Qed.

(** A spread does not create a property that the spread value lacks. *)
Lemma get_spread_absent (base : object) (v : jsval) (key : jsstring) :
  get (own_properties v) key = None ->
  get (spread base v) key = get base key.
Proof.
  unfold spread. generalize (own_properties v) as props.
  intros props. revert base.
  induction props as [|[k w] rest IH]; intros base H; simpl in *.
  - reflexivity.
  - destruct (jsstring_eqb k key) eqn:E; [discriminate|].
    rewrite IH by assumption. rewrite get_set. now rewrite E.
Qed.

(** What a sequence of definitions leaves under a key: the last value
    defined for it, or the value the object had. *)
Lemma get_fold_set (l base : object) (key : jsstring) :
  get (fold_left (fun o kv => set o (fst kv) (snd kv)) l base) key
  = match get (rev l) key with
    | Some v => Some v
    | None => get base key
    end.
Proof.
  revert base. induction l as [|[k v] l IH]; intros base; simpl.
  - reflexivity.
  - rewrite IH, get_set.
    assert (E : forall a, get (a ++ [(k, v)]) key
                          = match get a key with
                            | Some w => Some w
                            | None => if jsstring_eqb k key then Some v else None
                            end).
    { induction a as [|[k' w] a IHa]; simpl; [reflexivity|].
      destruct (jsstring_eqb k' key); [reflexivity|apply IHa]. }
    rewrite E. destruct (get (rev l) key); [reflexivity|].
    destruct (jsstring_eqb k key); reflexivity.
Qed.

Lemma get_none (o : object) (key : jsstring) :
  get o key = None <-> ~ In key (map fst o).
Proof.
  induction o as [|[k v] o IH]; simpl.
  - tauto.
  - destruct (jsstring_eqb k key) eqn:E.
    + apply jsstring_eqb_eq in E. split; [discriminate|tauto].
    + rewrite IH. split.
      * intros H [->|Hin]; [|tauto]. now rewrite jsstring_eqb_refl in E.
      * tauto.
Qed.

Lemma get_some (o : object) (key : jsstring) (v : jsval) :
  NoDup (map fst o) -> (get o key = Some v <-> In (key, v) o).
Proof.
  induction o as [|[k w] o IH]; simpl; intros ND.
  - split; [discriminate|tauto].
  - inversion ND as [|? ? Hk ND']; subst.
    destruct (jsstring_eqb k key) eqn:E.
    + apply jsstring_eqb_eq in E. subst k. split.
      * intros H. injection H as ->. now left.
      * intros [H|H]; [congruence|].
        exfalso. apply Hk. change key with (fst (key, v)). now apply in_map.
    + rewrite (IH ND'). split; [tauto|].
      intros [H|H]; [|assumption].
      injection H as -> _. now rewrite jsstring_eqb_refl in E.
Qed.

(** The value under a key does not depend on the order of distinct
    keys. *)
Lemma get_permutation (o o' : object) (key : jsstring) :
  NoDup (map fst o) -> Permutation o o' -> get o' key = get o key.
Proof.
  intros ND P.
  assert (ND' : NoDup (map fst o')).
  { eapply Permutation_NoDup; [|exact ND]. now apply Permutation_map. }
  destruct (get o key) as [v|] eqn:E.
  - apply (get_some _ _ _ ND'). eapply Permutation_in; [exact P|].
    now apply (get_some _ _ _ ND).
  - apply get_none. apply get_none in E. intros H. apply E.
    eapply Permutation_in; [|exact H].
    apply Permutation_map, Permutation_sym, P.
Qed.

Lemma insert_index_permutation i kv l :
  Permutation (map snd (insert_index i kv l)) (kv :: map snd l).
Proof.
  induction l as [|[j x] l IH]; simpl; [reflexivity|].
  destruct (j <? i)%Z; simpl; [|reflexivity].
  rewrite IH. apply perm_swap.
Qed.

(** The order of the keys is an order of the same properties. *)
Lemma own_keys_permutation (props : object) :
  Permutation props (own_keys_order props).
Proof.
  unfold own_keys_order. induction props as [|kv props IH]; simpl.
  - reflexivity.
  - destruct (array_index (fst kv)).
    + rewrite insert_index_permutation. simpl. now constructor.
    + apply Permutation_cons_app. exact IH.
Qed.

Lemma get_own_keys_none (props : object) (key : jsstring) :
  get props key = None -> get (own_keys_order props) key = None.
Proof.
  rewrite !get_none. intros H Hin. apply H.
  eapply Permutation_in; [|exact Hin].
  apply Permutation_map, Permutation_sym, own_keys_permutation.
Qed.

(** A spread of an object with distinct keys defines each of its
    properties. *)
Lemma get_spread_present (base : object) (props : object) (key : jsstring) w :
  NoDup (map fst props) ->
  get props key = Some w ->
  get (spread base (JObj props)) key = Some w.
Proof.
  intros ND H. unfold spread. rewrite get_fold_set.
  assert (P : Permutation props (rev (own_properties (JObj props)))).
  { rewrite <- Permutation_rev. apply own_keys_permutation. }
  now rewrite (get_permutation _ _ key ND P), H.
Qed.
End StringFacts.

(* ================================================================= *)
(** ** Facts about the matcher *)

Section MatcherFacts.
Import Js Regex Marker.

Lemma strip_prefix_sound i l s s' :
  strip_prefix i l s = Some s' ->
  exists m, s = m ++ s' /\ unit_eq_str i l m.
Proof.
  revert s; induction l as [|p l IH]; intros s H; simpl in H.
  - injection H as ->. now exists [].
  - destruct s as [|c t]; [discriminate|].
    destruct (unit_eqb i p c) eqn:E; [|discriminate].
    destruct (IH t H) as (m & -> & Hm).
    exists (c :: m). simpl. auto.
Qed.

Lemma strip_prefix_complete i l m s' :
  unit_eq_str i l m -> strip_prefix i l (m ++ s') = Some s'.
Proof.
  revert m; induction l as [|p l IH]; intros [|c m]; simpl; try tauto.
  intros [-> H]. now apply IH.
Qed.

Lemma consumed_app (m rest : jsstring) : consumed (m ++ rest) rest = m.
Proof.
  unfold consumed. rewrite length_app.
  replace (List.length m + List.length rest - List.length rest)%nat
    with (List.length m + 0)%nat by lia.
  rewrite firstn_app_2. simpl. apply app_nil_r.
Qed.

Section Star.
Context {R : Type}.
Variable p : N -> bool.

Lemma star_greedy_sound s (k : jsstring -> option R) x :
  star_greedy p s k = Some x ->
  exists m s', s = m ++ s' /\ Forall (fun c => p c = true) m /\ k s' = Some x.
Proof.
  induction s as [|c t IH]; simpl; intros H.
  - now exists [], [].
  - destruct (p c) eqn:E.
    + destruct (star_greedy p t k) as [y|] eqn:G.
      * injection H as ->.
        destruct (IH eq_refl) as (m & s' & -> & Hm & Hk).
        exists (c :: m), s'. repeat split; auto.
      * now exists [], (c :: t).
    + now exists [], (c :: t).
Qed.

Lemma star_greedy_complete m s' (k : jsstring -> option R) :
  Forall (fun c => p c = true) m -> k s' <> None ->
  star_greedy p (m ++ s') k <> None.
Proof.
  intros Hm Hk. induction Hm as [|c m Hc _ IH]; simpl.
  - destruct s' as [|c t]; simpl; [assumption|].
    destruct (p c); [|assumption].
    destruct (star_greedy p t k); [discriminate|assumption].
  - rewrite Hc. destruct (star_greedy p (m ++ s') k); [discriminate|].
    contradiction.
Qed.

(** When the continuation rejects every text that still starts with
    [p], the repetition takes the whole run and nothing else. *)
Lemma star_greedy_skip s (k : jsstring -> option R) :
  (forall c t, p c = true -> k (c :: t) = None) ->
  star_greedy p s k = k (drop_while p s).
Proof.
  intros Hk. induction s as [|c t IH]; simpl; [reflexivity|].
  destruct (p c) eqn:E; [|reflexivity].
  rewrite IH. destruct (k (drop_while p t)) eqn:G; [reflexivity|].
  now apply Hk.
Qed.

(** When the continuation accepts the text after the whole run, that
    is the one the repetition chooses. *)
Lemma star_greedy_longest s (k : jsstring -> option R) x :
  k (drop_while p s) = Some x -> star_greedy p s k = Some x.
Proof.
  intros Hk. induction s as [|c t IH]; simpl in *; [assumption|].
  destruct (p c) eqn:E; [|assumption].
  now rewrite (IH Hk).
Qed.
End Star.

Lemma rmatch_sound {R} i r :
  forall s caps (k : jsstring -> captures -> option R) x,
    rmatch i r s caps k = Some x ->
    exists m s' caps', s = m ++ s' /\ lang i r m /\ k s' caps' = Some x.
Proof.
  induction r as [l|r1 IH1 r2 IH2|r1 IH1 r2 IH2|r1 IH1|c|c|n r1 IH1];
    intros s caps k x H; simpl in H.
  - destruct (strip_prefix i l s) as [s'|] eqn:E; [|discriminate].
    destruct (strip_prefix_sound _ _ _ _ E) as (m & -> & Hm).
    now exists m, s', caps.
  - destruct (IH1 _ _ _ _ H) as (m1 & s1 & c1 & -> & L1 & H1).
    destruct (IH2 _ _ _ _ H1) as (m2 & s2 & c2 & -> & L2 & H2).
    exists (m1 ++ m2), s2, c2. rewrite <- app_assoc.
    repeat split; auto. simpl. now exists m1, m2.
  - destruct (rmatch i r1 s caps k) as [y|] eqn:E.
    + injection H as ->.
      destruct (IH1 _ _ _ _ E) as (m & s' & c' & -> & L & Hk).
      exists m, s', c'. simpl; auto.
    + destruct (IH2 _ _ _ _ H) as (m & s' & c' & -> & L & Hk).
      exists m, s', c'. simpl; auto.
  - destruct (rmatch i r1 s caps k) as [y|] eqn:E.
    + injection H as ->.
      destruct (IH1 _ _ _ _ E) as (m & s' & c' & -> & L & Hk).
      exists m, s', c'. simpl; auto.
    + exists [], s, caps. simpl; auto.
  - destruct (star_greedy_sound _ _ _ _ H) as (m & s' & -> & Hm & Hk).
    now exists m, s', caps.
  - destruct s as [|y t]; [discriminate|].
    destruct (in_class c y) eqn:E; [|discriminate].
    destruct (star_greedy_sound _ _ _ _ H) as (m & s' & -> & Hm & Hk).
    exists (y :: m), s', caps. simpl. repeat split; auto; discriminate.
  - destruct (IH1 _ _ _ _ H) as (m & s' & c' & -> & L & Hk).
    now exists m, s', ((n, consumed (m ++ s') s') :: c').
Qed.

Lemma rmatch_complete {R} i r :
  forall m s' caps (k : jsstring -> captures -> option R),
    lang i r m -> (forall caps', k s' caps' <> None) ->
    rmatch i r (m ++ s') caps k <> None.
Proof.
  induction r as [l|r1 IH1 r2 IH2|r1 IH1 r2 IH2|r1 IH1|c|c|n r1 IH1];
    intros m s' caps k L Hk; simpl in *.
  - rewrite (strip_prefix_complete _ _ _ _ L). apply Hk.
  - destruct L as (m1 & m2 & -> & L1 & L2). rewrite <- app_assoc.
    apply IH1; [assumption|]. intros c'. now apply IH2.
  - destruct (rmatch i r1 (m ++ s') caps k) eqn:E; [discriminate|].
    destruct L as [L|L]; [|now apply IH2].
    exfalso. revert E. now apply IH1.
  - destruct (rmatch i r1 (m ++ s') caps k) eqn:E; [discriminate|].
    destruct L as [->|L]; [apply Hk|].
    exfalso. revert E. now apply IH1.
  - apply star_greedy_complete; [assumption|apply Hk].
  - destruct L as [Hne L]. destruct L as [|y m Hy L]; [contradiction|].
    simpl. rewrite Hy. apply star_greedy_complete; [assumption|apply Hk].
  - apply IH1; [assumption|]. intros c'. apply Hk.
Qed.

Lemma match_here_sound re s mr :
  match_here re s = Some mr ->
  exists rest, s = matched mr ++ rest /\
               lang (ignoreCase re) (source re) (matched mr).
Proof.
  unfold match_here. intros H.
  destruct (rmatch_sound _ _ _ _ _ _ H) as (m & s' & c' & -> & L & Hk).
  injection Hk as <-. simpl. rewrite consumed_app. now exists s'.
Qed.

Lemma match_here_complete re m post :
  lang (ignoreCase re) (source re) m -> match_here re (m ++ post) <> None.
Proof.
  intros L. unfold match_here. apply rmatch_complete; [assumption|].
  discriminate.
Qed.

(** [exec] finds the leftmost start at which the pattern matches. *)
Lemma exec_leftmost re s mr :
  exec re s = Some mr ->
  exists pre rest,
    s = pre ++ rest /\ match_here re rest = Some mr /\
    forall pre' rest', s = pre' ++ rest' ->
                       (List.length pre' < List.length pre)%nat ->
                       match_here re rest' = None.
Proof.
  induction s as [|c t IH]; simpl; intros H.
  - destruct (match_here re []) eqn:E; [|discriminate].
    injection H as ->. exists [], []. repeat split; auto.
    simpl. intros; lia.
  - destruct (match_here re (c :: t)) eqn:E.
    + injection H as ->. exists [], (c :: t). repeat split; auto.
      simpl. intros; lia.
    + destruct (IH H) as (pre & rest & -> & Hm & Hl).
      exists (c :: pre), rest. repeat split; auto.
      intros [|c' pre'] rest' E' L; simpl in *.
      * now subst rest'.
      * injection E' as -> E'. apply (Hl pre'); [assumption|lia].
Qed.

Lemma exec_complete re pre rest :
  match_here re rest <> None -> exec re (pre ++ rest) <> None.
Proof.
  intros H. induction pre as [|c pre IH]; simpl.
  - destruct rest; simpl; destruct (match_here re _); congruence.
  - destruct (match_here re (c :: pre ++ rest)); [discriminate|assumption].
Qed.

Lemma exec_none re pre rest :
  exec re (pre ++ rest) = None -> match_here re rest = None.
Proof.
  intros H. destruct (match_here re rest) eqn:E; [|reflexivity].
  exfalso. apply (exec_complete re pre rest); congruence.
Qed.

(** [test] decides whether the pattern occurs somewhere in the text. *)
Lemma test_spec re s :
  test re s = true <-> exists pre m, occurs_at re s pre m.
Proof.
  unfold test. split.
  - destruct (exec re s) as [mr|] eqn:E; [|discriminate]. intros _.
    destruct (exec_leftmost _ _ _ E) as (pre & rest & -> & Hm & _).
    destruct (match_here_sound _ _ _ Hm) as (post & -> & L).
    exists pre, (matched mr), post. auto.
  - intros (pre & m & post & -> & L).
    destruct (exec re (pre ++ m ++ post)) eqn:E; [reflexivity|].
    exfalso. apply (exec_complete re pre (m ++ post)); [|assumption].
    now apply match_here_complete.
Qed.

(** *** Successive matches *)

Lemma scan_skip re (a post : jsstring) :
  scan re (List.length a) (a ++ post) = scan re 0 post.
Proof. induction a as [|c a IH]; simpl; [reflexivity|assumption]. Qed.

Lemma successive_skip re ms c t :
  successive re ms t -> successive re ms (c :: t).
Proof.
  destruct ms as [|m rest]; simpl; [trivial|].
  intros (pre & post & -> & L & S). now exists (c :: pre), post.
Qed.

Lemma scan_successive re s : successive re (scan re 0 s) s.
Proof.
  remember (List.length s) as n eqn:Hn.
  assert (Hle : (List.length s <= n)%nat) by lia. clear Hn.
  revert s Hle. induction n as [|n IH]; intros s Hle.
  - destruct s; [|simpl in Hle; lia]. simpl.
    destruct (match_here re []) as [mr|] eqn:E; simpl; [|trivial].
    destruct (match_here_sound _ _ _ E) as (rest & Hs & L).
    exists [], rest. simpl. auto.
  - destruct s as [|c t].
    + simpl. destruct (match_here re []) as [mr|] eqn:E; simpl; [|trivial].
      destruct (match_here_sound _ _ _ E) as (rest & Hs & L).
      exists [], rest. simpl. auto.
    + simpl in Hle. simpl.
      destruct (match_here re (c :: t)) as [mr|] eqn:E.
      * destruct (match_here_sound _ _ _ E) as (rest & Hs & L).
        simpl. exists [], rest. simpl. repeat split; auto.
        destruct (matched mr) as [|y m'] eqn:Em; simpl in *.
        -- subst rest. apply successive_skip, IH. lia.
        -- injection Hs as -> ->. rewrite Nat.sub_0_r, scan_skip.
           apply IH. rewrite length_app in Hle. lia.
      * apply successive_skip, IH. lia.
Qed.

Lemma match_all_some re s :
  match_all re s <> None <-> exists pre m, occurs_at re s pre m.
Proof.
  rewrite <- test_spec. unfold match_all, test. split.
  - intros H. destruct (exec re s) eqn:E; [reflexivity|]. exfalso. apply H.
    assert (G : forall t, exec re t = None -> scan re 0 t = []).
    { clear. induction t as [|c t IH]; simpl; intros H;
        destruct (match_here re _); try discriminate; auto. }
    now rewrite (G s E).
  - destruct (exec re s) as [mr|] eqn:E; [|discriminate]. intros _.
    assert (G : forall t, exec re t <> None -> scan re 0 t <> []).
    { clear. induction t as [|c t IH]; simpl; intros H;
        destruct (match_here re _); try discriminate; try congruence.
      now apply IH. }
    destruct (scan re 0 s) eqn:E'; [|discriminate].
    exfalso. apply (G s); congruence.
Qed.
End MatcherFacts.

(* ================================================================= *)
(** ** The two patterns of the fallback *)

Section FallbackPatterns.
Import Js Regex Marker ClosedForm Effects AnalyzeController.

Lemma space_range c : is_space c = true -> (c < 48 \/ 122 < c)%N.
Proof.
  intros H. destruct (N.ltb_spec c 48) as [|L1]; [now left|].
  destruct (N.ltb_spec 122 c) as [|L2]; [now right|]. exfalso.
  unfold is_space, existsb in H.
  repeat match type of H with
         | context [N.eqb c ?k] =>
             replace (N.eqb c k) with false in H
               by (symmetry; apply N.eqb_neq; lia)
         end.
  replace (8192 <=? c)%N with false in H by (symmetry; apply N.leb_gt; lia).
  discriminate.
Qed.

Lemma digit_range c : is_digit c = true <-> (48 <= c <= 57)%N.
Proof.
  unfold is_digit. rewrite andb_true_iff, !N.leb_le. tauto.
Qed.

Lemma space_not_digit c : is_space c = true -> is_digit c = false.
Proof.
  intros H. destruct (is_digit c) eqn:E; [|reflexivity].
  apply digit_range in E. apply space_range in H. lia.
Qed.

Lemma digit_not_space c : is_digit c = true -> is_space c = false.
Proof.
  intros H. destruct (is_space c) eqn:E; [|reflexivity].
  apply space_not_digit in E. congruence.
Qed.

Lemma upper_unit_range c :
  (65 <= upper_unit c <= 122)%N -> (65 <= c <= 122)%N.
Proof.
  unfold upper_unit.
  destruct (N.leb_spec 97 c), (N.leb_spec c 122); simpl; lia.
Qed.

(** A code unit that a letter of a pattern matches is an ASCII one
    between [A] and [z]; it is neither white space nor a digit. *)
Lemma letter_match p c :
  (65 <= p <= 122)%N -> unit_eqb true p c = true -> (65 <= c <= 122)%N.
Proof.
  intros Hp H. unfold unit_eqb, canonicalize in H. apply N.eqb_eq in H.
  apply upper_unit_range. rewrite <- H. unfold upper_unit.
  destruct (N.leb_spec 97 p), (N.leb_spec p 122); simpl; lia.
Qed.

Lemma letter_not_space p c :
  (65 <= p <= 122)%N -> unit_eqb true p c = true -> is_space c = false.
Proof.
  intros Hp H. pose proof (letter_match _ _ Hp H).
  destruct (is_space c) eqn:E; [|reflexivity].
  apply space_range in E. lia.
Qed.

Lemma space_not_letter p c :
  (65 <= p <= 122)%N -> is_space c = true -> unit_eqb true p c = false.
Proof.
  intros Hp H. destruct (unit_eqb true p c) eqn:E; [|reflexivity].
  rewrite (letter_not_space _ _ Hp E) in H. discriminate.
Qed.

Lemma unit_eq_str_cons i p l m :
  unit_eq_str i (p :: l) m ->
  exists c m', m = c :: m' /\ unit_eqb i p c = true /\ unit_eq_str i l m'.
Proof. destruct m as [|c m']; simpl; [tauto|]. intros [? ?]. eauto. Qed.

Lemma strip_prefix_head i p l c t :
  unit_eqb i p c = false -> strip_prefix i (p :: l) (c :: t) = None.
Proof. simpl. now intros ->. Qed.

Lemma unit_eqb_same_input p q c :
  unit_eqb true p c = true -> unit_eqb true q c = true ->
  upper_unit p = upper_unit q.
Proof.
  unfold unit_eqb, canonicalize. rewrite !N.eqb_eq. congruence.
Qed.

(** *** [/correct:\s*(true|false)/i] in closed form *)

Lemma match_here_correct s :
  match_here re_correct s =
  match strip_prefix true (str "correct:") s with
  | Some s1 => truth_word s (drop_while is_space s1)
  | None => None
  end.
Proof.
  unfold match_here, re_correct. cbn [source ignoreCase rmatch].
  change (in_class Space) with is_space.
  destruct (strip_prefix true (str "correct:") s) as [s1|]; [|reflexivity].
  rewrite star_greedy_skip.
  - unfold truth_word.
    destruct (strip_prefix true (str "true") _); [reflexivity|].
    destruct (strip_prefix true (str "false") _); reflexivity.
  - intros c t Hc.
    change (str "true") with (116%N :: str "rue").
    change (str "false") with (102%N :: str "alse").
    rewrite !strip_prefix_head; [reflexivity| |];
      apply space_not_letter; auto; lia.
Qed.

(** *** [/confusion:\s*(\d+)/i] in closed form *)

Lemma match_here_confusion s :
  match_here re_confusion s =
  match strip_prefix true (str "confusion:") s with
  | Some s1 => digit_run s (drop_while is_space s1)
  | None => None
  end.
Proof.
  unfold match_here, re_confusion. cbn [source ignoreCase rmatch].
  change (in_class Space) with is_space.
  change (in_class Digit) with is_digit.
  destruct (strip_prefix true (str "confusion:") s) as [s1|]; [|reflexivity].
  rewrite star_greedy_skip.
  - unfold digit_run. destruct (drop_while is_space s1) as [|d t]; [reflexivity|].
    destruct (is_digit d); [|reflexivity].
    now apply star_greedy_longest.
  - intros c t Hc. now rewrite (space_not_digit _ Hc).
Qed.
End FallbackPatterns.

Section LeftmostOccurrence.
Import Js Regex Marker.

Variable re : RegExp.
Variable P : jsstring -> jsstring -> jsstring -> Prop.

Hypothesis P_shift : forall text pre value,
    P text pre value <-> exists rest, text = pre ++ rest /\ P rest [] value.
Hypothesis P_sound : forall rest mr,
    match_here re rest = Some mr ->
    exists value, capture (groups mr) 1 = Some value /\ P rest [] value.
Hypothesis P_complete : forall rest value,
    P rest [] value ->
    exists mr, match_here re rest = Some mr /\
               capture (groups mr) 1 = Some value.

Lemma exec_first text mr :
  exec re text = Some mr ->
  exists pre value,
    leftmost (P text) pre value /\ capture (groups mr) 1 = Some value.
Proof.
  intros H. destruct (exec_leftmost _ _ _ H) as (pre & rest & -> & Hm & Hmin).
  destruct (P_sound _ _ Hm) as (value & Hc & Hp).
  exists pre, value. split; [split|assumption].
  - apply P_shift. now exists rest.
  - intros pre' v' Hp'. apply P_shift in Hp' as (rest' & E & Hp').
    destruct (Nat.le_gt_cases (List.length pre) (List.length pre'))
      as [|Hlt]; [assumption|exfalso].
    destruct (P_complete _ _ Hp') as (mr' & Hm' & _).
    rewrite (Hmin _ _ E Hlt) in Hm'. discriminate.
Qed.

Lemma exec_absent text :
  exec re text = None -> forall pre value, ~ P text pre value.
Proof.
  intros H pre value Hp. apply P_shift in Hp as (rest & -> & Hp).
  destruct (P_complete _ _ Hp) as (mr & Hm & _).
  rewrite (exec_none _ _ _ H) in Hm. discriminate.
Qed.

Lemma leftmost_exec text pre value :
  leftmost (P text) pre value ->
  exists mr, exec re text = Some mr /\ capture (groups mr) 1 = Some value.
Proof.
  intros [Hp Hmin]. apply P_shift in Hp as (rest & -> & Hp).
  destruct (P_complete _ _ Hp) as (mr0 & Hm0 & Hc0).
  destruct (exec re (pre ++ rest)) as [mr|] eqn:E.
  - exists mr. split; [reflexivity|].
    destruct (exec_leftmost _ _ _ E) as (pre1 & rest1 & E1 & Hm1 & Hmin1).
    destruct (P_sound _ _ Hm1) as (v1 & Hc1 & Hp1).
    assert (L1 : (List.length pre <= List.length pre1)%nat).
    { apply (Hmin pre1 v1). apply P_shift. now exists rest1. }
    assert (L2 : (List.length pre1 <= List.length pre)%nat).
    { destruct (Nat.le_gt_cases (List.length pre1) (List.length pre))
        as [|Hlt]; [assumption|exfalso].
      rewrite (Hmin1 _ _ eq_refl Hlt) in Hm0. discriminate. }
    destruct (app_same_length_head _ _ _ _ E1) as [-> ->]; [lia|].
    congruence.
  - exfalso. apply (exec_complete re pre rest); congruence.
Qed.
End LeftmostOccurrence.

Section FallbackOccurrences.
Import Js Regex Marker ClosedForm Effects AnalyzeController.

Lemma marker_shift label text pre value post :
  marker_at label text pre value post <->
  exists rest, text = pre ++ rest /\ marker_at label rest [] value post.
Proof.
  unfold marker_at. split.
  - intros (lit & ws & -> & Hl & Hw).
    exists (lit ++ ws ++ value ++ post). split; [reflexivity|].
    now exists lit, ws.
  - intros (rest & -> & lit & ws & -> & Hl & Hw). now exists lit, ws.
Qed.

Lemma correct_shift text pre value :
  correct_match text pre value <->
  exists rest, text = pre ++ rest /\ correct_match rest [] value.
Proof.
  unfold correct_match. split.
  - intros (post & Hm & Hv). apply marker_shift in Hm as (rest & E & Hm).
    exists rest. split; [assumption|]. now exists post.
  - intros (rest & E & post & Hm & Hv). exists post. split; [|assumption].
    apply marker_shift. now exists rest.
Qed.

Lemma confusion_shift text pre digits :
  confusion_match text pre digits <->
  exists rest, text = pre ++ rest /\ confusion_match rest [] digits.
Proof.
  unfold confusion_match. split.
  - intros (post & Hm & Hv). apply marker_shift in Hm as (rest & E & Hm).
    exists rest. split; [assumption|]. now exists post.
  - intros (rest & E & post & Hm & Hv). exists post. split; [|assumption].
    apply marker_shift. now exists rest.
Qed.

Lemma correct_sound rest mr :
  match_here re_correct rest = Some mr ->
  exists value, capture (groups mr) 1 = Some value /\
                correct_match rest [] value.
Proof.
  rewrite match_here_correct.
  destruct (strip_prefix true (str "correct:") rest) as [s1|] eqn:E1;
    [|discriminate].
  destruct (strip_prefix_sound _ _ _ _ E1) as (lit & -> & Hl).
  pose proof (take_drop_while is_space s1) as Es1.
  pose proof (take_while_all is_space s1) as Hws.
  unfold truth_word.
  destruct (strip_prefix true (str "true") (drop_while is_space s1))
    as [s3|] eqn:E2.
  - intros H. injection H as <-.
    destruct (strip_prefix_sound _ _ _ _ E2) as (v & Ev & Hv).
    exists v. cbn [groups capture Nat.eqb]. rewrite Ev, consumed_app.
    split; [reflexivity|]. exists s3. split; [|now left].
    exists lit, (take_while is_space s1). simpl.
    rewrite Es1 at 1. rewrite Ev. auto.
  - destruct (strip_prefix true (str "false") (drop_while is_space s1))
      as [s3|] eqn:E3; [|discriminate].
    intros H. injection H as <-.
    destruct (strip_prefix_sound _ _ _ _ E3) as (v & Ev & Hv).
    exists v. cbn [groups capture Nat.eqb]. rewrite Ev, consumed_app.
    split; [reflexivity|]. exists s3. split; [|now right].
    exists lit, (take_while is_space s1). simpl.
    rewrite Es1 at 1. rewrite Ev. auto.
Qed.

Lemma correct_complete rest value :
  correct_match rest [] value ->
  exists mr, match_here re_correct rest = Some mr /\
             capture (groups mr) 1 = Some value.
Proof.
  intros (post & (lit & ws & -> & Hl & Hw) & Hv). simpl.
  rewrite match_here_correct.
  rewrite (strip_prefix_complete _ _ _ _ Hl).
  assert (Hd : drop_while is_space (ws ++ value ++ post) = value ++ post).
  { apply run_unique; [assumption|].
    destruct Hv as [Hv|Hv]; unfold same_word in Hv;
      [ change (str "true") with (116%N :: str "rue") in Hv
      | change (str "false") with (102%N :: str "alse") in Hv ];
      apply unit_eq_str_cons in Hv as (c & m' & -> & Hc & _); simpl;
      (eapply letter_not_space; [|exact Hc]; lia). }
  rewrite Hd. unfold truth_word.
  destruct Hv as [Hv|Hv].
  - rewrite (strip_prefix_complete _ _ _ _ Hv).
    eexists. split; [reflexivity|].
    cbn [groups capture Nat.eqb]. now rewrite consumed_app.
  - assert (Hn : strip_prefix true (str "true") (value ++ post) = None).
    { pose proof Hv as Hv'. unfold same_word in Hv'.
      change (str "false") with (102%N :: str "alse") in Hv'.
      apply unit_eq_str_cons in Hv' as (c & m' & -> & Hc & _).
      change (str "true") with (116%N :: str "rue"). simpl app.
      apply strip_prefix_head.
      destruct (unit_eqb true 116 c) eqn:E; [|reflexivity].
      pose proof (unit_eqb_same_input _ _ _ E Hc) as Hu.
      vm_compute in Hu. discriminate. }
    rewrite Hn, (strip_prefix_complete _ _ _ _ Hv).
    eexists. split; [reflexivity|].
    cbn [groups capture Nat.eqb]. now rewrite consumed_app.
Qed.

Lemma confusion_sound rest mr :
  match_here re_confusion rest = Some mr ->
  exists digits, capture (groups mr) 1 = Some digits /\
                 confusion_match rest [] digits.
Proof.
  rewrite match_here_confusion.
  destruct (strip_prefix true (str "confusion:") rest) as [s1|] eqn:E1;
    [|discriminate].
  destruct (strip_prefix_sound _ _ _ _ E1) as (lit & -> & Hl).
  pose proof (take_drop_while is_space s1) as Es1.
  pose proof (take_while_all is_space s1) as Hws.
  unfold digit_run.
  destruct (drop_while is_space s1) as [|d t] eqn:E2; [discriminate|].
  destruct (is_digit d) eqn:Ed; [|discriminate].
  intros H. injection H as <-.
  pose proof (take_drop_while is_digit t) as Et.
  exists (d :: take_while is_digit t). cbn [groups capture Nat.eqb].
  split.
  - rewrite Et at 1.
    change (d :: take_while is_digit t ++ drop_while is_digit t)
      with ((d :: take_while is_digit t) ++ drop_while is_digit t).
    now rewrite consumed_app.
  - exists (drop_while is_digit t). repeat split.
    + exists lit, (take_while is_space s1). simpl.
      repeat split; [|assumption|assumption].
      f_equal. etransitivity; [exact Es1|]. do 2 f_equal. exact Et.
    + discriminate.
    + constructor; [assumption|apply take_while_all].
    + apply drop_while_head.
Qed.

Lemma confusion_complete rest digits :
  confusion_match rest [] digits ->
  exists mr, match_here re_confusion rest = Some mr /\
             capture (groups mr) 1 = Some digits.
Proof.
  intros (post & (lit & ws & -> & Hl & Hw) & Hne & Hd & Hp). simpl.
  rewrite match_here_confusion.
  rewrite (strip_prefix_complete _ _ _ _ Hl).
  destruct Hd as [|d ds Hd Hds]; [contradiction|].
  assert (Hs : drop_while is_space (ws ++ (d :: ds) ++ post)
               = (d :: ds) ++ post).
  { apply run_unique; [assumption|]. simpl. now apply digit_not_space. }
  rewrite Hs. simpl. rewrite Hd.
  destruct (run_unique is_digit ds post Hds Hp) as [_ Hr].
  rewrite Hr. eexists. split; [reflexivity|].
  cbn [groups capture Nat.eqb].
  change (d :: ds ++ post) with ((d :: ds) ++ post).
  now rewrite consumed_app.
Qed.

(** *** parseInt on a run of digits *)

Lemma decimal_nonneg_from acc ds :
  (0 <= acc)%Z -> all_digits ds ->
  (0 <= fold_left (fun a c => a * 10 + (Z.of_N c - 48)) ds acc)%Z.
Proof.
  intros Ha Hd. revert acc Ha.
  induction Hd as [|c ds Hc _ IH]; intros acc Ha; simpl; [assumption|].
  apply IH. apply digit_range in Hc. lia.
Qed.

Lemma decimal_nonneg ds : all_digits ds -> (0 <= decimal ds)%Z.
Proof. apply decimal_nonneg_from. lia. Qed.

Lemma digit_in_radix c : is_digit c = true -> in_radix 10 c = true.
Proof.
  intros H. unfold in_radix, digit_value. rewrite H.
  apply digit_range in H. apply Z.ltb_lt. lia.
Qed.

Lemma take_while_id (p : N -> bool) ds :
  Forall (fun c => p c = true) ds -> take_while p ds = ds.
Proof.
  induction 1 as [|c ds Hc _ IH]; simpl; [reflexivity|].
  now rewrite Hc, IH.
Qed.

Lemma digits_value_decimal ds :
  all_digits ds -> digits_value 10 ds = decimal ds.
Proof.
  unfold digits_value, decimal. generalize 0%Z as acc.
  intros acc Hd. revert acc.
  induction Hd as [|c ds Hc _ IH]; intros acc; simpl; [reflexivity|].
  unfold digit_value at 2. rewrite Hc. apply IH.
Qed.

Lemma parseInt_digits ds :
  ds <> [] -> all_digits ds -> parseInt ds = round_double (decimal ds) 1.
Proof.
  intros Hne Hd. pose proof Hd as Hd'.
  destruct Hd as [|d ds Hc Hds]; [contradiction|].
  unfold parseInt.
  rewrite drop_while_stop by (simpl; now apply digit_not_space).
  pose proof (proj1 (digit_range d) Hc) as Rd.
  replace (N.eqb d 45) with false by (symmetry; apply N.eqb_neq; lia).
  replace (N.eqb d 43) with false by (symmetry; apply N.eqb_neq; lia).
  assert (E : (let '(radix, s3) :=
                 match d :: ds with
                 | c0 :: cx :: t =>
                     if N.eqb c0 48 && (N.eqb cx 120 || N.eqb cx 88)
                     then (16%Z, t) else (10%Z, d :: ds)
                 | _ => (10%Z, d :: ds)
                 end in
               match parse_digits radix s3 with
               | Some n => round_double (1 * n) 1
               | None => JNaN
               end) = round_double (decimal (d :: ds)) 1).
  { destruct ds as [|x t].
    - unfold parse_digits. rewrite take_while_id
        by (constructor; [now apply digit_in_radix|constructor]).
      rewrite digits_value_decimal by assumption.
      now rewrite Z.mul_1_l.
    - inversion Hds as [|? ? Hx Ht]; subst.
      pose proof (proj1 (digit_range x) Hx) as Rx.
      replace (N.eqb x 120) with false by (symmetry; apply N.eqb_neq; lia).
      replace (N.eqb x 88) with false by (symmetry; apply N.eqb_neq; lia).
      rewrite andb_false_r.
      unfold parse_digits. rewrite take_while_id.
      + rewrite digits_value_decimal by assumption. now rewrite Z.mul_1_l.
      + eapply Forall_impl; [|exact Hd']. apply digit_in_radix. }
  exact E.
Qed.
End FallbackOccurrences.

(* ================================================================= *)
(** ** The Number for an integer *)

Section Rounding.
Import Js Marker.
Local Open Scope Z_scope.

Lemma round_half_even_spec n d :
  0 < d ->
  let m := round_half_even n d in
  2 * Z.abs (m * d - n) <= d /\
  (2 * Z.abs (m * d - n) = d -> Z.even m = true) /\
  n / d <= m <= n / d + 1.
Proof.
  intros Hd. unfold round_half_even.
  assert (Dn : d <> 0) by lia.
  pose proof (Z.div_mod n d Dn) as E.
  pose proof (Z.mod_pos_bound n d Hd) as B.
  set (q := n / d) in *. set (r := n mod d) in *.
  destruct (Z.compare_spec (2 * r) d) as [C|C|C]; cbn zeta.
  - destruct (Z.even q) eqn:Ev.
    + repeat split; try lia. exact (fun _ => Ev).
    + repeat split; try lia. intros _.
      replace (q + 1) with (Z.succ q) by lia.
      rewrite Z.even_succ, <- Z.negb_even, Ev. reflexivity.
  - repeat split; try lia; intros T; exfalso; lia.
  - repeat split; try lia; intros T; exfalso; lia.
Qed.

Lemma floor_log2_int d : 0 < d -> floor_log2 d 1 = Z.log2 d.
Proof.
  intros H. unfold floor_log2. change (Z.log2 1) with 0.
  rewrite Z.sub_0_r.
  pose proof (Z.log2_nonneg d) as N.
  replace (0 <=? Z.log2 d) with true by (symmetry; apply Z.leb_le; lia).
  pose proof (Z.log2_spec d H) as [L _].
  replace (1 * 2 ^ Z.log2 d <=? d) with true
    by (symmetry; apply Z.leb_le; lia).
  reflexivity.
Qed.

Lemma round_half_even_exact n : round_half_even n 1 = n.
Proof.
  unfold round_half_even. rewrite Z.mod_1_r, Z.div_1_r. reflexivity.
Qed.

(** The integers up to [2^53] are doubles. *)
Lemma round_double_exact d : 0 <= d <= 2 ^ 53 -> round_double d 1 = JNum d.
Proof.
  intros [H0 H1].
  destruct (Z.eq_dec d 0) as [->|Hn]; [reflexivity|].
  destruct (Z.eq_dec d (2 ^ 53)) as [->|Hm]; [vm_compute; reflexivity|].
  assert (Hp : 0 < d) by lia.
  assert (L : Z.log2 d < 53) by (apply Z.log2_lt_pow2; lia).
  pose proof (Z.log2_nonneg d) as L0.
  unfold round_double. destruct d as [|p|p]; try lia.
  set (d := Z.pos p) in *.
  replace (Z.abs d) with d by lia.
  rewrite (floor_log2_int d Hp).
  replace (Z.max (Z.log2 d - 52) (-1074)) with (Z.log2 d - 52) by lia.
  set (u := Z.log2 d - 52).
  assert (U : u <= 0) by (unfold u; lia).
  destruct (0 <=? u) eqn:Eu.
  - apply Z.leb_le in Eu. assert (u = 0) as -> by lia.
    rewrite Z.pow_0_r, Z.mul_1_l, round_half_even_exact.
    replace (1024 <=? Z.log2 d + 0) with false
      by (symmetry; apply Z.leb_gt; lia).
    unfold dyadic. cbn [Z.leb Z.compare]. change (Z.sgn d) with 1.
    now rewrite Z.pow_0_r, !Z.mul_1_l, ?Z.mul_1_r.
  - apply Z.leb_gt in Eu.
    rewrite round_half_even_exact.
    assert (P : 0 < 2 ^ (- u)) by (apply Z.pow_pos_nonneg; lia).
    rewrite Z.log2_mul_pow2 by lia.
    replace (1024 <=? - u + Z.log2 d + u) with false
      by (symmetry; apply Z.leb_gt; lia).
    unfold dyadic. rewrite (proj2 (Z.leb_gt 0 u)) by lia.
    change (Z.sgn d) with 1. rewrite Z.mul_1_l.
    rewrite Z.mod_mul by lia. cbn [Z.eqb].
    now rewrite Z.div_mul by lia.
Qed.

(** Beyond [2^53]: the nearest multiple of the unit, the even one in a
    tie, or an infinity. *)
Lemma round_double_number_for d : 0 <= d -> number_for d (round_double d 1).
Proof.
  intros H0. split.
  - intros H1. apply round_double_exact. lia.
  - intros H1 u.
    assert (Hp : 0 < d) by (pose proof (Z.pow_pos_nonneg 2 53); lia).
    assert (L : 53 <= Z.log2 d).
    { apply Z.log2_le_pow2; lia. }
    assert (U : 1 <= u) by (unfold u; lia).
    assert (P : 0 < 2 ^ u) by (apply Z.pow_pos_nonneg; lia).
    exists (round_half_even d (2 ^ u)).
    destruct (round_half_even_spec d (2 ^ u) P) as (A & B & C).
    split; [exact A|]. split; [exact B|].
    unfold round_double. destruct d as [|p|p]; try lia.
    set (d := Z.pos p) in *.
    replace (Z.abs d) with d by lia.
    rewrite (floor_log2_int d Hp).
    replace (Z.max (Z.log2 d - 52) (-1074)) with u by (unfold u; lia).
    rewrite (proj2 (Z.leb_le 0 u)) by lia. rewrite Z.mul_1_l.
    set (m := round_half_even d (2 ^ u)) in *.
    assert (M : 0 < m).
    { assert (0 < d / 2 ^ u); [|lia].
      apply Z.div_str_pos. split; [lia|].
      pose proof (Z.log2_spec d Hp) as [S _].
      apply Z.le_trans with (2 ^ Z.log2 d); [|exact S].
      apply Z.pow_le_mono_r; unfold u; lia. }
    change (Z.pos p <? 0) with false. change (Z.sgn d) with 1.
    rewrite Z.mul_1_l.
    destruct (1024 <=? Z.log2 m + u) eqn:O.
    + apply Z.leb_le in O.
      replace (m * 2 ^ u <? 2 ^ 1024) with false; [reflexivity|].
      symmetry. apply Z.ltb_ge.
      apply Z.log2_le_pow2; [lia|]. rewrite Z.log2_mul_pow2 by lia. lia.
    + apply Z.leb_gt in O.
      replace (m * 2 ^ u <? 2 ^ 1024) with true.
      * unfold dyadic. now rewrite (proj2 (Z.leb_le 0 u)) by lia.
      * symmetry. apply Z.ltb_lt.
        apply Z.log2_lt_pow2; [lia|]. rewrite Z.log2_mul_pow2 by lia. lia.
Qed.

Lemma number_for_natural d v :
  0 <= d -> number_for d v -> natural_or_infinite v.
Proof.
  intros H0 [A B]. destruct (Z_le_gt_dec d (2 ^ 53)) as [H|H].
  - left. exists d. split; [now apply A|assumption].
  - destruct (B ltac:(lia)) as (m & Hm & _ & ->).
    destruct (m * 2 ^ (Z.log2 d - 52) <? 2 ^ 1024); [|now right].
    left. eexists. split; [reflexivity|].
    assert (L : 53 <= Z.log2 d) by (apply Z.log2_le_pow2; lia).
    assert (P : 2 ^ (Z.log2 d - 52) <= d).
    { pose proof (Z.log2_spec d ltac:(lia)) as [S _].
      apply Z.le_trans with (2 ^ Z.log2 d); [|exact S].
      apply Z.pow_le_mono_r; lia. }
    lia.
Qed.
(** The Number for [d] is an infinity exactly from [2^1024 - 2^970] on,
    the middle of the largest double and [2^1024]. *)
Lemma number_for_infinite d v :
  number_for d v ->
  (v = JInfinity false <-> 2 ^ 1024 - 2 ^ 970 <= d).
Proof.
  intros [A B]. destruct (Z_le_gt_dec d (2 ^ 53)) as [H|H].
  { rewrite (A H). split; [discriminate|].
    intros G. exfalso. revert G. apply Z.lt_nge.
    apply Z.le_lt_trans with (2 ^ 53); [exact H|reflexivity]. }
  apply Z.gt_lt in H.
  destruct (B H) as (m & Hm & He & ->). clear A B.
  assert (Hp : 0 < d) by (pose proof (Z.pow_pos_nonneg 2 53); lia).
  assert (L : 53 <= Z.log2 d) by (apply Z.log2_le_pow2; lia).
  pose proof (Z.log2_spec d Hp) as [S1 S2].
  set (e := Z.log2 d) in *. set (P := 2 ^ (e - 52)) in *.
  assert (PP : 0 < P) by (apply Z.pow_pos_nonneg; lia).
  assert (EP : 2 ^ e = 2 ^ 52 * P).
  { unfold P. rewrite <- Z.pow_add_r by lia. f_equal. lia. }
  assert (ES : 2 ^ Z.succ e = 2 ^ 53 * P).
  { rewrite Z.pow_succ_r by lia. rewrite EP. change (2 ^ 53) with (2 * 2 ^ 52). ring. }
  assert (I : (m * P <? 2 ^ 1024) = false <-> 2 ^ 1024 <= m * P)
    by apply Z.ltb_ge.
  assert (V : (if m * P <? 2 ^ 1024 then JNum (m * P) else JInfinity false)
              = JInfinity false <-> 2 ^ 1024 <= m * P).
  { rewrite <- I. destruct (m * P <? 2 ^ 1024); split; try discriminate; auto. }
  rewrite V. clear V I.
  assert (M : 2 ^ 52 <= m <= 2 ^ 53) by nia.
  destruct (Z_lt_ge_dec e 1023) as [E|E]; [|destruct (Z.eq_dec e 1023) as [E'|E']].
  - assert (2 ^ Z.succ e <= 2 ^ 1023) by (apply Z.pow_le_mono_r; lia).
    assert (m * P <= 2 ^ 53 * P) by nia.
    split; intros; exfalso; lia.
  - assert (P = 2 ^ 971) as PE by (unfold P; rewrite E'; reflexivity).
    rewrite PE in *. clear PE. split.
    + intros G. lia.
    + intros G. destruct (Z_lt_ge_dec m (2 ^ 53)) as [Lt|Ge]; [|nia].
      exfalso.
      assert (m = 2 ^ 53 - 1) as -> by lia.
      assert (T : 2 * Z.abs ((2 ^ 53 - 1) * 2 ^ 971 - d) = 2 ^ 971) by lia.
      specialize (He T). vm_compute in He. discriminate.
  - assert (2 ^ 1024 <= 2 ^ e) by (apply Z.pow_le_mono_r; lia).
    split; intros; nia.
Qed.
End Rounding.

Section Fallback.
Import Js Regex Marker Effects AnalyzeController.

Lemma at_index_capture mr value :
  capture (groups mr) 1 = Some value -> at_index mr 1 = JStr value.
Proof. unfold at_index. now intros ->. Qed.

(** What the fallback computes, in terms of the occurrences of the two
    markers in the text. *)
Lemma fallback_analysis_spec text :
  exists is_correct level,
    fallback_analysis (Some text)
    = ret (JObj [ (str "is_correct", JBool is_correct);
                  (str "confusion_level", level);
                  (str "feedback", JStr text) ]) /\
    (is_correct = true <->
     exists pre value, leftmost (correct_match text) pre value /\
                       toLowerCase value = str "true") /\
    (forall pre digits,
        leftmost (confusion_match text) pre digits ->
        number_for (decimal digits) level /\
        (level = JInfinity false <->
         (2 ^ 1024 - 2 ^ 970 <= decimal digits)%Z)) /\
    ((forall pre digits, ~ confusion_match text pre digits) ->
     level = JNum 5) /\
    natural_or_infinite level.
Proof.
  unfold fallback_analysis, match_first.
  assert (C : exists is_correct,
             match exec re_correct text with
             | Some m =>
                 (lowered <- call_toLowerCase (at_index m 1) ;;
                  ret (jsstring_eqb lowered (str "true")))%task
             | None => ret false
             end = ret is_correct /\
             (is_correct = true <->
              exists pre value, leftmost (correct_match text) pre value /\
                                toLowerCase value = str "true")).
  { destruct (exec re_correct text) as [mr|] eqn:E.
    - destruct (exec_first re_correct correct_match correct_shift
                  correct_sound correct_complete _ _ E)
        as (pre & value & Hl & Hc).
      rewrite (at_index_capture _ _ Hc).
      exists (jsstring_eqb (toLowerCase value) (str "true")).
      split; [reflexivity|]. rewrite jsstring_eqb_eq. split.
      + intros H. now exists pre, value.
      + intros (pre' & value' & Hl' & Hv').
        destruct (leftmost_exec re_correct correct_match correct_shift
                    correct_sound correct_complete _ _ _ Hl')
          as (mr' & E' & Hc').
        congruence.
    - exists false. split; [reflexivity|]. split; [discriminate|].
      intros (pre & value & [Hp _] & _). exfalso.
      exact (exec_absent re_correct correct_match correct_shift
               correct_complete _ E _ _ Hp). }
  assert (F : exists level,
             match exec re_confusion text with
             | Some m => parseInt (ToString (at_index m 1))
             | None => JNum 5
             end = level /\
             (forall pre digits,
                 leftmost (confusion_match text) pre digits ->
                 number_for (decimal digits) level /\
                 (level = JInfinity false <->
                  (2 ^ 1024 - 2 ^ 970 <= decimal digits)%Z)) /\
             ((forall pre digits, ~ confusion_match text pre digits) ->
              level = JNum 5) /\
             natural_or_infinite level).
  { destruct (exec re_confusion text) as [mr|] eqn:E.
    - destruct (exec_first re_confusion confusion_match confusion_shift
                  confusion_sound confusion_complete _ _ E)
        as (pre & digits & Hl & Hc).
      rewrite (at_index_capture _ _ Hc). cbn [ToString].
      pose proof Hl as [(post & _ & Hne & Hd & _) _].
      rewrite (parseInt_digits _ Hne Hd).
      pose proof (decimal_nonneg _ Hd) as N0.
      exists (round_double (decimal digits) 1).
      split; [reflexivity|]. split; [|split].
      + intros pre' digits' Hl'.
        destruct (leftmost_exec re_confusion confusion_match confusion_shift
                    confusion_sound confusion_complete _ _ _ Hl')
          as (mr' & E' & Hc').
        assert (digits' = digits) as -> by congruence.
        pose proof (round_double_number_for _ N0) as NF.
        split; [exact NF|exact (number_for_infinite _ _ NF)].
      + intros Hno. exfalso. destruct Hl as [Hp _]. exact (Hno _ _ Hp).
      + apply (number_for_natural (decimal digits)); [assumption|].
        now apply round_double_number_for.
    - exists (JNum 5). split; [reflexivity|]. split; [|split].
      + intros pre digits [Hp _]. exfalso.
        exact (exec_absent re_confusion confusion_match confusion_shift
                 confusion_complete _ E _ _ Hp).
      + reflexivity.
      + left. exists 5%Z. split; [reflexivity|lia]. }
  destruct C as (is_correct & Ec & Hc). destruct F as (level & Ef & Hf).
  exists is_correct, level. split; [|split; [exact Hc|exact Hf]].
  rewrite Ec, Ef. reflexivity.
Qed.
End Fallback.

Section Runs.
Import Js Effects.

(** A trace determines the result. *)
Lemma Runs_functional {A} (p : Prog A) tr a a' :
  Runs p tr a -> Runs p tr a' -> a = a'.
Proof.
  intros H. revert a'.
  induction H; intros a' H'; inversion H'; subst; auto.
Qed.

Lemma Runs_Ret_inv {A} (a : A) tr a' : Runs (Ret a) tr a' -> tr = [] /\ a' = a.
Proof. intros H. inversion H; subst. now split. Qed.
End Runs.

Section AnalyzeFacts.
Import Js Regex Marker Claims Shape Effects AnalyzeController.
Variable JSON_parse : jsstring -> Outcome jsval.

(** A request whose fields have primitives passes the conversions. *)
Lemma analyze_conversions b :
  printable_analyze b ->
  to_primitives [ AnalyzeRequest.currentStep b; AnalyzeRequest.totalSteps b;
                  AnalyzeRequest.subject b; AnalyzeRequest.context b;
                  AnalyzeRequest.studentResponse b ] = ret tt.
Proof. unfold printable_analyze, to_primitives. now intros ->. Qed.

Lemma analyze_fallback_run b text more result :
  valid_analyze b ->
  printable_analyze b ->
  fallback_analysis (Some text) = ret result ->
  Runs (analyzeStudentResponse JSON_parse b)
       [EvChat (analysis_request b)
               (Resolved (text_reply text more))]
       (mkResponse 200 (spread [ (str "success", JBool true) ] result)).
Proof.
  intros [Hs Hc] Hp Hf. unfold analyzeStudentResponse.
  rewrite Hs, Hc, (analyze_conversions b Hp). cbn [negb orb].
  unfold try_catch, and_then, createChatCompletion, ret. cbn [bind].
  apply RunsChat. unfold text_reply, call_reply.
  cbn [bind first_message choices function_call content].
  unfold ret at 1. cbn [bind function_call content].
  rewrite Hf. unfold ret. cbn [bind]. apply RunsRet.
Qed.

Lemma analyze_structured_run b fc text more result :
  valid_analyze b ->
  printable_analyze b ->
  JSON_parse (arguments fc) = Resolved result ->
  Runs (analyzeStudentResponse JSON_parse b)
       [EvChat (analysis_request b)
               (Resolved (call_reply fc text more))]
       (mkResponse 200 (spread [ (str "success", JBool true) ] result)).
Proof.
  intros [Hs Hc] Hp Hf. unfold analyzeStudentResponse.
  rewrite Hs, Hc, (analyze_conversions b Hp). cbn [negb orb].
  unfold try_catch, and_then, createChatCompletion, ret. cbn [bind].
  apply RunsChat. unfold text_reply, call_reply.
  cbn [bind first_message choices function_call content].
  unfold ret at 1. cbn [bind function_call content].
  rewrite Hf. unfold ret. cbn [bind]. apply RunsRet.
Qed.

(** A request one of whose fields has no primitive is answered 500
    before any call. *)
Lemma analyze_unprintable_run b :
  valid_analyze b ->
  ~ printable_analyze b ->
  Runs (analyzeStudentResponse JSON_parse b)
       (fst (failure (str "Error analyzing student response:")
                     (str "Error analyzing student response") no_primitive))
       (snd (failure (str "Error analyzing student response:")
                     (str "Error analyzing student response") no_primitive)).
Proof.
  intros [Hs Hc] Hp. unfold analyzeStudentResponse.
  rewrite Hs, Hc. cbn [negb orb]. unfold to_primitives.
  unfold printable_analyze in Hp.
  destruct (forallb has_primitive _); [now contradiction Hp|].
  unfold try_catch, and_then, throw. cbn [bind].
  apply RunsConsoleError, RunsRet.
Qed.
End AnalyzeFacts.

(* ================================================================= *)
(** ** analyzeStudentResponse *)

Section AnalyzeClaims.
Import Js Regex Marker Claims Effects AnalyzeController.
Variable JSON_parse : jsstring -> Outcome jsval.

(** C1, amended.  A reply without a function call is answered from its
    text alone: status 200 with [is_correct] true exactly when the
    leftmost occurrence of [correct:\s*(true|false)] (any case) captures
    [true], and [feedback] the whole text.  [confusion_level] is what
    [parseInt] reads from the digits of the leftmost occurrence of
    [confusion:\s*(\d+)]: the integer that they write when it is at most
    [2^53], beyond that the nearest double, and [Infinity] from
    [2^1024 - 2^970] on; it is 5 without an occurrence. *)
Theorem C1_fallback_reads_text_only
        (b : AnalyzeRequest.body) (text : jsstring) (more : list ChatMessage) :
  valid_analyze b ->
  printable_analyze b ->
  exists is_correct level,
    Runs (analyzeStudentResponse JSON_parse b)
         [EvChat (analysis_request b) (Resolved (text_reply text more))]
         (mkResponse 200
            [ (str "success", JBool true);
              (str "is_correct", JBool is_correct);
              (str "confusion_level", level);
              (str "feedback", JStr text) ]) /\
    (is_correct = true <->
     exists pre value, leftmost (correct_match text) pre value /\
                       toLowerCase value = str "true") /\
    (forall pre digits,
        leftmost (confusion_match text) pre digits ->
        number_for (decimal digits) level /\
        (level = JInfinity false <->
         (2 ^ 1024 - 2 ^ 970 <= decimal digits)%Z)) /\
    ((forall pre digits, ~ confusion_match text pre digits) ->
     level = JNum 5).
Proof.
  intros Hv Hp.
  destruct (fallback_analysis_spec text)
    as (is_correct & level & Hf & Hc & Hl & Hd & _).
  exists is_correct, level. split; [|auto].
  exact (analyze_fallback_run JSON_parse b text more _ Hv Hp Hf).
Qed.

(** C4, amended.  The confusion level is not clamped.  From free text
    it is what [parseInt] reads from the captured digits, an integer
    that is not negative or [Infinity]: the integer that the digits
    write up to [2^53], the nearest double beyond; and 5 without a
    match.  From a function call it is the value of the payload,
    unchanged. *)
Theorem C4_confusion_level_not_clamped
        (b : AnalyzeRequest.body) (text : jsstring) (more : list ChatMessage)
        (fc : FunctionCall) (content : option jsstring)
        (props : object) (v : jsval) :
  valid_analyze b ->
  printable_analyze b ->
  JSON_parse (arguments fc) = Resolved (JObj props) ->
  NoDup (map fst props) ->
  get props (str "confusion_level") = Some v ->
  (exists r level,
      Runs (analyzeStudentResponse JSON_parse b)
           [EvChat (analysis_request b) (Resolved (text_reply text more))] r /\
      get (json r) (str "confusion_level") = Some level /\
      natural_or_infinite level /\
      (forall pre digits,
          leftmost (confusion_match text) pre digits ->
          number_for (decimal digits) level /\
          (level = JInfinity false <->
           (2 ^ 1024 - 2 ^ 970 <= decimal digits)%Z)) /\
      ((forall pre digits, ~ confusion_match text pre digits) ->
       level = JNum 5)) /\
  (exists r,
      Runs (analyzeStudentResponse JSON_parse b)
           [EvChat (analysis_request b) (Resolved (call_reply fc content more))] r /\
      get (json r) (str "confusion_level") = Some v).
Proof.
  intros Hv Hq Hp Hnd Hg. split.
  - destruct (fallback_analysis_spec text)
      as (is_correct & level & Hf & _ & Hl & Hd & H0).
    eexists. exists level. split; [|split; [|auto]].
    + exact (analyze_fallback_run JSON_parse b text more _ Hv Hq Hf).
    + reflexivity.
  - eexists. split.
    + exact (analyze_structured_run JSON_parse b fc content more _ Hv Hq Hp).
    + cbn [json]. now apply get_spread_present.
Qed.

(** C5, amended.  A reply that supplies no misconceptions yields a
    response without a [misconceptions] field: free text produces only
    [is_correct], [confusion_level] and [feedback], and a payload is
    copied as it is. *)
Theorem C5_misconceptions_left_absent
        (b : AnalyzeRequest.body) (text : jsstring) (more : list ChatMessage)
        (fc : FunctionCall) (content : option jsstring) (payload : jsval) :
  valid_analyze b ->
  printable_analyze b ->
  JSON_parse (arguments fc) = Resolved payload ->
  get (own_properties payload) (str "misconceptions") = None ->
  (exists r,
      Runs (analyzeStudentResponse JSON_parse b)
           [EvChat (analysis_request b) (Resolved (text_reply text more))] r /\
      get (json r) (str "misconceptions") = None) /\
  (exists r,
      Runs (analyzeStudentResponse JSON_parse b)
           [EvChat (analysis_request b) (Resolved (call_reply fc content more))] r /\
      get (json r) (str "misconceptions") = None).
Proof.
  intros Hv Hq Hp Hg. split.
  - destruct (fallback_analysis_spec text)
      as (is_correct & level & Hf & _).
    eexists. split.
    + exact (analyze_fallback_run JSON_parse b text more _ Hv Hq Hf).
    + reflexivity.
  - eexists. split.
    + exact (analyze_structured_run JSON_parse b fc content more _ Hv Hq Hp).
    + cbn [json]. now rewrite get_spread_absent.
Qed.
End AnalyzeClaims.

(* ================================================================= *)
(** ** Validation *)

Section ValidationClaims.
Import Js Regex Marker Claims Effects AnalyzeController.
Variable JSON_parse : jsstring -> Outcome jsval.

Lemma undefined_or_falsy (x y : jsval) :
  x = JUndefined \/ y = JUndefined ->
  negb (truthy x) || negb (truthy y) = true.
Proof.
  intros [-> | ->]; simpl; [reflexivity|]. apply orb_true_r.
Qed.

(** C9.  When [studentResponse] or [context] is missing from an
    /analyze request, and when [message] or [subject] is missing from a
    /process request, the handler answers 400 with [success: false]
    at once: its only run has no interaction at all, so no provider
    call is made. *)
Theorem C9_missing_field_is_rejected_without_calls
        (a : AnalyzeRequest.body) (p : ProcessRequest.body) :
  AnalyzeRequest.studentResponse a = JUndefined \/
  AnalyzeRequest.context a = JUndefined ->
  ProcessRequest.message p = JUndefined \/
  ProcessRequest.subject p = JUndefined ->
  (analyzeStudentResponse JSON_parse a
   = Ret (mkResponse 400
            [ (str "success", JBool false);
              (str "message",
               JStr (str "Student response and context are required")) ]) /\
   forall tr r,
     Runs (analyzeStudentResponse JSON_parse a) tr r ->
     tr = [] /\ status r = 400%Z /\
     get (json r) (str "success") = Some (JBool false)) /\
  (processLearningResponse p
   = Ret (mkResponse 400
            [ (str "success", JBool false);
              (str "message",
               JStr (str "Student message and subject are required")) ]) /\
   forall tr r,
     Runs (processLearningResponse p) tr r ->
     tr = [] /\ status r = 400%Z /\
     get (json r) (str "success") = Some (JBool false)).
Proof.
  intros Ha Hp.
  assert (Ea : analyzeStudentResponse JSON_parse a
               = Ret (mkResponse 400
                        [ (str "success", JBool false);
                          (str "message",
                           JStr (str "Student response and context are required")) ])).
  { unfold analyzeStudentResponse.
    now rewrite (undefined_or_falsy _ _ Ha). }
  assert (Ep : processLearningResponse p
               = Ret (mkResponse 400
                        [ (str "success", JBool false);
                          (str "message",
                           JStr (str "Student message and subject are required")) ])).
  { unfold processLearningResponse.
    now rewrite (undefined_or_falsy _ _ Hp). }
  split; (split; [assumption|]); intros tr r H.
  - rewrite Ea in H. apply Runs_Ret_inv in H as [-> ->]. now repeat split.
  - rewrite Ep in H. apply Runs_Ret_inv in H as [-> ->]. now repeat split.
Qed.
End ValidationClaims.

(* ================================================================= *)
(** ** processLearningResponse *)

Section PromptFacts.
Import Js Regex Marker ClosedForm Claims Shape Effects AnalyzeController.

Lemma lastn_split n (s : jsstring) :
  (n <= List.length s)%nat ->
  exists front, s = front ++ lastn n s /\ List.length (lastn n s) = n.
Proof.
  intros H. exists (firstn (List.length s - n) s). unfold lastn. split.
  - symmetry. apply firstn_skipn.
  - rewrite length_skipn. lia.
Qed.

(** A text whose last seven code units differ from those of the
    addendum does not end with the addendum. *)
Lemma not_addendum_suffix (x last : jsstring) :
  (7 <= List.length last)%nat ->
  lastn 7 last <> lastn 7 final_step_addendum ->
  ~ endsWith (x ++ last) final_step_addendum.
Proof.
  intros Hlen Hne [pre E].
  destruct (lastn_split 7 last Hlen) as (f1 & E1 & L1).
  destruct (lastn_split 7 final_step_addendum) as (f2 & E2 & L2);
    [vm_compute; lia|].
  rewrite E1, E2, !app_assoc in E.
  apply app_same_length_tail in E; [contradiction|congruence].
Qed.

Ltac no_suffix :=
  repeat rewrite app_assoc;
  apply not_addendum_suffix;
  [ vm_compute; lia | vm_compute; discriminate ].

Lemma hint_no_addendum s c t x :
  ~ endsWith (hint_template s c t x) final_step_addendum.
Proof. unfold hint_template. no_suffix. Qed.

Lemma clarification_no_addendum s c t x :
  ~ endsWith (clarification_template s c t x) final_step_addendum.
Proof. unfold clarification_template. no_suffix. Qed.

Lemma encouragement_no_addendum s c t x :
  ~ endsWith (encouragement_template s c t x) final_step_addendum.
Proof. unfold encouragement_template. no_suffix. Qed.

Lemma default_no_addendum s c t x :
  ~ endsWith (default_template s c t x) final_step_addendum.
Proof. unfold default_template. no_suffix. Qed.

Lemma template_no_addendum r s c t x :
  ~ endsWith (select_template r s c t x) final_step_addendum.
Proof.
  unfold select_template.
  destruct (strict_equals r (str "hint")); [apply hint_no_addendum|].
  destruct (strict_equals r (str "clarification"));
    [apply clarification_no_addendum|].
  destruct (strict_equals r (str "encouragement"));
    [apply encouragement_no_addendum|apply default_no_addendum].
Qed.

Lemma template_nonempty r s c t x : select_template r s c t x <> [].
Proof.
  unfold select_template.
  destruct (strict_equals r (str "hint"));
    [|destruct (strict_equals r (str "clarification"));
      [|destruct (strict_equals r (str "encouragement"))]];
    discriminate.
Qed.

Lemma systemPrompt_nonempty b : systemPrompt b <> [].
Proof.
  unfold systemPrompt. destruct (isFinalStep b).
  - intros H. apply app_eq_nil in H as [H _].
    now apply template_nonempty in H.
  - apply template_nonempty.
Qed.

(** [>=] on two finite numbers compares their values. *)
Lemma ge_numbers x y a b c d :
  ratio_of x = Some (a, b) -> ratio_of y = Some (c, d) ->
  ge x y = (c * b <=? a * d)%Z.
Proof.
  intros Hx Hy. unfold ge.
  destruct x; try discriminate; destruct y; try discriminate;
    cbn [ToPrimitive less_than ToNumber number_lt];
    rewrite Hx, Hy; rewrite Z.leb_antisym;
    now destruct (a * d <? c * b)%Z.
Qed.

Lemma ge_integers x y : ge (JNum x) (JNum y) = (y <=? x)%Z.
Proof.
  rewrite (ge_numbers (JNum x) (JNum y) x 1 y 1) by reflexivity.
  now rewrite !Z.mul_1_r.
Qed.

Lemma number_lt_nan_r x : number_lt x JNaN = None.
Proof. now destruct x. Qed.

(** [undefined] converts to [NaN], which is not smaller or larger than
    anything. *)
Lemma ge_undefined x y : x = JUndefined \/ y = JUndefined -> ge x y = false.
Proof.
  unfold ge. intros [-> | ->].
  - cbn [ToPrimitive less_than ToNumber]. reflexivity.
  - assert (E : less_than (ToPrimitive x) JUndefined = None).
    { destruct x; cbn [ToPrimitive less_than ToNumber];
        try reflexivity; apply number_lt_nan_r. }
    cbn [ToPrimitive]. now rewrite E.
Qed.

(** A request whose fields have primitives passes the conversions. *)
Lemma process_conversions b :
  printable_process b ->
  to_primitives [ ProcessRequest.current_step b;
                  ProcessRequest.total_steps b ] = ret tt /\
  to_primitives [ ProcessRequest.subject b; ProcessRequest.current_step b;
                  ProcessRequest.total_steps b; ProcessRequest.context b;
                  ProcessRequest.user_query b; ProcessRequest.message b ]
  = ret tt.
Proof.
  unfold printable_process, to_primitives. intros H. rewrite H.
  cbn [forallb] in *.
  destruct (has_primitive (ProcessRequest.subject b)); [|discriminate].
  destruct (has_primitive (ProcessRequest.current_step b)); [|discriminate].
  destruct (has_primitive (ProcessRequest.total_steps b)); [|discriminate].
  now split.
Qed.

(** Without a primitive for one of them, the first conversion that is
    reached throws. *)
Lemma process_no_conversions b :
  ~ printable_process b ->
  (_ <- to_primitives [ ProcessRequest.current_step b;
                        ProcessRequest.total_steps b ] ;;
   to_primitives [ ProcessRequest.subject b; ProcessRequest.current_step b;
                   ProcessRequest.total_steps b; ProcessRequest.context b;
                   ProcessRequest.user_query b; ProcessRequest.message b ])%task
  = throw no_primitive.
Proof.
  unfold printable_process, to_primitives. intros H.
  destruct (forallb has_primitive
              [ProcessRequest.subject b; ProcessRequest.current_step b;
               ProcessRequest.total_steps b; ProcessRequest.context b;
               ProcessRequest.user_query b; ProcessRequest.message b]);
    [now contradiction H|].
  now destruct (forallb has_primitive _).
Qed.

Lemma process_run b m more :
  valid_process b ->
  printable_process b ->
  Runs (processLearningResponse b)
       [EvChat (process_request b) (Resolved (mkChatCompletion (m :: more)))]
       (mkResponse 200
          [ (str "success", JBool true);
            (str "next_step", content_value m);
            (str "is_final_step", JBool (isFinalStep b));
            (str "context",
             JStr (ToString (ProcessRequest.context b) ++ [LF; LF] ++
                   str "Student: " ++ ToString (ProcessRequest.message b) ++
                   [LF; LF] ++ str "Tutor: " ++ ToString (content_value m))) ]).
Proof.
  intros [Hm Hs] Hp. unfold processLearningResponse.
  destruct (process_conversions b Hp) as [E1 E2].
  rewrite Hm, Hs, E1, E2. cbn [negb orb].
  unfold try_catch, and_then, createChatCompletion, ret. cbn [bind].
  apply RunsChat. cbn [bind first_message choices].
  unfold ret. cbn [bind]. apply RunsRet.
Qed.

(** A request one of whose fields has no primitive is answered 500
    before any call. *)
Lemma process_unprintable_run b :
  valid_process b ->
  ~ printable_process b ->
  Runs (processLearningResponse b)
       (fst (failure (str "Error processing learning response:")
                     (str "Error processing learning response") no_primitive))
       (snd (failure (str "Error processing learning response:")
                     (str "Error processing learning response") no_primitive)).
Proof.
  intros [Hm Hs] Hp. unfold processLearningResponse.
  rewrite Hm, Hs. cbn [negb orb].
  pose proof (process_no_conversions b Hp) as E.
  unfold try_catch. unfold and_then at 1.
  unfold and_then at 1 in E.
  destruct (to_primitives [ProcessRequest.current_step b;
                           ProcessRequest.total_steps b]) eqn:G;
    unfold to_primitives in G;
    destruct (forallb has_primitive [ProcessRequest.current_step b;
                                     ProcessRequest.total_steps b]);
    try discriminate.
  - injection G as <-. cbn [bind] in *. unfold and_then. rewrite E.
    unfold throw. cbn [bind]. apply RunsConsoleError, RunsRet.
  - injection G as <-. cbn [bind]. apply RunsConsoleError, RunsRet.
Qed.

Lemma strict_equals_false v s : v <> JStr s -> strict_equals v s = false.
Proof.
  destruct v; simpl; try reflexivity. intros H.
  apply jsstring_eqb_neq. congruence.
Qed.

(** C2.  The system prompt is the selected template followed by the
    final-step addendum exactly when [current_step >= total_steps],
    whichever template was selected, and [is_final_step] in the response
    is that same comparison.  The comparison is the one of JavaScript on
    whatever the two fields are: two finite numbers compare by value,
    so that the addendum is present when they are equal and absent when
    [current_step] is smaller; two strings compare as strings; a
    missing field makes it false; two [null]s make it true. *)
Theorem C2_final_step_addendum
        (b : ProcessRequest.body) (m : ChatMessage) (more : list ChatMessage) :
  valid_process b ->
  printable_process b ->
  let base :=
    select_template (response_type_of b) (ProcessRequest.subject b)
                    (ProcessRequest.current_step b)
                    (ProcessRequest.total_steps b)
                    (ProcessRequest.context b) in
  let final := ge (ProcessRequest.current_step b) (ProcessRequest.total_steps b) in
  (exists r,
      Runs (processLearningResponse b)
           [EvChat (process_request b) (Resolved (mkChatCompletion (m :: more)))] r /\
      status r = 200%Z /\
      get (json r) (str "is_final_step") = Some (JBool final)) /\
  nth_error (messages (process_request b)) 0
  = Some (mkMessage (str "system") (Text (systemPrompt b))) /\
  systemPrompt b = (if final then base ++ final_step_addendum else base) /\
  (endsWith (systemPrompt b) final_step_addendum <-> final = true) /\
  (forall c cd t td,
      ratio_of (ProcessRequest.current_step b) = Some (c, cd) ->
      ratio_of (ProcessRequest.total_steps b) = Some (t, td) ->
      (final = true <-> (t * cd <= c * td)%Z)) /\
  (forall c t,
      ProcessRequest.current_step b = JNum c ->
      ProcessRequest.total_steps b = JNum t ->
      (final = true <-> (t <= c)%Z)) /\
  (forall x y,
      ProcessRequest.current_step b = JStr x ->
      ProcessRequest.total_steps b = JStr y ->
      (final = true <-> string_lt x y = false)) /\
  (ProcessRequest.current_step b = JUndefined \/
   ProcessRequest.total_steps b = JUndefined -> final = false) /\
  (ProcessRequest.current_step b = JNull ->
   ProcessRequest.total_steps b = JNull -> final = true).
Proof.
  intros Hv Hp base final.
  split; [|split; [|split; [|split; [|split; [|split; [|split; [|split]]]]]]].
  - eexists. split; [exact (process_run b m more Hv Hp)|]. now split.
  - reflexivity.
  - reflexivity.
  - unfold systemPrompt, isFinalStep. fold base. fold final.
    destruct final; split; try discriminate; auto.
    + intros _. now exists base.
    + intros H. exfalso. revert H. apply template_no_addendum.
  - intros c cd t td Hc Ht. unfold final.
    rewrite (ge_numbers _ _ _ _ _ _ Hc Ht). apply Z.leb_le.
  - intros c t Hc Ht. unfold final. rewrite Hc, Ht, ge_integers.
    apply Z.leb_le.
  - intros x y Hx Hy. unfold final. rewrite Hx, Hy. unfold ge.
    cbn [ToPrimitive less_than]. now destruct (string_lt x y).
  - apply ge_undefined.
  - intros Hc Ht. unfold final. now rewrite Hc, Ht.
Qed.

(** C3, amended.  A supplied [response_type] other than [hint],
    [clarification] and [encouragement] selects the default template.
    The value of [response_type] never raises an error, but the
    conversion of the fields that the prompt is built from can: when
    all of them have a primitive the handler goes on to the provider,
    and when one of them has none (an object with a [toString] property
    of its own) a [TypeError] is thrown, no prompt is built and the
    answer is a 500 without any call.  A prompt that is built is never
    empty. *)
Theorem C3_unrecognised_type_uses_default
        (b : ProcessRequest.body) (m : ChatMessage) (more : list ChatMessage) :
  valid_process b ->
  ProcessRequest.response_type b <> JUndefined ->
  ProcessRequest.response_type b <> JStr (str "hint") ->
  ProcessRequest.response_type b <> JStr (str "clarification") ->
  ProcessRequest.response_type b <> JStr (str "encouragement") ->
  let base :=
    default_template (ProcessRequest.subject b)
                     (ProcessRequest.current_step b)
                     (ProcessRequest.total_steps b)
                     (ProcessRequest.context b) in
  let failed :=
    failure (str "Error processing learning response:")
            (str "Error processing learning response") no_primitive in
  select_template (ProcessRequest.response_type b) (ProcessRequest.subject b)
                  (ProcessRequest.current_step b)
                  (ProcessRequest.total_steps b)
                  (ProcessRequest.context b) = base /\
  systemPrompt b = (if isFinalStep b then base ++ final_step_addendum else base) /\
  (printable_process b ->
   exists r,
     Runs (processLearningResponse b)
          [EvChat (process_request b) (Resolved (mkChatCompletion (m :: more)))] r /\
     status r = 200%Z) /\
  (~ printable_process b ->
   Runs (processLearningResponse b) (fst failed) (snd failed)) /\
  (forall b', systemPrompt b' <> []).
Proof.
  intros Hv Hu Hh Hc He base failed.
  assert (Hs : select_template (ProcessRequest.response_type b)
                 (ProcessRequest.subject b)
                 (ProcessRequest.current_step b)
                 (ProcessRequest.total_steps b)
                 (ProcessRequest.context b) = base).
  { unfold select_template.
    now rewrite !strict_equals_false by assumption. }
  split; [exact Hs|]. split; [|split; [|split]].
  - assert (Hr : response_type_of b = ProcessRequest.response_type b).
    { unfold response_type_of.
      destruct (ProcessRequest.response_type b); try reflexivity.
      contradiction. }
    unfold systemPrompt. now rewrite Hr, Hs.
  - intros Hp. eexists. split; [exact (process_run b m more Hv Hp)|reflexivity].
  - intros Hp. exact (process_unprintable_run b Hv Hp).
  - apply systemPrompt_nonempty.
Qed.

(** C10.  A request without [response_type] gets the hint template,
    by the destructuring default, and the hint template differs from
    the default template for all arguments. *)
Theorem C10_omitted_type_defaults_to_hint (b : ProcessRequest.body) :
  ProcessRequest.response_type b = JUndefined ->
  let base :=
    hint_template (ProcessRequest.subject b)
                  (ProcessRequest.current_step b)
                  (ProcessRequest.total_steps b)
                  (ProcessRequest.context b) in
  response_type_of b = JStr (str "hint") /\
  systemPrompt b = (if isFinalStep b then base ++ final_step_addendum else base) /\
  (forall s c t x, hint_template s c t x <> default_template s c t x).
Proof.
  intros Hu base. unfold systemPrompt, response_type_of. rewrite Hu.
  split; [reflexivity|split; [reflexivity|]].
  intros s c t x H. apply (f_equal (@List.length N)) in H.
  unfold hint_template, default_template in H.
  repeat rewrite length_app in H.
  repeat match type of H with
         | context [List.length (str ?a)] =>
             let n := eval vm_compute in (List.length (str a)) in
             change (List.length (str a)) with n in H
         end.
  change (List.length DQUOTE) with 1%nat in H. lia.
Qed.
End PromptFacts.

(* ================================================================= *)
(** ** analyzeImage *)

Section ImageClaims.
Import Js Regex Marker ClosedForm Claims Effects ImageController.

Lemma same_word_app l1 l2 m1 m2 :
  same_word l1 m1 -> same_word l2 m2 -> same_word (l1 ++ l2) (m1 ++ m2).
Proof.
  unfold same_word. revert m1.
  induction l1 as [|p l1 IH]; intros [|c m1]; simpl; try tauto.
  intros [Hc H1] H2. split; [assumption|now apply IH].
Qed.

Lemma same_word_split l1 l2 m :
  same_word (l1 ++ l2) m ->
  exists m1 m2, m = m1 ++ m2 /\ same_word l1 m1 /\ same_word l2 m2.
Proof.
  unfold same_word. revert m.
  induction l1 as [|p l1 IH]; intros m H; simpl in *.
  - now exists [], m.
  - destruct m as [|c m]; [contradiction|]. destruct H as [Hc H].
    destruct (IH m H) as (m1 & m2 & -> & H1 & H2).
    exists (c :: m1), m2. simpl. auto.
Qed.

Lemma occurs_literal w text :
  (exists pre m, occurs_at (ci (Lit w)) text pre m) <-> occurs_ci w text.
Proof.
  unfold occurs_at, occurs_ci, same_word. simpl. split.
  - intros (pre & m & post & E & L). now exists pre, m, post.
  - intros (pre & m & post & E & L). now exists pre, m, post.
Qed.

(** [/read(ing)?/i] occurs exactly where [read] does. *)
Lemma occurs_read text :
  (exists pre m,
      occurs_at (ci (Seq (Lit (str "read")) (Opt (Group 1 (Lit (str "ing"))))))
                text pre m)
  <-> occurs_ci (str "read") text.
Proof.
  unfold occurs_at, occurs_ci, same_word. simpl. split.
  - intros (pre & m & post & E & m1 & m2 & -> & L1 & _).
    exists pre, m1, (m2 ++ post). rewrite <- app_assoc in E. auto.
  - intros (pre & m & post & E & L).
    exists pre, m, post. split; [assumption|].
    exists m, []. rewrite app_nil_r. auto.
Qed.

(** [/writ(ing|e)/i] occurs exactly where [writing] or [write] does. *)
Lemma occurs_writ text :
  (exists pre m,
      occurs_at (ci (Seq (Lit (str "writ"))
                         (Group 1 (Alt (Lit (str "ing")) (Lit (str "e"))))))
                text pre m)
  <-> occurs_ci (str "writing") text \/ occurs_ci (str "write") text.
Proof.
  unfold occurs_at, occurs_ci. simpl lang. split.
  - intros (pre & m & post & E & m1 & m2 & -> & L1 & [L2|L2]).
    + left. exists pre, (m1 ++ m2), post. split; [assumption|].
      change (str "writing") with (str "writ" ++ str "ing").
      now apply same_word_app.
    + right. exists pre, (m1 ++ m2), post. split; [assumption|].
      change (str "write") with (str "writ" ++ str "e").
      now apply same_word_app.
  - intros [(pre & m & post & E & L)|(pre & m & post & E & L)].
    + change (str "writing") with (str "writ" ++ str "ing") in L.
      apply same_word_split in L as (m1 & m2 & -> & L1 & L2).
      exists pre, (m1 ++ m2), post. split; [assumption|].
      exists m1, m2. auto.
    + change (str "write") with (str "writ" ++ str "e") in L.
      apply same_word_split in L as (m1 & m2 & -> & L1 & L2).
      exists pre, (m1 ++ m2), post. split; [assumption|].
      exists m1, m2. auto.
Qed.

Lemma detection_patterns text :
  shouldEnterTutorialMode (JStr text) = true <->
  exists pattern, In pattern educationalContentPatterns /\
                  exists pre m, occurs_at pattern text pre m.
Proof.
  unfold shouldEnterTutorialMode. cbn [ToString].
  rewrite existsb_exists. split.
  - intros (p & Hin & Ht). exists p. split; [assumption|].
    now apply test_spec.
  - intros (p & Hin & Ho). exists p. split; [assumption|].
    now apply test_spec.
Qed.

Lemma detection_words text :
  shouldEnterTutorialMode (JStr text) = true <->
  exists w, In w detected_words /\ occurs_ci w text.
Proof.
  rewrite detection_patterns. unfold educationalContentPatterns. split.
  - intros (p & Hin & Ho). simpl in Hin.
    repeat (destruct Hin as [<- | Hin]); try contradiction.
    + apply occurs_literal in Ho. exists (str "math problem").
      split; [simpl; tauto|assumption].
    + apply occurs_literal in Ho. exists (str "equation").
      split; [simpl; tauto|assumption].
    + apply occurs_literal in Ho. exists (str "science question").
      split; [simpl; tauto|assumption].
    + apply occurs_literal in Ho. exists (str "experiment").
      split; [simpl; tauto|assumption].
    + apply occurs_read in Ho. exists (str "read").
      split; [simpl; tauto|assumption].
    + apply occurs_writ in Ho as [Ho|Ho].
      * exists (str "writing"). split; [simpl; tauto|assumption].
      * exists (str "write"). split; [simpl; tauto|assumption].
    + apply occurs_literal in Ho. exists (str "homework").
      split; [simpl; tauto|assumption].
    + apply occurs_literal in Ho. exists (str "problem to solve").
      split; [simpl; tauto|assumption].
    + apply occurs_literal in Ho. exists (str "steps to follow").
      split; [simpl; tauto|assumption].
  - intros (w & Hin & Ho). unfold detected_words in Hin. simpl in Hin.
    repeat (destruct Hin as [<- | Hin]); try contradiction.
    + exists (ci (Lit (str "math problem"))).
      split; [simpl; tauto|now apply occurs_literal].
    + exists (ci (Lit (str "equation"))).
      split; [simpl; tauto|now apply occurs_literal].
    + exists (ci (Lit (str "science question"))).
      split; [simpl; tauto|now apply occurs_literal].
    + exists (ci (Lit (str "experiment"))).
      split; [simpl; tauto|now apply occurs_literal].
    + exists (ci (Seq (Lit (str "read")) (Opt (Group 1 (Lit (str "ing")))))).
      split; [simpl; tauto|now apply occurs_read].
    + exists (ci (Seq (Lit (str "writ"))
                      (Group 1 (Alt (Lit (str "ing")) (Lit (str "e")))))).
      split; [simpl; tauto|apply occurs_writ; now left].
    + exists (ci (Seq (Lit (str "writ"))
                      (Group 1 (Alt (Lit (str "ing")) (Lit (str "e")))))).
      split; [simpl; tauto|apply occurs_writ; now right].
    + exists (ci (Lit (str "homework"))).
      split; [simpl; tauto|now apply occurs_literal].
    + exists (ci (Lit (str "problem to solve"))).
      split; [simpl; tauto|now apply occurs_literal].
    + exists (ci (Lit (str "steps to follow"))).
      split; [simpl; tauto|now apply occurs_literal].
Qed.
End ImageClaims.

Section ImageTheorems.
Import Js Regex Marker ClosedForm Claims Effects ImageController.

(** C6.  Detection is true exactly when at least one of the nine
    patterns occurs somewhere in the analysis text, that is, when the
    text contains, in any case, one of: math problem, equation,
    science question, experiment, read (hence reading), writing,
    write, homework, problem to solve, steps to follow.  A text
    containing [This is a math problem] is detected, and
    [Here is a cute drawing of a cat] is not. *)
Theorem C6_detection_by_nine_patterns (text : jsstring) :
  List.length educationalContentPatterns = 9%nat /\
  (shouldEnterTutorialMode (JStr text) = true <->
   exists pattern, In pattern educationalContentPatterns /\
                   exists pre m, occurs_at pattern text pre m) /\
  (shouldEnterTutorialMode (JStr text) = true <->
   exists w, In w detected_words /\ occurs_ci w text) /\
  (forall pre post,
      shouldEnterTutorialMode
        (JStr (pre ++ str "This is a math problem" ++ post)) = true) /\
  shouldEnterTutorialMode (JStr (str "Here is a cute drawing of a cat")) = false.
Proof.
  split; [reflexivity|]. split; [apply detection_patterns|].
  split; [apply detection_words|]. split; [|vm_compute; reflexivity].
  intros pre post. apply detection_words.
  exists (str "math problem"). split; [simpl; tauto|].
  exists (pre ++ str "This is a "), (str "math problem"), post. split.
  - rewrite <- !app_assoc. reflexivity.
  - vm_compute. tauto.
Qed.

Lemma filter_all {A} (f : A -> bool) l :
  Forall (fun x => f x = true) (filter f l).
Proof.
  induction l as [|x l IH]; simpl; [constructor|].
  destruct (f x) eqn:E; [constructor|]; assumption.
Qed.

Lemma firstn_all {A} (P : A -> Prop) n l :
  Forall P l -> Forall P (firstn n l).
Proof.
  intros H. revert n. induction H as [|x l Hx _ IH]; intros [|n]; simpl;
    constructor; auto.
Qed.

(** C7, amended.  When [\d+\.\s+[^\n]+] matches somewhere in the reply
    (at a line start or not), the learning steps are its successive
    matches in order, each trimmed.  Otherwise they are the first
    lines of the reply, at most five, that are not blank. *)
Theorem C7_steps_from_matches_or_lines (stepsText : jsstring) :
  (match_all re_step stepsText <> None <->
   exists pre m, occurs_at re_step stepsText pre m) /\
  match match_all re_step stepsText with
  | Some stepMatches =>
      extract_steps stepsText = map trim stepMatches /\
      stepMatches <> [] /\
      successive re_step stepMatches stepsText /\
      Forall trimmed (extract_steps stepsText)
  | None =>
      extract_steps stepsText
      = firstn 5 (filter non_blank (split LF stepsText)) /\
      (List.length (extract_steps stepsText) <= 5)%nat /\
      Forall (fun line => non_blank line = true) (extract_steps stepsText)
  end.
Proof.
  split; [apply match_all_some|].
  unfold extract_steps.
  destruct (match_all re_step stepsText) as [ms|] eqn:E.
  - unfold match_all in E.
    pose proof (scan_successive re_step stepsText) as S.
    destruct (scan re_step 0 stepsText) as [|m0 rest] eqn:Es;
      [discriminate|]. injection E as <-.
    repeat split; [discriminate|assumption|].
    apply Forall_forall. intros s Hs. apply in_map_iff in Hs as (x & <- & _).
    apply trim_idempotent.
  - unfold slice0. repeat split.
    + rewrite length_firstn. lia.
    + apply firstn_all, filter_all.
Qed.

(** C8.  Six numbered lines in the reply to the steps request give a
    successful response with six learning steps: the matches of the
    pattern are not cut to five. *)
Theorem C8_six_numbered_steps_are_all_returned :
  let audioDir := Sample.join_with_slash (str "/app/controllers")
                                         (str "../uploads/audio") in
  let analysis := str "This is a math problem" in
  exists r steps,
    Runs (analyzeImage (str "/app/controllers") Sample.join_with_slash
                       Sample.image_request)
         [ EvChat (vision_request Sample.image_request)
                  (Resolved (text_reply analysis []));
           EvChat (steps_request (JStr analysis))
                  (Resolved (text_reply Sample.six_steps []));
           EvAudio (mkAudioRequest (str "tts-1") (str "alloy") (JStr analysis))
                   (Resolved (str "mp3"));
           EvNow 1700000000000;
           EvExists audioDir true;
           EvWrite (Sample.join_with_slash audioDir
                      (str "response-1700000000000.mp3"))
                   (str "mp3") (Resolved tt) ] r /\
    status r = 200%Z /\
    get (json r) (str "learning_steps") = Some (JArr steps) /\
    List.length steps = 6%nat /\
    ~ steps_within_bound r.
Proof.
  intros audioDir analysis. eexists. eexists. split; [|split; [|split; [|split]]].
  - unfold analyzeImage, try_catch, and_then, createChatCompletion.
    cbn [truthy image_url Sample.image_request negb bind].
    apply RunsChat. unfold text_reply.
    cbn [bind first_message choices content content_value ret].
    change (shouldEnterTutorialMode (JStr (str "This is a math problem")))
      with true.
    cbn [bind createChatCompletion]. apply RunsChat.
    cbn [bind first_message choices content steps_of_content ret createAudio].
    apply RunsAudio. cbn [bind now ret]. apply RunsNow.
    cbn [bind existsSync ret]. apply RunsExists.
    cbn [bind negb ret writeFileSync]. apply RunsWrite.
    cbn [bind]. apply RunsRet.
  - reflexivity.
  - reflexivity.
  - vm_compute. reflexivity.
  - intros (steps & Hg & Hl). vm_compute in Hg. injection Hg as <-.
    vm_compute in Hl. lia.
Qed.
End ImageTheorems.

(* ================================================================= *)
(** ** The theorems at concrete requests *)

Section Instances.
Import Js Regex Marker ClosedForm Claims Shape Effects.
Import AnalyzeController ImageController.

(** C1 at the free-text example of the specification. *)
Lemma C1_witness :
  (valid_analyze Sample.analyze_body /\
   printable_analyze Sample.analyze_body) /\
  exists is_correct level,
    Runs (analyzeStudentResponse Sample.no_json Sample.analyze_body)
         [EvChat (analysis_request Sample.analyze_body)
                 (Resolved (text_reply Sample.tagged_text []))]
         (mkResponse 200
            [ (str "success", JBool true);
              (str "is_correct", JBool is_correct);
              (str "confusion_level", level);
              (str "feedback", JStr Sample.tagged_text) ]) /\
    (is_correct = true <->
     exists pre value,
       leftmost (correct_match Sample.tagged_text) pre value /\
       toLowerCase value = str "true") /\
    (forall pre digits,
        leftmost (confusion_match Sample.tagged_text) pre digits ->
        number_for (decimal digits) level /\
        (level = JInfinity false <->
         (2 ^ 1024 - 2 ^ 970 <= decimal digits)%Z)) /\
    ((forall pre digits,
         ~ confusion_match Sample.tagged_text pre digits) -> level = JNum 5).
Proof.
  assert (V : valid_analyze Sample.analyze_body) by (split; reflexivity).
  assert (P : printable_analyze Sample.analyze_body) by reflexivity.
  split; [split; [exact V|exact P]|].
  exact (C1_fallback_reads_text_only Sample.no_json Sample.analyze_body
           Sample.tagged_text [] V P).
Defined.

(** The free text [confusion: 9007199254740993] gives the confusion
    level 9007199254740992, which is not the integer captured. *)
Lemma C1_counterexample :
  exists r,
    Runs (analyzeStudentResponse Sample.no_json Sample.analyze_body)
         [EvChat (analysis_request Sample.analyze_body)
                 (Resolved (text_reply Sample.long_level []))] r /\
    get (json r) (str "confusion_level") = Some (JNum 9007199254740992) /\
    ~ level_as_captured Sample.long_level r.
Proof.
  eexists. split.
  - apply (analyze_fallback_run Sample.no_json Sample.analyze_body
             Sample.long_level []
             (JObj [ (str "is_correct", JBool false);
                     (str "confusion_level", JNum 9007199254740992);
                     (str "feedback", JStr Sample.long_level) ])).
    + split; reflexivity.
    + reflexivity.
    + vm_compute. reflexivity.
  - split; [reflexivity|].
    intros H.
    destruct (exec re_confusion Sample.long_level) as [mr|] eqn:E;
      [|vm_compute in E; discriminate].
    destruct (exec_first re_confusion confusion_match confusion_shift
                confusion_sound confusion_complete _ _ E)
      as (pre & digits & Hl & Hc).
    specialize (H pre digits Hl).
    vm_compute in E. injection E as <-.
    vm_compute in Hc. injection Hc as <-.
    vm_compute in H. discriminate.
Qed.

(** The free text [confusion: 99] gives a confusion level of 99. *)
Lemma C4_counterexample :
  exists r,
    Runs (analyzeStudentResponse Sample.no_json Sample.analyze_body)
         [EvChat (analysis_request Sample.analyze_body)
                 (Resolved (text_reply (str "confusion: 99") []))] r /\
    get (json r) (str "confusion_level") = Some (JNum 99) /\
    ~ confusion_in_range r.
Proof.
  eexists. split.
  - apply (analyze_fallback_run Sample.no_json Sample.analyze_body
             (str "confusion: 99") []
             (JObj [ (str "is_correct", JBool false);
                     (str "confusion_level", JNum 99);
                     (str "feedback", JStr (str "confusion: 99")) ])).
    + split; reflexivity.
    + reflexivity.
    + vm_compute. reflexivity.
  - split; [reflexivity|].
    intros (n & Hg & Hr). vm_compute in Hg. injection Hg as <-. lia.
Qed.

(** C4 at the text [confusion: 99] and at a payload with level 42. *)
Lemma C4_witness :
  (valid_analyze Sample.analyze_body /\
   printable_analyze Sample.analyze_body /\
   Sample.parse_as Sample.high_payload (arguments Sample.some_call)
   = Resolved Sample.high_payload /\
   get (own_properties Sample.high_payload) (str "confusion_level")
   = Some (JNum 42)) /\
  (exists r level,
      Runs (analyzeStudentResponse (Sample.parse_as Sample.high_payload)
                                   Sample.analyze_body)
           [EvChat (analysis_request Sample.analyze_body)
                   (Resolved (text_reply (str "confusion: 99") []))] r /\
      get (json r) (str "confusion_level") = Some level /\
      natural_or_infinite level /\
      (forall pre digits,
          leftmost (confusion_match (str "confusion: 99")) pre digits ->
          number_for (decimal digits) level /\
          (level = JInfinity false <->
           (2 ^ 1024 - 2 ^ 970 <= decimal digits)%Z)) /\
      ((forall pre digits, ~ confusion_match (str "confusion: 99") pre digits) ->
       level = JNum 5)) /\
  (exists r,
      Runs (analyzeStudentResponse (Sample.parse_as Sample.high_payload)
                                   Sample.analyze_body)
           [EvChat (analysis_request Sample.analyze_body)
                   (Resolved (call_reply Sample.some_call None []))] r /\
      get (json r) (str "confusion_level") = Some (JNum 42)).
Proof.
  assert (V : valid_analyze Sample.analyze_body) by (split; reflexivity).
  assert (P : printable_analyze Sample.analyze_body) by reflexivity.
  split; [repeat split|].
  apply (C4_confusion_level_not_clamped
           (Sample.parse_as Sample.high_payload) Sample.analyze_body
           (str "confusion: 99") [] Sample.some_call None
           [ (str "is_correct", JBool false);
             (str "confusion_level", JNum 42);
             (str "feedback", JStr (str "ok")) ] (JNum 42) V P).
  - reflexivity.
  - repeat constructor; simpl; intuition discriminate.
  - reflexivity.
Defined.

(** Neither free text nor the example payload of the specification
    gives a response with an empty [misconceptions] sequence. *)
Lemma C5_counterexample :
  (exists r,
      Runs (analyzeStudentResponse Sample.no_json Sample.analyze_body)
           [EvChat (analysis_request Sample.analyze_body)
                   (Resolved (text_reply (str "looks fine") []))] r /\
      ~ has_empty_misconceptions r) /\
  (exists r,
      Runs (analyzeStudentResponse (Sample.parse_as Sample.example_payload)
                                   Sample.analyze_body)
           [EvChat (analysis_request Sample.analyze_body)
                   (Resolved (call_reply Sample.some_call None []))] r /\
      ~ has_empty_misconceptions r).
Proof.
  split; eexists; split.
  - apply (analyze_fallback_run Sample.no_json Sample.analyze_body
             (str "looks fine") []
             (JObj [ (str "is_correct", JBool false);
                     (str "confusion_level", JNum 5);
                     (str "feedback", JStr (str "looks fine")) ])).
    + split; reflexivity.
    + reflexivity.
    + vm_compute. reflexivity.
  - intros H. vm_compute in H. discriminate.
  - apply (analyze_structured_run (Sample.parse_as Sample.example_payload)
             Sample.analyze_body Sample.some_call None []
             Sample.example_payload).
    + split; reflexivity.
    + reflexivity.
    + reflexivity.
  - intros H. vm_compute in H. discriminate.
Qed.

(** C5 at free text and at the example payload. *)
Lemma C5_witness :
  (valid_analyze Sample.analyze_body /\
   printable_analyze Sample.analyze_body /\
   Sample.parse_as Sample.example_payload (arguments Sample.some_call)
   = Resolved Sample.example_payload /\
   get (own_properties Sample.example_payload) (str "misconceptions") = None) /\
  (exists r,
      Runs (analyzeStudentResponse (Sample.parse_as Sample.example_payload)
                                   Sample.analyze_body)
           [EvChat (analysis_request Sample.analyze_body)
                   (Resolved (text_reply (str "looks fine") []))] r /\
      get (json r) (str "misconceptions") = None) /\
  (exists r,
      Runs (analyzeStudentResponse (Sample.parse_as Sample.example_payload)
                                   Sample.analyze_body)
           [EvChat (analysis_request Sample.analyze_body)
                   (Resolved (call_reply Sample.some_call None []))] r /\
      get (json r) (str "misconceptions") = None).
Proof.
  assert (V : valid_analyze Sample.analyze_body) by (split; reflexivity).
  assert (P : printable_analyze Sample.analyze_body) by reflexivity.
  split; [repeat split|].
  apply (C5_misconceptions_left_absent
           (Sample.parse_as Sample.example_payload) Sample.analyze_body
           (str "looks fine") [] Sample.some_call None
           Sample.example_payload V P); reflexivity.
Defined.

(** C9 at a request without [context] and one without [subject]. *)
Lemma C9_witness :
  (AnalyzeRequest.context Sample.analyze_body_no_context = JUndefined /\
   ProcessRequest.subject Sample.process_body_no_subject = JUndefined) /\
  (analyzeStudentResponse Sample.no_json Sample.analyze_body_no_context
   = Ret (mkResponse 400
            [ (str "success", JBool false);
              (str "message",
               JStr (str "Student response and context are required")) ]) /\
   forall tr r,
     Runs (analyzeStudentResponse Sample.no_json
                                  Sample.analyze_body_no_context) tr r ->
     tr = [] /\ status r = 400%Z /\
     get (json r) (str "success") = Some (JBool false)) /\
  (processLearningResponse Sample.process_body_no_subject
   = Ret (mkResponse 400
            [ (str "success", JBool false);
              (str "message",
               JStr (str "Student message and subject are required")) ]) /\
   forall tr r,
     Runs (processLearningResponse Sample.process_body_no_subject) tr r ->
     tr = [] /\ status r = 400%Z /\
     get (json r) (str "success") = Some (JBool false)).
Proof.
  split; [split; reflexivity|].
  apply (C9_missing_field_is_rejected_without_calls
           Sample.no_json Sample.analyze_body_no_context
           Sample.process_body_no_subject).
  - right. reflexivity.
  - right. reflexivity.
Defined.

(** C2 at step 3 of 3 with the clarification template. *)
Lemma C2_witness :
  (valid_process Sample.final_body /\ printable_process Sample.final_body) /\
  (exists r,
      Runs (processLearningResponse Sample.final_body)
           [EvChat (process_request Sample.final_body)
                   (Resolved (mkChatCompletion
                                [mkChatMessage None (Some (str "Well done"))]))] r /\
      status r = 200%Z /\
      get (json r) (str "is_final_step") = Some (JBool true)) /\
  endsWith (systemPrompt Sample.final_body) final_step_addendum.
Proof.
  assert (V : valid_process Sample.final_body) by (split; reflexivity).
  assert (P : printable_process Sample.final_body) by reflexivity.
  split; [split; [exact V|exact P]|].
  destruct (C2_final_step_addendum Sample.final_body
              (mkChatMessage None (Some (str "Well done"))) [] V P)
    as (Hr & _ & _ & He & _).
  split; [exact Hr|]. apply He. reflexivity.
Defined.

(** A request of the unknown type [summary] whose [subject] is the
    object [{"toString": 1}] has its required fields, and yet no prompt
    is built for it: the conversion of [subject] throws, and the answer
    is a 500 without any call. *)
Lemma C3_counterexample :
  valid_process Sample.unprintable_body /\
  Runs (processLearningResponse Sample.unprintable_body)
       [EvConsoleError (str "Error processing learning response:")
                       (str "Cannot convert object to primitive value")]
       (mkResponse 500
          [ (str "success", JBool false);
            (str "message", JStr (str "Error processing learning response"));
            (str "error",
             JStr (str "Cannot convert object to primitive value")) ]) /\
  ~ prompt_always_built Sample.unprintable_body.
Proof.
  assert (V : valid_process Sample.unprintable_body) by (split; reflexivity).
  assert (R : Runs (processLearningResponse Sample.unprintable_body)
                   [EvConsoleError (str "Error processing learning response:")
                                   (str "Cannot convert object to primitive value")]
                   (mkResponse 500
                      [ (str "success", JBool false);
                        (str "message",
                         JStr (str "Error processing learning response"));
                        (str "error",
                         JStr (str "Cannot convert object to primitive value")) ])).
  { apply (process_unprintable_run Sample.unprintable_body V).
    intros H. discriminate H. }
  split; [exact V|]. split; [exact R|].
  intros H. destruct (H _ _ R) as (o & rest & E). discriminate E.
Qed.

(** C3 at the unknown type [summary], step 1 of 3, and at the same
    type with a [subject] that has no primitive. *)
Lemma C3_witness :
  (valid_process Sample.summary_body /\
   valid_process Sample.unprintable_body) /\
  systemPrompt Sample.summary_body
  = default_template (ProcessRequest.subject Sample.summary_body) (JNum 1) (JNum 3)
                     (ProcessRequest.context Sample.summary_body) /\
  systemPrompt Sample.summary_body <> [] /\
  (exists r,
      Runs (processLearningResponse Sample.summary_body)
           [EvChat (process_request Sample.summary_body)
                   (Resolved (mkChatCompletion
                                [mkChatMessage None (Some (str "Keep going"))]))] r /\
      status r = 200%Z) /\
  Runs (processLearningResponse Sample.unprintable_body)
       (fst (failure (str "Error processing learning response:")
                     (str "Error processing learning response") no_primitive))
       (snd (failure (str "Error processing learning response:")
                     (str "Error processing learning response") no_primitive)).
Proof.
  assert (V : valid_process Sample.summary_body) by (split; reflexivity).
  assert (V' : valid_process Sample.unprintable_body) by (split; reflexivity).
  split; [split; [exact V|exact V']|].
  destruct (C3_unrecognised_type_uses_default Sample.summary_body
              (mkChatMessage None (Some (str "Keep going"))) [] V)
    as (_ & Hp & Hr & _ & Hn); try (simpl; discriminate).
  destruct (C3_unrecognised_type_uses_default Sample.unprintable_body
              (mkChatMessage None None) [] V')
    as (_ & _ & _ & Hf & _); try (simpl; discriminate).
  split; [exact Hp|]. split; [apply Hn|]. split.
  - apply Hr. reflexivity.
  - apply Hf. intros H. discriminate H.
Defined.

(** C10 at a request without [response_type], step 1 of 3. *)
Lemma C10_witness :
  ProcessRequest.response_type Sample.untyped_body = JUndefined /\
  systemPrompt Sample.untyped_body
  = hint_template (ProcessRequest.subject Sample.untyped_body) (JNum 1) (JNum 3)
                  (ProcessRequest.context Sample.untyped_body).
Proof.
  split; [reflexivity|].
  destruct (C10_omitted_type_defaults_to_hint Sample.untyped_body eq_refl) as (_ & Hp & _).
  exact Hp.
Defined.

(** [Step 1. Do X] has no line that starts with an ordinal, yet its
    step is the match [1. Do X]; and the only step of [  hello  ] keeps
    its spaces. *)
Lemma C7_counterexample :
  ~ steps_as_stated extract_steps non_blank (str "Step 1. Do X") /\
  ~ steps_as_stated extract_steps non_blank (str "  hello  ").
Proof.
  split.
  - intros (_ & H & _).
    assert (E : existsb ordinal_line (split LF (str "Step 1. Do X")) = false)
      by (vm_compute; reflexivity).
    specialize (H E). vm_compute in H. discriminate.
  - intros (_ & _ & H). inversion H as [|x l Hx _]; subst.
    vm_compute in Hx. discriminate.
Qed.

(** A level of 310 digits is an infinity. *)
Example long_level_is_infinite :
  fallback_analysis (Some (str "confusion: " ++ repeat 57%N 310))
  = ret (JObj [ (str "is_correct", JBool false);
                (str "confusion_level", JInfinity false);
                (str "feedback", JStr (str "confusion: " ++ repeat 57%N 310)) ]).
Proof. vm_compute. reflexivity. Qed.

(** The comparison of the step counters on values that are not
    integers. *)
Example comparison_of_other_values :
  ge JNull JNull = true /\
  ge (JStr (str "2")) (JStr (str "10")) = true /\
  ge (JStr (str "2")) (JNum 10) = false /\
  ge (JFrac 3 1) (JNum 1) = true /\
  ge (JStr (str "1.5")) (JFrac 5 2) = true /\
  ge (JArr [JNum 5]) (JNum 4) = true /\
  ge (JObj []) (JObj []) = true /\
  ge (JBool true) (JNum 1) = true /\
  ge JUndefined JUndefined = false /\
  ge JNaN JNaN = false.
Proof. vm_compute. repeat split. Qed.

(** Numbers as template literals write them. *)
Example numbers_as_text :
  map ToString [ JNum 3; JNum (-7); JFrac 3 1; JFrac 3602879701896397 55;
                 JNum (2 ^ 64); JNum (10 ^ 21); JInfinity true; JNaN ]
  = map str [ "3"; "-7"; "1.5"; "0.1"; "18446744073709552000"; "1e+21";
              "-Infinity"; "NaN" ].
Proof. vm_compute. reflexivity. Qed.

(** Texts as numbers. *)
Example text_as_number :
  map (fun s => StringToNumber (str s))
      [ ""; " 12 "; "0x10"; "0b101"; "1e3"; ".5"; "-2.5"; "abc"; "1e";
        "-Infinity"; "1e400"; "9007199254740993"; "-0x10" ]
  = [ JNum 0; JNum 12; JNum 16; JNum 5; JNum 1000; JFrac 1 1; JFrac (-5) 1;
      JNaN; JNaN; JInfinity true; JInfinity false; JNum 9007199254740992;
      JNaN ].
Proof. vm_compute. reflexivity. Qed.

(** The values that have no primitive. *)
Example values_without_primitive :
  map has_primitive
      [ JObj [ (str "toString", JNum 1) ];
        JObj [ (str "valueOf", JNum 1) ];
        JArr [ JNum 1; JObj [ (str "toString", JNull) ] ];
        JObj [ (str "a", JObj [ (str "toString", JNum 1) ]) ];
        JArr [ JNull; JArr [ JObj [] ] ] ]
  = [ false; true; false; true; true ].
Proof. reflexivity. Qed.

(** The order in which a spread copies the keys [b], [10], [success],
    [2] and [01] over [success]. *)
Example spread_order :
  map fst
      (spread [ (str "success", JBool true) ]
              (JObj [ (str "b", JNull); (str "10", JNull);
                      (str "success", JBool false); (str "2", JNull);
                      (str "01", JNull) ]))
  = map str [ "success"; "2"; "10"; "b"; "01" ].
Proof. vm_compute. reflexivity. Qed.

(** The examples of the specification. *)

Example classifier_fallback_example :
  fallback_analysis (Some Sample.tagged_text)
  = ret (JObj [ (str "is_correct", JBool true);
                (str "confusion_level", JNum 7);
                (str "feedback", JStr Sample.tagged_text) ]).
Proof. vm_compute. reflexivity. Qed.

Example step_parsing_numbered :
  extract_steps Sample.numbered_text
  = [str "1. Do X"; str "2. Do Y"; str "3. Do Z"].
Proof. vm_compute. reflexivity. Qed.

Example step_parsing_six_lines :
  extract_steps Sample.six_lines
  = [str "alpha"; str "beta"; str "gamma"; str "delta"; str "epsilon"].
Proof. vm_compute. reflexivity. Qed.

Example step_parsing_across_lines :
  extract_steps (str "1." ++ [LF] ++ str "  x" ++ [LF] ++ str "y")
  = [str "1." ++ [LF] ++ str "  x"].
Proof. vm_compute. reflexivity. Qed.

Example bare_writ_not_detected :
  shouldEnterTutorialMode (JStr (str "a writ")) = false.
Proof. vm_compute. reflexivity. Qed.

Example null_analysis_not_detected :
  shouldEnterTutorialMode JNull = false.
Proof. vm_compute. reflexivity. Qed.
End Instances.

(* ================================================================= *)
(** ** Every run of the two learning handlers *)

(** One interaction of a run, and the reduction of what follows it. *)
Ltac step :=
  match goal with
  | H : Effects.Runs _ _ _ |- _ => inversion H; subst; clear H
  end.

Ltac simp :=
  match goal with
  | H : Effects.Runs _ _ _ |- _ =>
      cbn [Effects.bind Effects.first_message Effects.choices Effects.ret
           Effects.throw AnalyzeController.fallback_analysis] in H
  end.

Section LearningRuns.
Import Js Regex Marker Claims Shape Effects AnalyzeController.
Variable JSON_parse : jsstring -> Outcome jsval.

Lemma valid_analyze_dec b :
  negb (truthy (AnalyzeRequest.studentResponse b))
  || negb (truthy (AnalyzeRequest.context b)) = false <-> valid_analyze b.
Proof.
  unfold valid_analyze.
  destruct (truthy (AnalyzeRequest.studentResponse b)),
           (truthy (AnalyzeRequest.context b)); simpl; intuition congruence.
Qed.

Lemma valid_process_dec b :
  negb (truthy (ProcessRequest.message b))
  || negb (truthy (ProcessRequest.subject b)) = false <-> valid_process b.
Proof.
  unfold valid_process.
  destruct (truthy (ProcessRequest.message b)),
           (truthy (ProcessRequest.subject b)); simpl; intuition congruence.
Qed.

(** X1.  Every run of [analyzeStudentResponse] is of one of four
    kinds: a 400 without any interaction, exactly when a required field
    is falsy; a 500 after one line on [console.error] and no call,
    exactly when the required fields are there and a field that the
    prompt is built from has no primitive; a 200 after one answered
    provider call; or a 500 after one provider call and one line on
    [console.error], the logged message being the [error] of the
    response. *)
Theorem X1_analyze_runs (b : AnalyzeRequest.body) (tr : list Event) (r : Response) :
  Runs (analyzeStudentResponse JSON_parse b) tr r ->
  let failed e :=
    failure (str "Error analyzing student response:")
            (str "Error analyzing student response") e in
  (~ valid_analyze b /\ tr = [] /\
   r = mkResponse 400
         [ (str "success", JBool false);
           (str "message",
            JStr (str "Student response and context are required")) ]) \/
  (valid_analyze b /\ ~ printable_analyze b /\
   tr = fst (failed no_primitive) /\ r = snd (failed no_primitive)) \/
  (valid_analyze b /\ printable_analyze b /\
   exists completion,
     tr = [EvChat (analysis_request b) (Resolved completion)] /\
     status r = 200%Z) \/
  (valid_analyze b /\ printable_analyze b /\
   exists o e,
     tr = EvChat (analysis_request b) o :: fst (failed e) /\
     r = snd (failed e)).
Proof.
  intros H failed. unfold analyzeStudentResponse in H.
  destruct (negb (truthy (AnalyzeRequest.studentResponse b))
            || negb (truthy (AnalyzeRequest.context b))) eqn:V.
  - left. apply Runs_Ret_inv in H as [-> ->]. repeat split.
    intros Hv. apply valid_analyze_dec in Hv. congruence.
  - right. apply valid_analyze_dec in V.
    unfold to_primitives in H.
    destruct (forallb has_primitive _) eqn:P in H.
    2:{ left. split; [assumption|]. split.
        - unfold printable_analyze. congruence.
        - unfold try_catch, and_then, throw in H. cbn [bind] in H.
          step. step. split; reflexivity. }
    right. assert (Hp : printable_analyze b) by exact P.
    unfold try_catch, and_then, createChatCompletion in H.
    unfold ret at 1 in H. cbn [bind] in H.
    step. destruct o as [[choices]|e].
    + destruct choices as [|m more].
      * right. split; [assumption|]. split; [assumption|]. simp. step. step.
        eexists. eexists. split; reflexivity.
      * simp. destruct (function_call m) as [fc|] eqn:F.
        -- destruct (JSON_parse (arguments fc)) as [v|e] eqn:Q; simp.
           ++ left. split; [assumption|]. split; [assumption|]. step.
              eexists. split; reflexivity.
           ++ right. split; [assumption|]. split; [assumption|]. step. step.
              eexists. eexists. split; reflexivity.
        -- destruct (content m) as [text|] eqn:C.
           ++ destruct (fallback_analysis_spec text)
                as (ic & lv & Hf & _).
              rewrite Hf in *. simp.
              left. split; [assumption|]. split; [assumption|]. step.
              eexists. split; reflexivity.
           ++ simp. right. split; [assumption|]. split; [assumption|].
              step. step. eexists. eexists. split; reflexivity.
    + right. split; [assumption|]. split; [assumption|]. simp. step. step.
      eexists. eexists. split; reflexivity.
Qed.

(** X2.  What makes [analyzeStudentResponse] answer 500 after the
    provider call: a rejected call and a payload that [JSON.parse]
    rejects, whose messages go to the client unchanged, and a
    completion without choices or with neither function call nor
    text. *)
Theorem X2_analyze_failures
        (b : AnalyzeRequest.body) (fc : FunctionCall) (content : option jsstring)
        (more : list ChatMessage) (e_provider e_parse : jsstring) :
  valid_analyze b ->
  printable_analyze b ->
  JSON_parse (arguments fc) = Rejected e_parse ->
  let failed e :=
    failure (str "Error analyzing student response:")
            (str "Error analyzing student response") e in
  let req := analysis_request b in
  Runs (analyzeStudentResponse JSON_parse b)
       (EvChat req (Rejected e_provider) :: fst (failed e_provider))
       (snd (failed e_provider)) /\
  Runs (analyzeStudentResponse JSON_parse b)
       (EvChat req (Resolved (call_reply fc content more)) :: fst (failed e_parse))
       (snd (failed e_parse)) /\
  (exists e,
      Runs (analyzeStudentResponse JSON_parse b)
           (EvChat req (Resolved (mkChatCompletion [])) :: fst (failed e))
           (snd (failed e))) /\
  (exists e,
      Runs (analyzeStudentResponse JSON_parse b)
           (EvChat req (Resolved (mkChatCompletion (mkChatMessage None None :: more)))
                   :: fst (failed e))
           (snd (failed e))).
Proof.
  intros Hv Hq Hp failed req. apply valid_analyze_dec in Hv.
  unfold analyzeStudentResponse.
  rewrite Hv, (analyze_conversions b Hq).
  unfold try_catch, and_then, createChatCompletion. unfold ret at 1.
  cbn [bind].
  repeat split; [| |eexists|eexists];
    (apply RunsChat; unfold call_reply;
     cbn [bind first_message choices ret throw function_call
               Effects.content fallback_analysis];
     rewrite ?Hp; cbn [bind];
     apply RunsConsoleError, RunsRet).
Qed.

(** X3.  With a function call in the reply the text content is not
    looked at, and the response is the parsed payload with
    [success: true] in front: every property of the payload is returned
    with its value, a [success] of the payload replaces [true], and no
    other property is added. *)
Theorem X3_payload_is_the_response
        (b : AnalyzeRequest.body) (fc : FunctionCall)
        (more : list ChatMessage) (props : object) :
  valid_analyze b ->
  printable_analyze b ->
  JSON_parse (arguments fc) = Resolved (JObj props) ->
  NoDup (map fst props) ->
  exists r,
    (forall content,
        Runs (analyzeStudentResponse JSON_parse b)
             [EvChat (analysis_request b) (Resolved (call_reply fc content more))] r) /\
    status r = 200%Z /\
    (forall key v, get props key = Some v -> get (json r) key = Some v) /\
    (get props (str "success") = None ->
     get (json r) (str "success") = Some (JBool true)) /\
    (forall key, get props key = None -> key <> str "success" ->
                 get (json r) key = None).
Proof.
  intros Hv Hq Hp Hnd.
  exists (mkResponse 200 (spread [ (str "success", JBool true) ] (JObj props))).
  split; [|split; [reflexivity|split; [|split]]].
  - intros content.
    exact (analyze_structured_run JSON_parse b fc content more _ Hv Hq Hp).
  - intros key v Hg. cbn [json]. now apply get_spread_present.
  - intros Hg. cbn [json].
    rewrite get_spread_absent by now apply get_own_keys_none.
    reflexivity.
  - intros key Hg Hk. cbn [json].
    rewrite get_spread_absent by now apply get_own_keys_none.
    cbn [get]. rewrite jsstring_eqb_neq; [reflexivity|congruence].
Qed.

(** A run that reaches the provider comes from a request whose fields
    have primitives. *)
Lemma process_called b o rest r :
  Runs (processLearningResponse b) (EvChat (process_request b) o :: rest) r ->
  printable_process b.
Proof.
  intros H. unfold processLearningResponse in H.
  destruct (negb (truthy (ProcessRequest.message b))
            || negb (truthy (ProcessRequest.subject b))).
  { apply Runs_Ret_inv in H as [E _]. discriminate E. }
  unfold to_primitives in H. unfold printable_process.
  destruct (forallb has_primitive [ProcessRequest.current_step b;
                                   ProcessRequest.total_steps b]).
  - destruct (forallb has_primitive _) in H |- *; [reflexivity|].
    unfold try_catch, and_then, throw, ret in H. cbn [bind] in H.
    inversion H.
  - unfold try_catch, and_then, throw in H. cbn [bind] in H. inversion H.
Qed.

(** X4.  Every run of [processLearningResponse]: a 400 without any
    interaction exactly when [message] or [subject] is falsy; a 500
    after one line on [console.error] and no call, exactly when the
    required fields are there and a field that is compared or written
    into a prompt has no primitive; a 500 with one line on
    [console.error] when the provider call is rejected or the
    completion has no choice; otherwise a 200 whose [next_step] is the
    content of the first choice ([null] included) and whose [context]
    is the previous context followed by the new turn. *)
Theorem X4_process_runs (b : ProcessRequest.body) (tr : list Event) (r : Response) :
  Runs (processLearningResponse b) tr r ->
  let failed e :=
    failure (str "Error processing learning response:")
            (str "Error processing learning response") e in
  (~ valid_process b /\ tr = [] /\
   r = mkResponse 400
         [ (str "success", JBool false);
           (str "message",
            JStr (str "Student message and subject are required")) ]) \/
  (valid_process b /\ ~ printable_process b /\
   tr = fst (failed no_primitive) /\ r = snd (failed no_primitive)) \/
  (valid_process b /\ printable_process b /\
   exists m more,
     tr = [EvChat (process_request b) (Resolved (mkChatCompletion (m :: more)))] /\
     r = mkResponse 200
           [ (str "success", JBool true);
             (str "next_step", content_value m);
             (str "is_final_step", JBool (isFinalStep b));
             (str "context",
              JStr (ToString (ProcessRequest.context b)
                    ++ turn (ProcessRequest.message b) (content_value m))) ]) \/
  (valid_process b /\ printable_process b /\
   exists e,
     tr = EvChat (process_request b) (Rejected e) :: fst (failed e) /\
     r = snd (failed e)) \/
  (valid_process b /\ printable_process b /\
   exists e,
     tr = EvChat (process_request b) (Resolved (mkChatCompletion []))
          :: fst (failed e) /\
     r = snd (failed e)).
Proof.
  intros H failed. unfold processLearningResponse in H.
  destruct (negb (truthy (ProcessRequest.message b))
            || negb (truthy (ProcessRequest.subject b))) eqn:V.
  - left. apply Runs_Ret_inv in H as [-> ->]. repeat split.
    intros Hv. apply valid_process_dec in Hv. congruence.
  - right. apply valid_process_dec in V.
    destruct (forallb has_primitive
                [ ProcessRequest.subject b; ProcessRequest.current_step b;
                  ProcessRequest.total_steps b; ProcessRequest.context b;
                  ProcessRequest.user_query b; ProcessRequest.message b ])
      eqn:P.
    + right. assert (Hp : printable_process b) by exact P.
      destruct (process_conversions b Hp) as [E1 E2].
      rewrite E1, E2 in H.
      unfold try_catch, and_then, createChatCompletion in H.
      unfold ret at 1 2 in H. cbn [bind] in H.
      step. destruct o as [[choices]|e].
      * destruct choices as [|m more]; simp.
        -- right. right. split; [assumption|]. split; [assumption|].
           step. step. eexists. split; reflexivity.
        -- left. split; [assumption|]. split; [assumption|]. step.
           exists m, more. split; reflexivity.
      * right. left. split; [assumption|]. split; [assumption|].
        simp. step. step. eexists. split; reflexivity.
    + left. split; [assumption|].
      assert (Hn : ~ printable_process b)
        by (unfold printable_process; congruence).
      split; [exact Hn|].
      unfold to_primitives in H. rewrite P in H.
      destruct (forallb has_primitive [ProcessRequest.current_step b;
                                       ProcessRequest.total_steps b]);
        unfold try_catch, and_then, throw, ret in H; cbn [bind] in H;
        step; step; split; reflexivity.
Qed.
End LearningRuns.

Section Tutoring.
Import Js Regex Marker Claims Shape Effects AnalyzeController.

Lemma turn_length message reply :
  List.length (turn message reply)
  = (20 + List.length (ToString message) + List.length (ToString reply))%nat.
Proof.
  unfold turn. rewrite !length_app.
  change (List.length [LF; LF]) with 2%nat.
  change (List.length (str "Student: ")) with 9%nat.
  change (List.length (str "Tutor: ")) with 7%nat. lia.
Qed.

(** X5.  The context returned by one turn, sent back as the context of
    the next request (whose other fields have primitives), comes back
    with both turns appended in order: nothing of the transcript is
    dropped or rewritten, and each turn adds its message, the reply and
    twenty code units of labels. *)
Theorem X5_transcript_accumulates
        (b1 b2 : ProcessRequest.body) (m1 m2 : ChatMessage)
        (more1 more2 : list ChatMessage) (r1 : Response) :
  valid_process b1 ->
  valid_process b2 ->
  printable_process b2 ->
  Runs (processLearningResponse b1)
       [EvChat (process_request b1) (Resolved (mkChatCompletion (m1 :: more1)))] r1 ->
  get (json r1) (str "context") = Some (ProcessRequest.context b2) ->
  exists r2 transcript,
    Runs (processLearningResponse b2)
         [EvChat (process_request b2) (Resolved (mkChatCompletion (m2 :: more2)))] r2 /\
    get (json r2) (str "context") = Some (JStr transcript) /\
    transcript
    = ToString (ProcessRequest.context b1)
      ++ turn (ProcessRequest.message b1) (content_value m1)
      ++ turn (ProcessRequest.message b2) (content_value m2) /\
    List.length transcript
    = (List.length (ToString (ProcessRequest.context b1)) + 40
       + List.length (ToString (ProcessRequest.message b1))
       + List.length (ToString (content_value m1))
       + List.length (ToString (ProcessRequest.message b2))
       + List.length (ToString (content_value m2)))%nat.
Proof.
  intros V1 V2 P2 H1 Hc.
  pose proof (process_called _ _ _ _ H1) as P1.
  pose proof (Runs_functional _ _ _ _ H1 (process_run b1 m1 more1 V1 P1)) as E.
  subst r1.
  assert (G : ProcessRequest.context b2
              = JStr (ToString (ProcessRequest.context b1)
                      ++ turn (ProcessRequest.message b1) (content_value m1))).
  { change (Some (JStr (ToString (ProcessRequest.context b1)
                        ++ turn (ProcessRequest.message b1) (content_value m1)))
            = Some (ProcessRequest.context b2)) in Hc.
    congruence. }
  exists (mkResponse 200
            [ (str "success", JBool true);
              (str "next_step", content_value m2);
              (str "is_final_step", JBool (isFinalStep b2));
              (str "context",
               JStr (ToString (ProcessRequest.context b2)
                     ++ turn (ProcessRequest.message b2) (content_value m2))) ]).
  exists (ToString (ProcessRequest.context b2)
          ++ turn (ProcessRequest.message b2) (content_value m2)).
  split; [exact (process_run b2 m2 more2 V2 P2)|].
  split; [reflexivity|]. rewrite G. cbn [ToString].
  split.
  - now rewrite <- app_assoc.
  - rewrite !length_app, !turn_length. lia.
Qed.

Lemma strict_equals_true v s : strict_equals v s = true <-> v = JStr s.
Proof.
  destruct v; simpl; split; try discriminate; try congruence.
  - intros H. apply jsstring_eqb_eq in H. congruence.
  - intros H. injection H as ->. apply jsstring_eqb_refl.
Qed.

Ltac by_length H :=
  apply (f_equal (@List.length N)) in H;
  unfold hint_template, clarification_template, encouragement_template,
    default_template in H;
  repeat rewrite length_app in H;
  repeat match type of H with
         | context [List.length (str ?a)] =>
             let n := eval vm_compute in (List.length (str a)) in
             change (List.length (str a)) with n in H
         end;
  change (List.length DQUOTE) with 1%nat in H; lia.

Lemma templates_differ s c t x :
  hint_template s c t x <> clarification_template s c t x /\
  hint_template s c t x <> encouragement_template s c t x /\
  hint_template s c t x <> default_template s c t x /\
  clarification_template s c t x <> encouragement_template s c t x /\
  clarification_template s c t x <> default_template s c t x /\
  encouragement_template s c t x <> default_template s c t x.
Proof. repeat split; intros H; by_length H. Qed.

(** X6.  For given fields the text of the template tells which type was
    requested: the hint, clarification and encouragement templates are
    produced for exactly the strings [hint], [clarification] and
    [encouragement] (same case, no surrounding space), and the default
    template for every other value. *)
Theorem X6_template_identifies_type (response_type s c t x : jsval) :
  (select_template response_type s c t x = hint_template s c t x <->
   response_type = JStr (str "hint")) /\
  (select_template response_type s c t x = clarification_template s c t x <->
   response_type = JStr (str "clarification")) /\
  (select_template response_type s c t x = encouragement_template s c t x <->
   response_type = JStr (str "encouragement")) /\
  (select_template response_type s c t x = default_template s c t x <->
   response_type <> JStr (str "hint") /\
   response_type <> JStr (str "clarification") /\
   response_type <> JStr (str "encouragement")).
Proof.
  destruct (templates_differ s c t x) as (D1 & D2 & D3 & D4 & D5 & D6).
  unfold select_template.
  destruct (strict_equals response_type (str "hint")) eqn:Eh.
  { apply strict_equals_true in Eh. subst response_type.
    repeat split; try tauto; try congruence; try discriminate;
      intros; exfalso; intuition congruence. }
  destruct (strict_equals response_type (str "clarification")) eqn:Ec.
  { apply strict_equals_true in Ec. subst response_type.
    repeat split; try tauto; try congruence; try discriminate;
      intros; exfalso; intuition congruence. }
  destruct (strict_equals response_type (str "encouragement")) eqn:Ee.
  { apply strict_equals_true in Ee. subst response_type.
    repeat split; try tauto; try congruence; try discriminate;
      intros; exfalso; intuition congruence. }
  assert (Nh : response_type <> JStr (str "hint")).
  { intros E. apply strict_equals_true in E. congruence. }
  assert (Nc : response_type <> JStr (str "clarification")).
  { intros E. apply strict_equals_true in E. congruence. }
  assert (Ne : response_type <> JStr (str "encouragement")).
  { intros E. apply strict_equals_true in E. congruence. }
  repeat split; try tauto; try congruence; intros; exfalso; congruence.
Qed.
End Tutoring.

(* ================================================================= *)
(** ** The learning steps *)

Section Steps.
Import Js Regex Marker ClosedForm Claims Shape Effects ImageController.

Lemma drop_while_nil (p : N -> bool) (s : jsstring) :
  drop_while p s = [] <-> Forall (fun c => p c = true) s.
Proof.
  induction s as [|c t IH]; simpl.
  - split; [constructor|reflexivity].
  - destruct (p c) eqn:E.
    + rewrite IH. split; [now constructor|]. intros H. now inversion H.
    + split; [discriminate|]. intros H. inversion H. congruence.
Qed.

Lemma trim_nil (s : jsstring) :
  trim s = [] <-> Forall (fun c => is_space c = true) s.
Proof.
  unfold trim. split.
  - intros H. apply (f_equal (@rev N)) in H. rewrite rev_involutive in H.
    simpl in H. apply drop_while_nil in H. apply Forall_rev in H.
    rewrite rev_involutive in H.
    pose proof (drop_while_head is_space s) as Hh.
    destruct (drop_while is_space s) as [|c t] eqn:E.
    + now apply drop_while_nil.
    + inversion H. congruence.
  - intros H. apply drop_while_nil in H. rewrite H. reflexivity.
Qed.

Lemma non_blank_true (s : jsstring) : non_blank s = true <-> trim s <> [].
Proof.
  unfold non_blank. rewrite Nat.ltb_lt.
  destruct (trim s); simpl; split; try lia; try congruence; discriminate.
Qed.

Lemma non_blank_false (s : jsstring) :
  non_blank s = false <-> Forall (fun c => is_space c = true) s.
Proof.
  rewrite <- trim_nil. destruct (non_blank s) eqn:E.
  - apply non_blank_true in E. split; [discriminate|contradiction].
  - split; [|reflexivity]. intros _.
    destruct (trim s) eqn:T; [reflexivity|].
    assert (N : non_blank s = true) by (apply non_blank_true; congruence).
    congruence.
Qed.

Lemma drop_while_last (p : N -> bool) (x : jsstring) (d : N) :
  p d = false -> drop_while p (x ++ [d]) <> [].
Proof.
  intros Hd. induction x as [|c x IH]; simpl.
  - rewrite Hd. discriminate.
  - destruct (p c); [assumption|discriminate].
Qed.

(** A text that starts with a digit is not blank, trimmed or not. *)
Lemma digit_led_trim (d : N) (rest : jsstring) :
  is_digit d = true -> trim (d :: rest) <> [].
Proof.
  intros Hd. unfold trim. simpl drop_while at 2.
  rewrite (digit_not_space _ Hd).
  intros H. apply (f_equal (@rev N)) in H. rewrite rev_involutive in H.
  simpl in H. revert H. apply drop_while_last. now apply digit_not_space.
Qed.

Lemma step_starts_with_digit (m : jsstring) :
  lang (ignoreCase re_step) (source re_step) m ->
  exists d rest, m = d :: rest /\ is_digit d = true.
Proof.
  simpl. intros (m1 & m2 & -> & [Hne Hd] & _).
  destruct Hd as [|d ds Hd _]; [contradiction|].
  exists d, (ds ++ m2). now split.
Qed.

Lemma successive_lang re ms s :
  successive re ms s -> Forall (lang (ignoreCase re) (source re)) ms.
Proof.
  revert s. induction ms as [|m rest IH]; intros s H; [constructor|].
  destruct H as (pre & post & _ & L & S). constructor; [assumption|].
  now apply (IH post).
Qed.

Lemma split_nonempty (sep : N) (s : jsstring) : split sep s <> [].
Proof.
  induction s as [|c t IH]; simpl; [discriminate|].
  destruct (N.eqb c sep); [discriminate|].
  destruct (split sep t); discriminate.
Qed.

(** The code units of a text are those of its lines, and separators. *)
Lemma split_all (P : N -> Prop) (sep : N) (s : jsstring) :
  P sep ->
  (Forall P s <-> Forall (Forall P) (split sep s)).
Proof.
  intros Hsep. induction s as [|c t IH]; simpl.
  - split; repeat constructor.
  - destruct (N.eqb_spec c sep) as [->|Hc].
    + split.
      * intros H. inversion H; subst. constructor; [constructor|now apply IH].
      * intros H. inversion H; subst. constructor; [assumption|now apply IH].
    + pose proof (split_nonempty sep t) as Hn.
      destruct (split sep t) as [|l ls]; [contradiction|]. split.
      * intros H. inversion H as [|? ? Pc Pt]; subst.
        apply IH in Pt. inversion Pt; subst.
        constructor; [now constructor|assumption].
      * intros H. inversion H as [|? ? Pl Pls]; subst.
        inversion Pl; subst. constructor; [assumption|].
        apply IH. now constructor.
Qed.

Lemma filter_nil {A} (f : A -> bool) (l : list A) :
  filter f l = [] <-> Forall (fun x => f x = false) l.
Proof.
  induction l as [|x l IH]; simpl.
  - split; [constructor|reflexivity].
  - destruct (f x) eqn:E.
    + split; [discriminate|]. intros H. inversion H. congruence.
    + rewrite IH. split; [now constructor|]. intros H. now inversion H.
Qed.

(** The two ways in which the steps are produced. *)
Lemma steps_by_cases (stepsText : jsstring) :
  match match_all re_step stepsText with
  | Some stepMatches =>
      extract_steps stepsText = map trim stepMatches /\
      stepMatches <> [] /\
      Forall (lang (ignoreCase re_step) (source re_step)) stepMatches
  | None =>
      extract_steps stepsText
      = firstn 5 (filter non_blank (split LF stepsText)) /\
      forall pre m, ~ occurs_at re_step stepsText pre m
  end.
Proof.
  unfold extract_steps.
  destruct (match_all re_step stepsText) as [ms|] eqn:E.
  - unfold match_all in E.
    pose proof (scan_successive re_step stepsText) as S.
    destruct (scan re_step 0 stepsText) as [|m0 rest] eqn:Es;
      [discriminate|]. injection E as <-.
    split; [reflexivity|]. split; [discriminate|].
    now apply successive_lang in S.
  - split; [reflexivity|]. intros pre m O.
    assert (N : match_all re_step stepsText <> None)
      by (apply match_all_some; eauto).
    contradiction.
Qed.

(** X7.  No learning step is blank, and the list of steps is empty
    exactly when the reply is empty or all white space: any other reply
    gives at least one step. *)
Theorem X7_steps_are_never_blank (stepsText : jsstring) :
  Forall (fun step => non_blank step = true) (extract_steps stepsText) /\
  (extract_steps stepsText = [] <->
   Forall (fun c => is_space c = true) stepsText).
Proof.
  pose proof (steps_by_cases stepsText) as Hc.
  destruct (match_all re_step stepsText) as [ms|] eqn:E.
  - destruct Hc as (He & Hne & Hs). split.
    + rewrite He. apply Forall_forall. intros s Hin.
      apply in_map_iff in Hin as (m & <- & Hm).
      rewrite Forall_forall in Hs. specialize (Hs m Hm).
      apply step_starts_with_digit in Hs as (d & rest & -> & Hd).
      apply non_blank_true. rewrite trim_idempotent.
      now apply digit_led_trim.
    + split.
      * rewrite He. destruct ms; [contradiction|discriminate].
      * intros Hsp. exfalso. destruct ms as [|m ms]; [contradiction|].
        assert (O : exists pre m, occurs_at re_step stepsText pre m).
        { apply match_all_some. congruence. }
        destruct O as (pre & m' & post & -> & L).
        apply step_starts_with_digit in L as (d & rest & -> & Hd).
        apply Forall_app in Hsp as [_ Hsp]. inversion Hsp as [|? ? Hsd _].
        rewrite (digit_not_space _ Hd) in Hsd. discriminate.
  - destruct Hc as (He & _). split.
    + rewrite He. apply firstn_all, filter_all.
    + rewrite He. split.
      * intros H.
        assert (F : filter non_blank (split LF stepsText) = []).
        { destruct (filter non_blank (split LF stepsText)); [reflexivity|].
          discriminate. }
        apply filter_nil in F.
        apply (split_all _ LF); [reflexivity|].
        eapply Forall_impl; [|exact F]. intros l. apply non_blank_false.
      * intros H. apply (split_all _ LF) in H; [|reflexivity].
        assert (F : filter non_blank (split LF stepsText) = []).
        { apply filter_nil. eapply Forall_impl; [|exact H].
          intros l. apply non_blank_false. }
        now rewrite F.
Qed.
End Steps.

Section NumberedLines.
Import Js Regex Marker ClosedForm Claims Shape Effects ImageController.

Lemma join_split (sep : N) (s : jsstring) : join sep (split sep s) = s.
Proof.
  induction s as [|c t IH]; simpl; [reflexivity|].
  pose proof (split_nonempty sep t) as Hn.
  destruct (N.eqb_spec c sep) as [->|Hc].
  - destruct (split sep t) as [|l ls]; [contradiction|].
    simpl in *. now rewrite IH.
  - destruct (split sep t) as [|l ls]; [contradiction|].
    destruct ls as [|l2 ls]; simpl in *; now rewrite <- IH.
Qed.

Lemma split_no_sep (sep : N) (s : jsstring) :
  Forall (Forall (fun c => N.eqb c sep = false)) (split sep s).
Proof.
  induction s as [|c t IH]; simpl; [repeat constructor|].
  destruct (N.eqb c sep) eqn:E; [constructor; [constructor|assumption]|].
  destruct (split sep t) as [|l ls]; [repeat constructor; assumption|].
  inversion IH; subst. constructor; [now constructor|assumption].
Qed.

Lemma match_here_step_nondigit (s : jsstring) :
  match s with [] => True | c :: _ => is_digit c = false end ->
  match_here re_step s = None.
Proof.
  unfold match_here, re_step. cbn [source ignoreCase rmatch].
  change (in_class Digit) with is_digit.
  destruct s as [|c t]; [reflexivity|]. now intros ->.
Qed.

(** The pattern, started on digits, a period, white space and text
    without line break, takes all of it up to the end of the line. *)
Lemma match_here_step_line d0 ds w0 ws b0 bs rest :
  is_digit d0 = true ->
  Forall (fun c => is_digit c = true) ds ->
  is_space w0 = true ->
  Forall (fun c => is_space c = true) ws ->
  is_space b0 = false ->
  Forall (fun c => N.eqb c LF = false) bs ->
  match rest with [] => True | c :: _ => c = LF end ->
  match_here re_step (d0 :: ds ++ 46%N :: w0 :: ws ++ b0 :: bs ++ rest)
  = Some (mkMatch (d0 :: ds ++ 46%N :: w0 :: ws ++ b0 :: bs) []).
Proof.
  intros Hd0 Hds Hw0 Hws Hb0 Hbs Hrest.
  assert (Hb0' : N.eqb b0 LF = false).
  { destruct (N.eqb_spec b0 LF) as [->|]; [discriminate|reflexivity]. }
  assert (Hbs' : Forall (fun c => negb (N.eqb c LF) = true) bs).
  { eapply Forall_impl; [|exact Hbs]. intros c ->. reflexivity. }
  assert (Hrest' : match rest with
                   | [] => True
                   | c :: _ => negb (N.eqb c LF) = false
                   end).
  { destruct rest as [|c t]; [exact I|]. subst c. reflexivity. }
  unfold match_here, re_step. cbn [source ignoreCase rmatch].
  change (in_class Digit) with is_digit.
  change (in_class Space) with is_space.
  rewrite Hd0.
  apply star_greedy_longest.
  destruct (run_unique is_digit ds (46%N :: w0 :: ws ++ b0 :: bs ++ rest) Hds)
    as [_ E1]; [reflexivity|]. rewrite E1.
  change (str ".") with [46%N]. cbn [strip_prefix unit_eqb canonicalize].
  rewrite N.eqb_refl, Hw0.
  apply star_greedy_longest.
  destruct (run_unique is_space ws (b0 :: bs ++ rest) Hws) as [_ E2];
    [exact Hb0|]. rewrite E2.
  cbn [in_class]. rewrite Hb0'. cbn [negb].
  apply star_greedy_longest.
  destruct (run_unique (in_class NotLF) bs rest Hbs' Hrest') as [_ E3].
  rewrite E3. f_equal. f_equal.
  replace (d0 :: ds ++ 46%N :: w0 :: ws ++ b0 :: bs ++ rest)
    with ((d0 :: ds ++ 46%N :: w0 :: ws ++ b0 :: bs) ++ rest).
  - apply consumed_app.
  - simpl. f_equal. rewrite <- app_assoc. simpl. do 3 f_equal.
    rewrite <- app_assoc. reflexivity.
Qed.

Lemma digit_free_spec (l : jsstring) :
  digit_free l = true <-> Forall (fun c => is_digit c = false) l.
Proof.
  unfold digit_free. rewrite forallb_forall, Forall_forall.
  split; intros H c Hc; specialize (H c Hc);
    destruct (is_digit c); simpl in *; congruence.
Qed.

Lemma digit_free_not_numbered (l : jsstring) :
  digit_free l = true -> numbered_line l = false.
Proof.
  intros H. apply digit_free_spec in H. unfold numbered_line.
  destruct H as [|c t Hc _]; simpl; [reflexivity|]. now rewrite Hc.
Qed.

Lemma numbered_line_shape (l : jsstring) :
  numbered_line l = true ->
  exists d0 ds w0 ws b0 bs,
    l = d0 :: ds ++ 46%N :: w0 :: ws ++ b0 :: bs /\
    is_digit d0 = true /\ Forall (fun c => is_digit c = true) ds /\
    is_space w0 = true /\ Forall (fun c => is_space c = true) ws /\
    is_space b0 = false.
Proof.
  unfold numbered_line. intros H.
  pose proof (take_drop_while is_digit l) as El.
  pose proof (take_while_all is_digit l) as Hd.
  destruct (take_while is_digit l) as [|d0 ds]; [discriminate|].
  destruct (drop_while is_digit l) as [|p after]; [discriminate|].
  destruct (N.eqb_spec p 46) as [->|Hp].
  - pose proof (take_drop_while is_space after) as Ea.
    pose proof (take_while_all is_space after) as Hw.
    pose proof (drop_while_head is_space after) as Hb.
    destruct (take_while is_space after) as [|w0 ws]; [discriminate|].
    destruct (drop_while is_space after) as [|b0 bs]; [discriminate|].
    inversion Hd; subst. inversion Hw; subst.
    exists d0, ds, w0, ws, b0, bs. repeat split; auto.
  - exfalso. revert H.
    destruct p as [|q]; [discriminate|].
    repeat (destruct q as [q|q|]; try discriminate).
    contradiction.
Qed.

Lemma scan_after_match re m rest mr :
  match_here re (m ++ rest) = Some mr -> matched mr = m -> m <> [] ->
  scan re 0 (m ++ rest) = m :: scan re 0 rest.
Proof.
  intros Hm Em Hne. destruct m as [|x m']; [contradiction|].
  simpl app in *. cbn [scan]. rewrite Hm, Em. cbn [List.length].
  replace (S (List.length m') - 1)%nat with (List.length m') by lia.
  now rewrite scan_skip.
Qed.

Lemma scan_digit_free (a rest : jsstring) :
  Forall (fun c => is_digit c = false) a ->
  scan re_step 0 (a ++ rest) = scan re_step 0 rest.
Proof.
  induction 1 as [|c a Hc _ IH]; [reflexivity|].
  simpl app. cbn [scan].
  rewrite match_here_step_nondigit by exact Hc. exact IH.
Qed.

(** The matches in a text whose lines are numbered or free of digits
    are its numbered lines. *)
Lemma scan_lines (lines : list jsstring) :
  Forall (fun l => Forall (fun c => N.eqb c LF = false) l /\
                   (numbered_line l = true \/ digit_free l = true)) lines ->
  scan re_step 0 (join LF lines) = filter numbered_line lines.
Proof.
  induction 1 as [|l rest [Hlf Hk] _ IH].
  - cbn [join scan filter]. now rewrite match_here_step_nondigit.
  - set (R := match rest with [] => [] | _ => LF :: join LF rest end).
    assert (EJ : join LF (l :: rest) = l ++ R).
    { unfold R. destruct rest; simpl; [now rewrite app_nil_r|reflexivity]. }
    assert (ER : scan re_step 0 R = filter numbered_line rest).
    { rewrite <- IH. unfold R. destruct rest as [|l2 rest']; [reflexivity|].
      change (LF :: join LF (l2 :: rest'))
        with ([LF] ++ join LF (l2 :: rest')).
      apply scan_digit_free. repeat constructor. }
    assert (HR : match R with [] => True | c :: _ => c = LF end).
    { unfold R. destruct rest; simpl; auto. }
    rewrite EJ. cbn [filter]. destruct Hk as [Hn|Hf].
    + rewrite Hn.
      destruct (numbered_line_shape _ Hn)
        as (d0 & ds & w0 & ws & b0 & bs & El & Hd0 & Hds & Hw0 & Hws & Hb0).
      assert (Hbs : Forall (fun c => N.eqb c LF = false) bs).
      { rewrite El in Hlf. inversion Hlf as [|? ? _ H1]; subst.
        apply Forall_app in H1 as [_ H1]. inversion H1 as [|? ? _ H2]; subst.
        inversion H2 as [|? ? _ H3]; subst.
        apply Forall_app in H3 as [_ H3]. now inversion H3. }
      pose proof (match_here_step_line d0 ds w0 ws b0 bs R
                    Hd0 Hds Hw0 Hws Hb0 Hbs HR) as M.
      replace (d0 :: ds ++ 46%N :: w0 :: ws ++ b0 :: bs ++ R)
        with (l ++ R) in M.
      * rewrite <- El in M.
        rewrite (scan_after_match re_step l R _ M eq_refl).
        -- now rewrite ER.
        -- rewrite El. discriminate.
      * rewrite El. simpl. f_equal. rewrite <- app_assoc. simpl. do 3 f_equal.
        rewrite <- app_assoc. reflexivity.
    + rewrite (digit_free_not_numbered _ Hf).
      rewrite scan_digit_free by now apply digit_free_spec.
      exact ER.
Qed.

(** X8.  When every line of the reply is either free of digits or of
    the form digits, period, white space, text, the learning steps are
    exactly the numbered lines, in order and trimmed, however many
    there are. *)
Theorem X8_numbered_list_gives_its_lines (stepsText : jsstring) :
  Forall (fun l => numbered_line l = true \/ digit_free l = true)
         (split LF stepsText) ->
  existsb numbered_line (split LF stepsText) = true ->
  extract_steps stepsText
  = map trim (filter numbered_line (split LF stepsText)).
Proof.
  intros Hl He.
  assert (S : scan re_step 0 stepsText
              = filter numbered_line (split LF stepsText)).
  { rewrite <- (join_split LF stepsText) at 1. apply scan_lines.
    pose proof (split_no_sep LF stepsText) as Hn.
    rewrite Forall_forall in *. intros l Hin. split; auto. }
  unfold extract_steps, match_all. rewrite S.
  destruct (filter numbered_line (split LF stepsText)) as [|m ms] eqn:F;
    [|reflexivity].
  exfalso. apply existsb_exists in He as (l & Hin & Hnum).
  assert (In l (filter numbered_line (split LF stepsText)))
    by (apply filter_In; now split).
  rewrite F in H. contradiction.
Qed.
End NumberedLines.

(* ================================================================= *)
(** ** Detection *)

Section Detection.
Import Js Regex Marker ClosedForm Claims Shape Effects ImageController.

Lemma same_word_fold (w m : jsstring) :
  same_word w m <-> map upper_unit m = map upper_unit w.
Proof.
  unfold same_word. revert m.
  induction w as [|p w IH]; intros [|c m]; simpl; split;
    try tauto; try discriminate.
  - intros [Hc H]. apply N.eqb_eq in Hc. apply IH in H.
    unfold canonicalize in Hc. congruence.
  - intros H. injection H as Hc H. split; [|now apply IH].
    apply N.eqb_eq. unfold canonicalize. congruence.
Qed.

(** Whether a word occurs depends on the text up to case only. *)
Lemma occurs_ci_fold (w text : jsstring) :
  occurs_ci w text <->
  exists pre post, map upper_unit text = pre ++ map upper_unit w ++ post.
Proof.
  unfold occurs_ci. split.
  - intros (pre & m & post & -> & Hm). apply same_word_fold in Hm.
    exists (map upper_unit pre), (map upper_unit post).
    now rewrite !map_app, Hm.
  - intros (pre & post & E).
    apply map_eq_app in E as (l1 & l2 & -> & <- & E).
    apply map_eq_app in E as (m & l3 & -> & E & <-).
    exists l1, m, l3. split; [reflexivity|]. now apply same_word_fold.
Qed.

Lemma bool_eq_iff (a b : bool) : (a = true <-> b = true) -> a = b.
Proof. destruct a, b; intuition congruence. Qed.

(** X9.  Detection looks at the analysis up to the case of ASCII
    letters only, and text around a detected passage never hides it:
    two texts that differ in case alone are detected alike, and a
    detected text stays detected inside any longer text. *)
Theorem X9_detection_ignores_case_and_surroundings
        (text other before after : jsstring) :
  map upper_unit other = map upper_unit text ->
  shouldEnterTutorialMode (JStr other) = shouldEnterTutorialMode (JStr text) /\
  shouldEnterTutorialMode (JStr (toLowerCase text))
  = shouldEnterTutorialMode (JStr text) /\
  (shouldEnterTutorialMode (JStr text) = true ->
   shouldEnterTutorialMode (JStr (before ++ text ++ after)) = true).
Proof.
  intros Hf.
  assert (F : forall a b, map upper_unit a = map upper_unit b ->
                          shouldEnterTutorialMode (JStr a)
                          = shouldEnterTutorialMode (JStr b)).
  { intros a b E. apply bool_eq_iff. rewrite !detection_words.
    split; intros (w & Hin & Ho); exists w; (split; [assumption|]);
      apply occurs_ci_fold in Ho as (pre & post & Ho);
      apply occurs_ci_fold; exists pre, post; congruence. }
  split; [now apply F|]. split.
  - apply F. unfold toLowerCase. rewrite map_map. apply map_ext.
    intros c. unfold lower_unit, upper_unit.
    destruct (N.leb_spec 65 c), (N.leb_spec c 90); simpl;
      repeat match goal with
             | |- context [(?a <=? ?b)%N] => destruct (N.leb_spec a b); simpl
             end; lia.
  - rewrite !detection_words. intros (w & Hin & pre & m & post & -> & Hm).
    exists w. split; [assumption|].
    exists (before ++ pre), m, (post ++ after). split; [|assumption].
    now rewrite <- !app_assoc.
Qed.
End Detection.

(* ================================================================= *)
(** ** Every run of analyzeImage *)

Ltac simp_image :=
  match goal with
  | H : Effects.Runs _ _ _ |- _ =>
      cbn [Effects.bind Effects.and_then Effects.first_message Effects.choices
           Effects.ret Effects.throw Effects.content
           ImageController.steps_of_content Effects.createChatCompletion
           Effects.createAudio Effects.now Effects.existsSync
           Effects.mkdirSync Effects.writeFileSync negb] in H
  end.

Section ImageRuns.
Import Js Regex Marker ClosedForm Claims Shape Effects ImageController.
Variable dirname : jsstring.
Variable path_join : jsstring -> jsstring -> jsstring.

(** What follows the steps, in every run that answers 200. *)
Lemma image_tail_success req analysis tutorial steps (k : Task Response)
      (tr : list Event) (r : Response) :
  k = (audioData <-
         createAudio (mkAudioRequest (str "tts-1") (str "alloy") analysis) ;;
       t <- now ;;
       let audioFileName := str "response-" ++ string_of_Z t ++ str ".mp3" in
       let audioDir := path_join dirname (str "../uploads/audio") in
       present <- existsSync audioDir ;;
       _ <- (if negb present then mkdirSync audioDir else ret tt) ;;
       let audioPath := path_join audioDir audioFileName in
       _ <- writeFileSync audioPath audioData ;;
       let audioUrl :=
         getBaseUrl req ++ str "/uploads/audio/" ++ audioFileName in
       ret (mkResponse 200
              [ (str "success", JBool true);
                (str "response", analysis);
                (str "audio_url", JStr audioUrl);
                (str "should_enter_tutorial_mode", JBool tutorial);
                (str "learning_context", analysis);
                (str "learning_steps", JArr (map JStr steps)) ]))%task ->
  Runs (try_catch k
          (fun error =>
             ConsoleError (str "Error analyzing image:") error
               (Ret (snd (failure (str "Error analyzing image:")
                                  (str "Error analyzing image") error)))))
       tr r ->
  status r = 200%Z ->
  exists data t present,
    let audioDir := path_join dirname (str "../uploads/audio") in
    tr = [ EvAudio (mkAudioRequest (str "tts-1") (str "alloy") analysis)
                   (Resolved data);
           EvNow t;
           EvExists audioDir present ]
         ++ (if present then [] else [EvMkdir audioDir (Resolved tt)])
         ++ [ EvWrite (path_join audioDir (audio_name t)) data (Resolved tt) ] /\
    r = mkResponse 200
          [ (str "success", JBool true);
            (str "response", analysis);
            (str "audio_url",
             JStr (getBaseUrl req ++ str "/uploads/audio/" ++ audio_name t));
            (str "should_enter_tutorial_mode", JBool tutorial);
            (str "learning_context", analysis);
            (str "learning_steps", JArr (map JStr steps)) ].
Proof.
  intros -> H Hs. unfold try_catch in H. simp_image.
  step. destruct o as [data|e]; simp_image;
    [|step; step; discriminate].
  step. simp_image. step. destruct b; simp_image.
  - step. destruct o as [[]|e]; simp_image; [|step; step; discriminate].
    step. exists data, t, true. split; reflexivity.
  - step. destruct o as [[]|e]; simp_image; [|step; step; discriminate].
    step. destruct o as [[]|e]; simp_image; [|step; step; discriminate].
    step. exists data, t, false. split; reflexivity.
Qed.

(** X10.  A run of [analyzeImage] that answers 200 has one shape: the
    vision call; the steps call if and only if the analysis is detected
    as educational (otherwise there are no steps); the audio call; the
    clock; the directory test, and [mkdirSync] only when the directory
    is missing; the write of the synthesized audio.  The file written
    is the one that [audio_url] names, and [response] and
    [learning_context] are both the analysis. *)
Theorem X10_successful_image_run
        (req : request) (tr : list Event) (r : Response) :
  Runs (analyzeImage dirname path_join req) tr r ->
  status r = 200%Z ->
  exists m more steps_call steps data t present,
    let analysis := content_value m in
    let audioDir := path_join dirname (str "../uploads/audio") in
    ((shouldEnterTutorialMode analysis = false /\
      steps_call = [] /\ steps = []) \/
     (shouldEnterTutorialMode analysis = true /\
      exists fc stepsText more',
        steps_call
        = [EvChat (steps_request analysis)
                  (Resolved (mkChatCompletion
                               (mkChatMessage fc (Some stepsText) :: more')))] /\
        steps = extract_steps stepsText)) /\
    tr = EvChat (vision_request req) (Resolved (mkChatCompletion (m :: more)))
         :: steps_call
         ++ [ EvAudio (mkAudioRequest (str "tts-1") (str "alloy") analysis)
                      (Resolved data);
              EvNow t;
              EvExists audioDir present ]
         ++ (if present then [] else [EvMkdir audioDir (Resolved tt)])
         ++ [ EvWrite (path_join audioDir (audio_name t)) data (Resolved tt) ] /\
    r = mkResponse 200
          [ (str "success", JBool true);
            (str "response", analysis);
            (str "audio_url",
             JStr (getBaseUrl req ++ str "/uploads/audio/" ++ audio_name t));
            (str "should_enter_tutorial_mode",
             JBool (shouldEnterTutorialMode analysis));
            (str "learning_context", analysis);
            (str "learning_steps", JArr (map JStr steps)) ].
Proof.
  intros H Hs. unfold analyzeImage in H.
  destruct (negb (truthy (image_url req))).
  { apply Runs_Ret_inv in H as [_ ->]. discriminate. }
  unfold try_catch in H. simp_image. step.
  destruct o as [[choices]|e]; simp_image; [|step; step; discriminate].
  destruct choices as [|m more]; simp_image; [step; step; discriminate|].
  destruct (shouldEnterTutorialMode (content_value m)) eqn:D.
  - simp_image. step.
    destruct o as [[choices]|e]; simp_image; [|step; step; discriminate].
    destruct choices as [|[fc c] more']; simp_image;
      [step; step; discriminate|].
    destruct c as [stepsText|]; simp_image; [|step; step; discriminate].
    match goal with
    | H : Runs _ ?tr' r |- _ =>
        destruct (image_tail_success req (content_value m) true
                    (extract_steps stepsText) _ tr' r eq_refl H Hs)
          as (data & t & present & Et & Er)
    end.
    exists m, more. eexists. exists (extract_steps stepsText), data, t, present.
    cbn zeta. rewrite D. split; [right; split; [reflexivity|]|].
    + exists fc, stepsText, more'. split; reflexivity.
    + rewrite Et. split; [reflexivity|exact Er].
  - match goal with
    | H : Runs _ ?tr' r |- _ =>
        destruct (image_tail_success req (content_value m) false
                    [] _ tr' r eq_refl H Hs)
          as (data & t & present & Et & Er)
    end.
    exists m, more, [], [], data, t, present.
    cbn zeta. rewrite D. split; [left; repeat split|].
    rewrite Et. split; [reflexivity|exact Er].
Qed.

(** What follows the steps, in every run. *)
Lemma image_tail_any req analysis tutorial steps (k : Task Response)
      (tr : list Event) (r : Response) :
  k = (audioData <-
         createAudio (mkAudioRequest (str "tts-1") (str "alloy") analysis) ;;
       t <- now ;;
       let audioFileName := str "response-" ++ string_of_Z t ++ str ".mp3" in
       let audioDir := path_join dirname (str "../uploads/audio") in
       present <- existsSync audioDir ;;
       _ <- (if negb present then mkdirSync audioDir else ret tt) ;;
       let audioPath := path_join audioDir audioFileName in
       _ <- writeFileSync audioPath audioData ;;
       let audioUrl :=
         getBaseUrl req ++ str "/uploads/audio/" ++ audioFileName in
       ret (mkResponse 200
              [ (str "success", JBool true);
                (str "response", analysis);
                (str "audio_url", JStr audioUrl);
                (str "should_enter_tutorial_mode", JBool tutorial);
                (str "learning_context", analysis);
                (str "learning_steps", JArr (map JStr steps)) ]))%task ->
  Runs (try_catch k
          (fun error =>
             ConsoleError (str "Error analyzing image:") error
               (Ret (snd (failure (str "Error analyzing image:")
                                  (str "Error analyzing image") error)))))
       tr r ->
  status r = 200%Z \/
  exists before e,
    tr = before ++ fst (failure (str "Error analyzing image:")
                                (str "Error analyzing image") e) /\
    r = snd (failure (str "Error analyzing image:")
                     (str "Error analyzing image") e).
Proof.
  intros -> H. unfold try_catch in H. simp_image.
  step. destruct o as [data|e]; simp_image.
  2:{ step. step. right. eexists [_]. eexists. split; reflexivity. }
  step. simp_image. step. destruct b; simp_image.
  - step. destruct o as [[]|e]; simp_image.
    + step. now left.
    + step. step. right. eexists [_; _; _; _]. eexists. split; reflexivity.
  - step. destruct o as [[]|e]; simp_image.
    + step. destruct o as [[]|e]; simp_image.
      * step. now left.
      * step. step. right. eexists [_; _; _; _; _]. eexists.
        split; reflexivity.
    + step. step. right. eexists [_; _; _; _]. eexists. split; reflexivity.
Qed.

(** X11.  Every run of [analyzeImage]: a 400 without any interaction
    exactly when [image_url] is falsy; otherwise the vision call comes
    first, and the run ends either with a 200 or with one line on
    [console.error] followed by a 500 that carries the logged message. *)
Theorem X11_image_runs (req : request) (tr : list Event) (r : Response) :
  Runs (analyzeImage dirname path_join req) tr r ->
  (truthy (image_url req) = false /\ tr = [] /\
   r = mkResponse 400
         [ (str "success", JBool false);
           (str "message", JStr (str "Image URL is required")) ]) \/
  (truthy (image_url req) = true /\
   exists o rest,
     tr = EvChat (vision_request req) o :: rest /\
     (status r = 200%Z \/
      exists before e,
        rest = before ++ fst (failure (str "Error analyzing image:")
                                      (str "Error analyzing image") e) /\
        r = snd (failure (str "Error analyzing image:")
                         (str "Error analyzing image") e))).
Proof.
  intros H. unfold analyzeImage in H.
  destruct (truthy (image_url req)); cbn [negb] in H.
  2:{ left. apply Runs_Ret_inv in H as [-> ->]. now repeat split. }
  right. split; [reflexivity|].
  unfold try_catch in H. simp_image. step. eexists. eexists.
  split; [reflexivity|].
  destruct o as [[choices]|e]; simp_image.
  2:{ step. step. right. exists [], e. split; reflexivity. }
  destruct choices as [|m more]; simp_image.
  { step. step. right. eexists []. eexists. split; reflexivity. }
  destruct (shouldEnterTutorialMode (content_value m)) eqn:D.
  - simp_image. step.
    destruct o as [[choices]|e]; simp_image.
    2:{ step. step. right. eexists [_]. eexists. split; reflexivity. }
    destruct choices as [|[fc c] more']; simp_image.
    { step. step. right. eexists [_]. eexists. split; reflexivity. }
    destruct c as [stepsText|]; simp_image.
    2:{ step. step. right. eexists [_]. eexists. split; reflexivity. }
    match goal with
    | H : Runs _ ?tr' r |- _ =>
        destruct (image_tail_any req (content_value m) true
                    (extract_steps stepsText) _ tr' r eq_refl H)
          as [Hs|(before & e & Et & Er)]
    end.
    + now left.
    + right. exists (EvChat (steps_request (content_value m))
                       (Resolved
                          (mkChatCompletion
                             (mkChatMessage fc (Some stepsText) :: more')))
                     :: before), e.
      rewrite Et. split; [reflexivity|exact Er].
  - match goal with
    | H : Runs _ ?tr' r |- _ =>
        destruct (image_tail_any req (content_value m) false
                    [] _ tr' r eq_refl H)
          as [Hs|(before & e & Et & Er)]
    end.
    + now left.
    + right. exists before, e. split; assumption.
Qed.

(** X12.  There is no partial success in [analyzeImage]: when the
    vision call is rejected, and, after a successful analysis (with the
    steps call and its steps when the analysis is detected as
    educational, without them otherwise), when the steps call, the
    speech synthesis, the creation of the directory or the write of the
    file is rejected, the answer is the 500 with the message of that
    failure, and nothing of the analysis or of the steps. *)
Theorem X12_image_failures
        (req : request) (m : ChatMessage) (more : list ChatMessage)
        (fc : option FunctionCall) (stepsText : jsstring)
        (more' : list ChatMessage) (data e : jsstring) (t : Z) :
  truthy (image_url req) = true ->
  let analysis := content_value m in
  let failed :=
    failure (str "Error analyzing image:") (str "Error analyzing image") e in
  let vision :=
    EvChat (vision_request req) (Resolved (mkChatCompletion (m :: more))) in
  let steps :=
    if shouldEnterTutorialMode analysis
    then [EvChat (steps_request analysis)
                 (Resolved (mkChatCompletion
                              (mkChatMessage fc (Some stepsText) :: more')))]
    else [] in
  let audio o :=
    EvAudio (mkAudioRequest (str "tts-1") (str "alloy") analysis) o in
  let audioDir := path_join dirname (str "../uploads/audio") in
  Runs (analyzeImage dirname path_join req)
       (EvChat (vision_request req) (Rejected e) :: fst failed) (snd failed) /\
  (shouldEnterTutorialMode analysis = true ->
   Runs (analyzeImage dirname path_join req)
        ([vision; EvChat (steps_request analysis) (Rejected e)] ++ fst failed)
        (snd failed)) /\
  Runs (analyzeImage dirname path_join req)
       (vision :: steps ++ [audio (Rejected e)] ++ fst failed) (snd failed) /\
  Runs (analyzeImage dirname path_join req)
       (vision :: steps
        ++ [audio (Resolved data); EvNow t; EvExists audioDir false;
            EvMkdir audioDir (Rejected e)] ++ fst failed) (snd failed) /\
  Runs (analyzeImage dirname path_join req)
       (vision :: steps
        ++ [audio (Resolved data); EvNow t; EvExists audioDir true;
            EvWrite (path_join audioDir (audio_name t)) data (Rejected e)]
        ++ fst failed) (snd failed) /\
  get (json (snd failed)) (str "response") = None /\
  get (json (snd failed)) (str "learning_steps") = None.
Proof.
  intros Hu analysis failed vision steps audio audioDir.
  unfold analyzeImage. rewrite Hu. cbn [negb].
  unfold try_catch, and_then, createChatCompletion. cbn [bind].
  split; [|split; [|split; [|split; [|split; [|split]]]]];
    try reflexivity.
  - apply RunsChat. cbn [bind]. apply RunsConsoleError, RunsRet.
  - intros D. unfold vision. cbn [app].
    apply RunsChat. cbn [bind first_message choices ret].
    fold analysis. rewrite D. cbn [bind createChatCompletion].
    apply RunsChat. cbn [bind]. apply RunsConsoleError, RunsRet.
  - unfold vision, steps. apply RunsChat.
    cbn [bind first_message choices ret]. fold analysis.
    destruct (shouldEnterTutorialMode analysis); cbn [app].
    + cbn [bind createChatCompletion]. apply RunsChat.
      cbn [bind first_message choices content steps_of_content ret createAudio].
      apply RunsAudio. cbn [bind]. apply RunsConsoleError, RunsRet.
    + cbn [bind ret createAudio]. apply RunsAudio. cbn [bind].
      apply RunsConsoleError, RunsRet.
  - unfold vision, steps. apply RunsChat.
    cbn [bind first_message choices ret]. fold analysis.
    destruct (shouldEnterTutorialMode analysis); cbn [app].
    + cbn [bind createChatCompletion]. apply RunsChat.
      cbn [bind first_message choices content steps_of_content ret createAudio].
      apply RunsAudio. cbn [bind now ret].
      apply RunsNow. cbn [bind existsSync ret]. apply RunsExists.
      cbn [bind negb mkdirSync]. apply RunsMkdir. cbn [bind].
      apply RunsConsoleError, RunsRet.
    + cbn [bind ret createAudio]. apply RunsAudio. cbn [bind now ret].
      apply RunsNow. cbn [bind existsSync ret]. apply RunsExists.
      cbn [bind negb mkdirSync]. apply RunsMkdir. cbn [bind].
      apply RunsConsoleError, RunsRet.
  - unfold vision, steps. apply RunsChat.
    cbn [bind first_message choices ret]. fold analysis.
    destruct (shouldEnterTutorialMode analysis); cbn [app].
    + cbn [bind createChatCompletion]. apply RunsChat.
      cbn [bind first_message choices content steps_of_content ret createAudio].
      apply RunsAudio. cbn [bind now ret].
      apply RunsNow. cbn [bind existsSync ret]. apply RunsExists.
      cbn [bind negb ret writeFileSync]. apply RunsWrite. cbn [bind].
      apply RunsConsoleError, RunsRet.
    + cbn [bind ret createAudio]. apply RunsAudio. cbn [bind now ret].
      apply RunsNow. cbn [bind existsSync ret]. apply RunsExists.
      cbn [bind negb ret writeFileSync]. apply RunsWrite. cbn [bind].
      apply RunsConsoleError, RunsRet.
Qed.
End ImageRuns.

(* ================================================================= *)
(** ** File names and the upload *)

Section FileNames.
Import Js Regex Marker ClosedForm Claims Shape Effects.

Lemma str_inj (a b : string) : str a = str b -> a = b.
Proof.
  unfold str. intros H.
  assert (E : list_ascii_of_string a = list_ascii_of_string b).
  { revert H. generalize (list_ascii_of_string a) (list_ascii_of_string b).
    induction l as [|x l IH]; intros [|y l']; simpl; intros H;
      try discriminate; [reflexivity|].
    injection H as Hx Hl. f_equal; [|now apply IH].
    rewrite <- (ascii_N_embedding x), <- (ascii_N_embedding y). now f_equal. }
  rewrite <- (string_of_list_ascii_of_string a),
          <- (string_of_list_ascii_of_string b). now f_equal.
Qed.

Lemma to_int_proper (z : Z) :
  Z.to_int z <> Decimal.Pos Decimal.Nil /\ Z.to_int z <> Decimal.Neg Decimal.Nil.
Proof.
  destruct z as [|p|p]; simpl; split; try discriminate;
    intros H; injection H as H; revert H;
    apply DecimalPos.Unsigned.to_uint_nonnil.
Qed.

(** Printing an integer loses nothing. *)
Lemma string_of_Z_inj (a b : Z) : string_of_Z a = string_of_Z b -> a = b.
Proof.
  unfold string_of_Z. intros H. apply str_inj in H.
  apply DecimalZ.to_int_inj.
  destruct (to_int_proper a) as [A1 A2], (to_int_proper b) as [B1 B2].
  pose proof (NilZero.isi _ A1 A2) as Ia.
  pose proof (NilZero.isi _ B1 B2) as Ib.
  rewrite H in Ia. congruence.
Qed.

Lemma uint_digits (u : Decimal.uint) :
  Forall (fun c => is_digit c = true) (str (NilEmpty.string_of_uint u)).
Proof.
  induction u; simpl; constructor; auto.
Qed.

(** A non-negative integer prints as digits, at least one. *)
Lemma string_of_Z_digits (z : Z) :
  natural z ->
  Forall (fun c => is_digit c = true) (string_of_Z z) /\ string_of_Z z <> [].
Proof.
  unfold natural, string_of_Z. intros Hz.
  destruct z as [|p|p]; [| |lia].
  - split; [repeat constructor|discriminate].
  - change (Z.to_int (Z.pos p)) with (Decimal.Pos (Pos.to_uint p)).
    cbn [NilZero.string_of_int].
    pose proof (DecimalPos.Unsigned.to_uint_nonnil p) as Hn.
    assert (E : NilZero.string_of_uint (Pos.to_uint p)
                = NilEmpty.string_of_uint (Pos.to_uint p)).
    { destruct (Pos.to_uint p); [contradiction|reflexivity..]. }
    rewrite E. split; [apply uint_digits|].
    destruct (Pos.to_uint p); [contradiction|discriminate..].
Qed.

(** X13.  The name of the audio file is [response-<time>.mp3], so two
    synthesized answers get the same file, and the same URL, exactly
    when they are written in the same millisecond. *)
Theorem X13_audio_name_per_millisecond (t t' : Z) (base : jsstring) :
  (audio_name t = audio_name t' <-> t = t') /\
  (base ++ str "/uploads/audio/" ++ audio_name t
   = base ++ str "/uploads/audio/" ++ audio_name t' <-> t = t').
Proof.
  assert (A : audio_name t = audio_name t' <-> t = t').
  { split; [|now intros ->]. unfold audio_name. intros H.
    apply app_inv_head, app_inv_tail in H. now apply string_of_Z_inj. }
  split; [exact A|]. split; [|now intros ->].
  intros H. apply app_inv_head, app_inv_head in H. now apply A.
Qed.

Section WithPath.
Variable dirname : jsstring.
Variable path_join : jsstring -> jsstring -> jsstring.
Variable extname : jsstring -> jsstring.

(** X14.  The stored name of an upload is time, dash, random number
    and extension.  When extensions do not start with a digit, two
    uploads get the same name only if they were stored in the same
    millisecond with the same random number (and the same extension). *)
Theorem X14_upload_names_collide_only_on_same_draw
        (f f' : Upload.file) (rounded rounded' t t' : Z) (name : jsstring) :
  (forall n, match extname n with
             | [] => True
             | c :: _ => is_digit c = false
             end) ->
  natural t -> natural t' -> natural rounded -> natural rounded' ->
  Runs (Upload.filename extname rounded f) [EvNow t] (Resolved name) ->
  Runs (Upload.filename extname rounded' f') [EvNow t'] (Resolved name) ->
  t = t' /\ rounded = rounded' /\
  extname (Upload.originalname f) = extname (Upload.originalname f') /\
  name = string_of_Z t ++ str "-" ++ string_of_Z rounded
         ++ extname (Upload.originalname f).
Proof.
  intros Hext Ht Ht' Hr Hr' H H'.
  unfold Upload.filename, and_then, now in H, H'. cbn [bind] in H, H'.
  inversion H as [| | |? ? ? ? R| | | |]; subst. clear H.
  inversion H' as [| | |? ? ? ? R'| | | |]; subst. clear H'.
  cbn [bind ret] in R, R'. apply Runs_Ret_inv in R as [_ E].
  apply Runs_Ret_inv in R' as [_ E']. injection E as E. injection E' as E'.
  unfold Upload.uniqueSuffix in E, E'. rewrite <- !app_assoc in E, E'.
  destruct (string_of_Z_digits t Ht) as [Dt _].
  destruct (string_of_Z_digits t' Ht') as [Dt' _].
  destruct (string_of_Z_digits rounded Hr) as [Dr _].
  destruct (string_of_Z_digits rounded' Hr') as [Dr' _].
  assert (S : forall a x, Forall (fun c => is_digit c = true) a ->
                          take_while is_digit (a ++ str "-" ++ x) = a /\
                          drop_while is_digit (a ++ str "-" ++ x) = str "-" ++ x).
  { intros a x Ha. apply run_unique; [assumption|reflexivity]. }
  assert (T : forall a n, Forall (fun c => is_digit c = true) a ->
                          take_while is_digit (a ++ extname n) = a /\
                          drop_while is_digit (a ++ extname n) = extname n).
  { intros a n Ha. apply run_unique; [assumption|apply Hext]. }
  assert (Et : string_of_Z t = string_of_Z t').
  { rewrite <- (proj1 (S _ (string_of_Z rounded
                              ++ extname (Upload.originalname f)) Dt)).
    rewrite <- (proj1 (S _ (string_of_Z rounded'
                              ++ extname (Upload.originalname f')) Dt')).
    congruence. }
  assert (Ex : string_of_Z rounded ++ extname (Upload.originalname f)
               = string_of_Z rounded' ++ extname (Upload.originalname f')).
  { rewrite E, Et in E'. now apply app_inv_head, app_inv_head in E'. }
  assert (Er : string_of_Z rounded = string_of_Z rounded').
  { rewrite <- (proj1 (T _ (Upload.originalname f) Dr)).
    rewrite <- (proj1 (T _ (Upload.originalname f') Dr')). congruence. }
  repeat split.
  - now apply string_of_Z_inj.
  - now apply string_of_Z_inj.
  - rewrite Er in Ex. now apply app_inv_head in Ex.
  - exact E.
Qed.

(** X15.  [storage.destination] hands over the upload directory,
    [mkdirSync] being called exactly when the directory is missing; a
    failure to create it is handed over instead. *)
Theorem X15_destination_creates_when_missing
        (tr : list Event) (o : Outcome jsstring) :
  Runs (Upload.destination dirname path_join) tr o ->
  let uploadDir := path_join dirname (str "../uploads/images") in
  (tr = [EvExists uploadDir true] /\ o = Resolved uploadDir) \/
  (tr = [EvExists uploadDir false; EvMkdir uploadDir (Resolved tt)] /\
   o = Resolved uploadDir) \/
  (exists e,
      tr = [EvExists uploadDir false; EvMkdir uploadDir (Rejected e)] /\
      o = Rejected e).
Proof.
  intros H uploadDir. unfold Upload.destination in H. simp_image.
  step. destruct b; simp_image.
  - left. step. now split.
  - right. step. destruct o0 as [[]|e]; simp_image; step.
    + left. now split.
    + right. exists e. now split.
Qed.
End WithPath.

Lemma startsWith_spec (s prefix : jsstring) :
  Upload.startsWith s prefix = true <-> exists rest, s = prefix ++ rest.
Proof.
  revert s. induction prefix as [|p prefix IH]; intros s.
  - split; [intros _; now exists s|]. now destruct s.
  - destruct s as [|c s]; simpl;
      [split; [discriminate|intros [? ?]; discriminate]|].
    rewrite andb_true_iff, N.eqb_eq, IH. split.
    + intros [-> [rest ->]]. now exists rest.
    + intros [rest E]. injection E as -> ->. split; [reflexivity|now exists rest].
Qed.

(** X16.  An upload is accepted by the filter exactly when its MIME type
    starts with [image/], in this very case; otherwise the filter fails
    with [Only image files are allowed!], and the callback of
    [uploadImage], handed that message, answers 400 with it, whether a
    file is present or not. *)
Theorem X16_only_image_types_pass
        (f : Upload.file) (req : ImageController.request)
        (stored : option jsstring) :
  (Upload.fileFilter f = Resolved true <->
   exists rest, Upload.mimetype f = str "image/" ++ rest) /\
  (Upload.fileFilter f = Resolved true \/
   Upload.fileFilter f = Rejected (str "Only image files are allowed!") /\
   Upload.uploadImage req
     (Upload.mkUploaded (Some (str "Only image files are allowed!")) stored)
   = mkResponse 400
       [ (str "success", JBool false);
         (str "message", JStr (str "Only image files are allowed!")) ]).
Proof.
  unfold Upload.fileFilter.
  destruct (Upload.startsWith (Upload.mimetype f) (str "image/")) eqn:E.
  - split; [|now left]. split; [intros _|reflexivity].
    now apply startsWith_spec.
  - split; [|right; now split]. split; [discriminate|].
    intros H. apply startsWith_spec in H. congruence.
Qed.

(** X17.  The callback of [uploadImage] answers 200 exactly when the
    middleware reports no error and a stored file; the [image_url] is
    then the base URL, [/uploads/images/] and the stored name.  Every
    other answer is a 400, and an error takes precedence over a missing
    file. *)
Theorem X17_upload_answers
        (req : ImageController.request) (u : Upload.uploaded) :
  let r := Upload.uploadImage req u in
  (status r = 200%Z \/ status r = 400%Z) /\
  (status r = 200%Z <->
   Upload.err u = None /\ exists name, Upload.req_file u = Some name) /\
  (forall name,
      Upload.err u = None -> Upload.req_file u = Some name ->
      get (json r) (str "image_url")
      = Some (JStr (ToString (ImageController.protocol req) ++ str "://"
                    ++ ToString (ImageController.host req)
                    ++ str "/uploads/images/" ++ name))) /\
  (forall message,
      Upload.err u = Some message ->
      get (json r) (str "message") = Some (JStr message)) /\
  (status r = 400%Z -> get (json r) (str "success") = Some (JBool false)).
Proof.
  intros r. unfold r, Upload.uploadImage.
  destruct (Upload.err u) as [message|]; [|destruct (Upload.req_file u) as [name|]];
    cbn [status json].
  - repeat split; auto; try discriminate.
    + intros [H _]. discriminate.
    + intros m H. injection H as ->. reflexivity.
  - repeat split; auto; try discriminate.
    + now exists name.
    + intros n _ H. injection H as ->.
      unfold ImageController.getBaseUrl. rewrite <- !app_assoc. reflexivity.
  - repeat split; auto; try discriminate.
    + intros [_ [n H]]. discriminate.
Qed.
End FileNames.

(* ================================================================= *)
(** ** The further theorems at concrete requests *)

Section MoreInstances.
Import Js Regex Marker ClosedForm Claims Shape Effects.
Import AnalyzeController ImageController.

(** X1 at a request whose [subject] has no primitive. *)
Lemma X1_witness :
  Runs (analyzeStudentResponse Sample.no_json Sample.unprintable_analyze_body)
       [EvConsoleError (str "Error analyzing student response:")
                       (str "Cannot convert object to primitive value")]
       (mkResponse 500
          [ (str "success", JBool false);
            (str "message", JStr (str "Error analyzing student response"));
            (str "error",
             JStr (str "Cannot convert object to primitive value")) ]) /\
  valid_analyze Sample.unprintable_analyze_body /\
  ~ printable_analyze Sample.unprintable_analyze_body.
Proof.
  assert (R : Runs (analyzeStudentResponse Sample.no_json
                                           Sample.unprintable_analyze_body)
                   [EvConsoleError (str "Error analyzing student response:")
                                   (str "Cannot convert object to primitive value")]
                   (mkResponse 500
                      [ (str "success", JBool false);
                        (str "message",
                         JStr (str "Error analyzing student response"));
                        (str "error",
                         JStr (str "Cannot convert object to primitive value")) ])).
  { apply (analyze_unprintable_run Sample.no_json
             Sample.unprintable_analyze_body).
    - split; reflexivity.
    - intros H. discriminate H. }
  split; [exact R|].
  destruct (X1_analyze_runs Sample.no_json _ _ _ R)
    as [(_ & E & _)|[(Hv & Hn & _)|[(_ & _ & c & E & _)|(_ & _ & o & e & E & _)]]];
    [discriminate E|split; assumption|discriminate E|discriminate E].
Defined.

(** X2 at a parser that rejects everything. *)
Lemma X2_witness :
  (valid_analyze Sample.analyze_body /\
   printable_analyze Sample.analyze_body) /\
  Runs (analyzeStudentResponse Sample.no_json Sample.analyze_body)
       (EvChat (analysis_request Sample.analyze_body)
               (Resolved (call_reply Sample.some_call None []))
        :: fst (failure (str "Error analyzing student response:")
                        (str "Error analyzing student response")
                        (str "Unexpected end of JSON input")))
       (snd (failure (str "Error analyzing student response:")
                     (str "Error analyzing student response")
                     (str "Unexpected end of JSON input"))).
Proof.
  assert (V : valid_analyze Sample.analyze_body) by (split; reflexivity).
  assert (P : printable_analyze Sample.analyze_body) by reflexivity.
  split; [split; [exact V|exact P]|].
  exact (proj1 (proj2 (X2_analyze_failures Sample.no_json Sample.analyze_body
                         Sample.some_call None [] (str "timeout")
                         (str "Unexpected end of JSON input") V P eq_refl))).
Defined.

(** X3 at a payload whose [success] is [false]. *)
Lemma X3_witness :
  (valid_analyze Sample.analyze_body /\
   printable_analyze Sample.analyze_body) /\
  exists r,
    Runs (analyzeStudentResponse (Sample.parse_as (JObj Scenario.failing_payload))
                                 Sample.analyze_body)
         [EvChat (analysis_request Sample.analyze_body)
                 (Resolved (call_reply Sample.some_call
                                       (Some (str "correct: true")) []))] r /\
    status r = 200%Z /\
    get (json r) (str "success") = Some (JBool false).
Proof.
  assert (V : valid_analyze Sample.analyze_body) by (split; reflexivity).
  assert (P : printable_analyze Sample.analyze_body) by reflexivity.
  split; [split; [exact V|exact P]|].
  assert (N : NoDup (map fst Scenario.failing_payload)).
  { repeat constructor; simpl; intuition discriminate. }
  destruct (X3_payload_is_the_response
              (Sample.parse_as (JObj Scenario.failing_payload))
              Sample.analyze_body Sample.some_call []
              Scenario.failing_payload V P eq_refl N)
    as (r & Hr & Hs & Hk & _).
  exists r. split; [apply Hr|]. split; [exact Hs|]. now apply Hk.
Defined.

(** X4 at a completion whose content is [null]. *)
Lemma X4_witness :
  Runs (processLearningResponse Sample.final_body)
       [EvChat (process_request Sample.final_body)
               (Resolved (mkChatCompletion [Scenario.second_reply]))]
       (mkResponse 200
          [ (str "success", JBool true);
            (str "next_step", JNull);
            (str "is_final_step", JBool true);
            (str "context",
             JStr (str "Divide both sides" ++
                   turn (JStr (str "I think x = 4")) JNull)) ]) /\
  valid_process Sample.final_body /\
  printable_process Sample.final_body.
Proof.
  assert (V : valid_process Sample.final_body) by (split; reflexivity).
  assert (P : printable_process Sample.final_body) by reflexivity.
  pose proof (process_run Sample.final_body Scenario.second_reply [] V P) as R.
  split; [exact R|].
  destruct (X4_process_runs _ _ _ R)
    as [(_ & E & _)|[(_ & _ & E & _)|[(H & H' & _)|[(H & H' & _)|(H & H' & _)]]]];
    [discriminate E|discriminate E|split; assumption..].
Defined.

(** X5 at two turns. *)
Lemma X5_witness :
  (valid_process Sample.summary_body /\
   valid_process Scenario.second_body /\
   printable_process Scenario.second_body) /\
  exists r2 transcript,
    Runs (processLearningResponse Scenario.second_body)
         [EvChat (process_request Scenario.second_body)
                 (Resolved (mkChatCompletion [Scenario.second_reply]))] r2 /\
    get (json r2) (str "context") = Some (JStr transcript) /\
    transcript
    = str "Divide both sides"
      ++ turn (JStr (str "I think x = 4")) (content_value Scenario.first_reply)
      ++ turn (JStr (str "4")) JNull.
Proof.
  assert (V1 : valid_process Sample.summary_body) by (split; reflexivity).
  assert (P1 : printable_process Sample.summary_body) by reflexivity.
  assert (V2 : valid_process Scenario.second_body) by (split; reflexivity).
  assert (P2 : printable_process Scenario.second_body) by reflexivity.
  split; [split; [exact V1|split; [exact V2|exact P2]]|].
  destruct (X5_transcript_accumulates
              Sample.summary_body Scenario.second_body
              Scenario.first_reply Scenario.second_reply [] [] _ V1 V2 P2
              (process_run Sample.summary_body Scenario.first_reply [] V1 P1)
              eq_refl)
    as (r2 & transcript & Hr & Hg & Ht & _).
  exists r2, transcript. split; [exact Hr|]. split; [exact Hg|exact Ht].
Defined.

(** X8 at an introduction followed by two numbered lines. *)
Lemma X8_witness :
  existsb numbered_line (split LF Scenario.intro_and_list) = true /\
  extract_steps Scenario.intro_and_list
  = map trim (filter numbered_line (split LF Scenario.intro_and_list)) /\
  extract_steps Scenario.intro_and_list = [str "1. Do X"; str "2. Do Y"].
Proof.
  assert (E : existsb numbered_line (split LF Scenario.intro_and_list) = true)
    by (vm_compute; reflexivity).
  assert (F : Forall (fun l => numbered_line l = true \/ digit_free l = true)
                     (split LF Scenario.intro_and_list)).
  { apply Forall_forall. intros l Hin. vm_compute in Hin.
    repeat (destruct Hin as [<-|Hin];
            [first [left; vm_compute; reflexivity
                   |right; vm_compute; reflexivity]|]).
    contradiction. }
  split; [exact E|].
  pose proof (X8_numbered_list_gives_its_lines Scenario.intro_and_list F E) as H.
  split; [exact H|]. rewrite H. vm_compute. reflexivity.
Defined.

(** X9 at a text in capitals. *)
Lemma X9_witness :
  map upper_unit (str "A MATH PROBLEM") = map upper_unit (str "a math problem") /\
  shouldEnterTutorialMode (JStr (str "A MATH PROBLEM"))
  = shouldEnterTutorialMode (JStr (str "a math problem")).
Proof.
  assert (E : map upper_unit (str "A MATH PROBLEM")
              = map upper_unit (str "a math problem")) by reflexivity.
  split; [exact E|].
  exact (proj1 (X9_detection_ignores_case_and_surroundings
                  (str "a math problem") (str "A MATH PROBLEM") [] [] E)).
Defined.

(** The run of a drawing, with the audio directory missing. *)
Lemma cat_run :
  Runs (analyzeImage Scenario.controllers Sample.join_with_slash
                     Sample.image_request)
       Scenario.cat_trace Scenario.cat_response.
Proof.
  unfold analyzeImage, try_catch, and_then, createChatCompletion.
  cbn [truthy image_url Sample.image_request negb bind].
  apply RunsChat. cbn [bind first_message choices content content_value ret].
  change (shouldEnterTutorialMode (JStr Scenario.cat)) with false.
  cbn [bind ret createAudio]. apply RunsAudio. cbn [bind now ret].
  apply RunsNow. cbn [bind existsSync ret]. apply RunsExists.
  cbn [bind negb mkdirSync]. apply RunsMkdir.
  cbn [bind ret writeFileSync]. apply RunsWrite. cbn [bind].
  apply RunsRet.
Qed.

(** X10 at the run of a drawing: no steps call, one [mkdirSync]. *)
Lemma X10_witness :
  Runs (analyzeImage Scenario.controllers Sample.join_with_slash
                     Sample.image_request)
       Scenario.cat_trace Scenario.cat_response /\
  status Scenario.cat_response = 200%Z /\
  exists m more steps_call steps data t present,
    Scenario.cat_trace
    = EvChat (vision_request Sample.image_request)
             (Resolved (mkChatCompletion (m :: more)))
      :: steps_call
      ++ [ EvAudio (mkAudioRequest (str "tts-1") (str "alloy") (content_value m))
                   (Resolved data);
           EvNow t;
           EvExists Scenario.audioDir present ]
      ++ (if present then [] else [EvMkdir Scenario.audioDir (Resolved tt)])
      ++ [ EvWrite (Sample.join_with_slash Scenario.audioDir (audio_name t))
                   data (Resolved tt) ] /\
    get (json Scenario.cat_response) (str "learning_steps")
    = Some (JArr (map JStr steps)).
Proof.
  split; [exact cat_run|]. split; [reflexivity|].
  destruct (X10_successful_image_run Scenario.controllers
              Sample.join_with_slash Sample.image_request _ _ cat_run eq_refl)
    as (m & more & sc & steps & data & t & present & _ & Et & Er).
  exists m, more, sc, steps, data, t, present. split; [exact Et|].
  rewrite Er. reflexivity.
Defined.

(** X11 at the run of a drawing. *)
Lemma X11_witness :
  Runs (analyzeImage Scenario.controllers Sample.join_with_slash
                     Sample.image_request)
       Scenario.cat_trace Scenario.cat_response /\
  truthy (image_url Sample.image_request) = true.
Proof.
  split; [exact cat_run|].
  destruct (X11_image_runs Scenario.controllers Sample.join_with_slash
              Sample.image_request _ _ cat_run)
    as [(_ & E & _)|(H & _)]; [discriminate E|exact H].
Defined.

(** X12 at a speech synthesis that is rejected after the steps of a
    math problem have been computed. *)
Lemma X12_witness :
  truthy (image_url Sample.image_request) = true /\
  shouldEnterTutorialMode (JStr Scenario.math) = true /\
  Runs (analyzeImage Scenario.controllers Sample.join_with_slash
                     Sample.image_request)
       ([ EvChat (vision_request Sample.image_request)
                 (Resolved (mkChatCompletion
                              [mkChatMessage None (Some Scenario.math)]));
          EvChat (steps_request (JStr Scenario.math))
                 (Resolved (mkChatCompletion
                              [mkChatMessage None (Some Sample.numbered_text)]));
          EvAudio (mkAudioRequest (str "tts-1") (str "alloy") (JStr Scenario.math))
                  (Rejected (str "quota exceeded")) ]
        ++ fst (failure (str "Error analyzing image:")
                        (str "Error analyzing image") (str "quota exceeded")))
       (snd (failure (str "Error analyzing image:")
                     (str "Error analyzing image") (str "quota exceeded"))).
Proof.
  assert (D : shouldEnterTutorialMode (JStr Scenario.math) = true)
    by (vm_compute; reflexivity).
  split; [reflexivity|]. split; [exact D|].
  pose proof (proj1 (proj2 (proj2
                (X12_image_failures Scenario.controllers
                   Sample.join_with_slash Sample.image_request
                   (mkChatMessage None (Some Scenario.math)) []
                   None Sample.numbered_text []
                   (str "mp3") (str "quota exceeded") 0%Z eq_refl)))) as R.
  cbn [content_value Effects.content] in R. rewrite D in R. exact R.
Defined.

(** X14 at two uploads stored under one name. *)
Lemma X14_witness :
  Runs (Upload.filename Scenario.png 7 Scenario.photo) [EvNow 5]
       (Resolved (str "5-7.png")) /\
  (5 = 5)%Z /\ (7 = 7)%Z /\
  str "5-7.png" = string_of_Z 5 ++ str "-" ++ string_of_Z 7 ++ str ".png".
Proof.
  assert (R : Runs (Upload.filename Scenario.png 7 Scenario.photo) [EvNow 5]
                   (Resolved (str "5-7.png"))).
  { unfold Upload.filename, and_then, now. cbn [bind].
    apply RunsNow. cbn [bind ret]. apply RunsRet. }
  split; [exact R|].
  destruct (X14_upload_names_collide_only_on_same_draw
              Scenario.png Scenario.photo Scenario.photo 7 7 5 5
              (str "5-7.png"))
    as (Ht & Hr & _ & Hn); try exact R; try (unfold natural; lia).
  - intros n. reflexivity.
  - split; [exact Ht|]. split; [exact Hr|exact Hn].
Defined.

(** X15 at a directory that exists. *)
Lemma X15_witness :
  Runs (Upload.destination Scenario.controllers Sample.join_with_slash)
       [EvExists (Sample.join_with_slash Scenario.controllers
                    (str "../uploads/images")) true]
       (Resolved (Sample.join_with_slash Scenario.controllers
                    (str "../uploads/images"))) /\
  ((@eq (list Event)
        [EvExists (Sample.join_with_slash Scenario.controllers
                     (str "../uploads/images")) true]
        [EvExists (Sample.join_with_slash Scenario.controllers
                     (str "../uploads/images")) true] /\
    Resolved (Sample.join_with_slash Scenario.controllers
                (str "../uploads/images"))
    = Resolved (A := jsstring)
               (Sample.join_with_slash Scenario.controllers
                  (str "../uploads/images"))) \/
   (@eq (list Event)
        [EvExists (Sample.join_with_slash Scenario.controllers
                     (str "../uploads/images")) true]
        [EvExists (Sample.join_with_slash Scenario.controllers
                     (str "../uploads/images")) false;
         EvMkdir (Sample.join_with_slash Scenario.controllers
                    (str "../uploads/images")) (Resolved tt)] /\
    Resolved (Sample.join_with_slash Scenario.controllers
                (str "../uploads/images"))
    = Resolved (A := jsstring)
               (Sample.join_with_slash Scenario.controllers
                  (str "../uploads/images"))) \/
   (exists e,
       @eq (list Event)
           [EvExists (Sample.join_with_slash Scenario.controllers
                        (str "../uploads/images")) true]
           [EvExists (Sample.join_with_slash Scenario.controllers
                        (str "../uploads/images")) false;
            EvMkdir (Sample.join_with_slash Scenario.controllers
                       (str "../uploads/images")) (Rejected e)] /\
       Resolved (Sample.join_with_slash Scenario.controllers
                   (str "../uploads/images"))
       = Rejected e)).
Proof.
  assert (R : Runs (Upload.destination Scenario.controllers
                                       Sample.join_with_slash)
                   [EvExists (Sample.join_with_slash Scenario.controllers
                                (str "../uploads/images")) true]
                   (Resolved (Sample.join_with_slash Scenario.controllers
                                (str "../uploads/images")))).
  { unfold Upload.destination, and_then, existsSync. cbn [bind].
    apply RunsExists. cbn [bind ret negb]. apply RunsRet. }
  split; [exact R|].
  exact (X15_destination_creates_when_missing
           Scenario.controllers Sample.join_with_slash _ _ R).
Defined.
End MoreInstances.
